(** * Asset generation and outline scripts: a shallow embedding

    The Python scripts of the repository are embedded as Rocq functions:

    - [Py]: the Python built-ins the scripts rely on (string methods,
      decimal formatting of integers, truthiness);
    - [text_canvas]: the depth and dash helpers, the headings and the file
      names of [text_canvas.py];
    - [numbered_list]: the outline parser and the file-name sanitizer of
      [numbered_list.py];
    - [plan], [data_img_p]: what [plan.py] and [data_img_p.py] make of the
      reply of the model, and the name of the plan file;
    - [Sys]: the process environment of [asset_generation_blueprint.py]
      (clock, file system, open file handles, the remote service, stdout)
      with a small state-and-exit monad;
    - [asset_generation_blueprint]: the request helpers and the generation
      modes of that script;
    - [Console], [interactive]: standard input and the dialogue of
      [interactive_main];
    - [Trace], [Frames], [Scenarios], [Handles], [Runs]: the vocabulary of
      the statements (timelines of the polling loops, relations kept by
      computations, concrete worlds, file handles, parts of runs).

    Definitions come first, theorems after them. *)

From Stdlib Require Import ZArith QArith String Ascii List DecimalString Lia.
From stdpp Require Import base option gmap strings list.

Open Scope Z_scope.

(* ===================================================================== *)
(** * Python built-ins *)
(* ===================================================================== *)

Module Py.

(** A Python [str] is modelled by a Rocq [string] whose characters are the
    code points; the model covers the code points below 256. *)

Definition code (c : ascii) : N := N_of_ascii c.

(** [c.isspace()] for the code points below 256: TAB..CR, FS..US, SPACE,
    NEL and NBSP. *)
Definition isspace (c : ascii) : bool :=
  let n := code c in
  ((9 <=? n) && (n <=? 13) || (28 <=? n) && (n <=? 32)
   || (n =? 133) || (n =? 160))%N.

(** The line boundaries of [str.splitlines] below 256: LF, VT, FF, CR, FS,
    GS, RS and NEL. *)
Definition islinebreak (c : ascii) : bool :=
  let n := code c in
  ((10 <=? n) && (n <=? 13) || (28 <=? n) && (n <=? 30) || (n =? 133))%N.

Definition is_cr (c : ascii) : bool := (code c =? 13)%N.
Definition is_lf (c : ascii) : bool := (code c =? 10)%N.

(** [s == ""] *)
Definition is_empty (s : string) : bool :=
  match s with EmptyString => true | String _ _ => false end.

(** [s.lstrip()] *)
Fixpoint lstrip (s : string) : string :=
  match s with
  | EmptyString => EmptyString
  | String c s' => if isspace c then lstrip s' else s
  end.

(** [s.rstrip()] *)
Fixpoint rstrip (s : string) : string :=
  match s with
  | EmptyString => EmptyString
  | String c s' =>
      let r := rstrip s' in
      if is_empty r && isspace c then EmptyString else String c r
  end.

(** [s.strip()] *)
Definition strip (s : string) : string := rstrip (lstrip s).

(** [s.splitlines()]: [cur] is the line being read.  A boundary ends the
    current line (CR LF counts once); what follows the last boundary is a
    line only when it is not empty. *)
Fixpoint splitlines_from (cur s : string) : list string :=
  match s with
  | EmptyString => if is_empty cur then [] else [cur]
  | String c s' =>
      if is_cr c then
        match s' with
        | String c' s'' =>
            if is_lf c' then cur :: splitlines_from EmptyString s''
            else cur :: splitlines_from EmptyString s'
        | EmptyString => cur :: splitlines_from EmptyString s'
        end
      else if islinebreak c then cur :: splitlines_from EmptyString s'
      else splitlines_from (cur +:+ String c EmptyString) s'
  end.

Definition splitlines (s : string) : list string :=
  splitlines_from EmptyString s.

(** [s.startswith(p)], returning what follows the prefix. *)
Fixpoint strip_prefix (p s : string) : option string :=
  match p, s with
  | EmptyString, _ => Some s
  | String a p', String b s' =>
      if Ascii.eqb a b then strip_prefix p' s' else None
  | String _ _, EmptyString => None
  end.

(** The first occurrence of [sep] in [s], as the text before it and the
    text after it. *)
Fixpoint cut (sep s : string) : option (string * string) :=
  match strip_prefix sep s with
  | Some rest => Some (EmptyString, rest)
  | None =>
      match s with
      | EmptyString => None
      | String c s' =>
          match cut sep s' with
          | Some (before, after) => Some (String c before, after)
          | None => None
          end
      end
  end.

(** [sub in s] *)
Definition contains (sub s : string) : bool :=
  match cut sub s with Some _ => true | None => false end.

(** [s.split(sep, 1)] for a non-empty [sep]: at most one split, at the
    first occurrence. *)
Definition split1 (sep s : string) : list string :=
  match cut sep s with
  | Some (before, after) => [before; after]
  | None => [s]
  end.

(** [s.count(c)] for a one-character [c]. *)
Fixpoint count_char (c : ascii) (s : string) : Z :=
  match s with
  | EmptyString => 0
  | String d s' => (if Ascii.eqb c d then 1 else 0) + count_char c s'
  end.

(** [c * n] for a one-character [c]; empty when [n <= 0]. *)
Definition repeat_char (c : ascii) (n : Z) : string :=
  string_of_list_ascii (List.repeat c (Z.to_nat n)).

(** [str(n)] for an [int]. *)
Definition str_of_int (n : Z) : string :=
  NilZero.string_of_int (Z.to_int n).

(** [s.rfind(c)] for a one-character [c]: the index of the last
    occurrence, or [-1]. *)
Fixpoint rfind_char (c : ascii) (s : string) : Z :=
  match s with
  | EmptyString => -1
  | String d s' =>
      let r := rfind_char c s' in
      if 0 <=? r then r + 1 else if Ascii.eqb c d then 0 else -1
  end.

(** The slices [s[i:j]] and [s[i:]] for [0 <= i <= j]. *)
Definition slice (s : string) (i j : Z) : string :=
  String.substring (Z.to_nat i) (Z.to_nat (j - i)) s.
Definition slice_from (s : string) (i : Z) : string :=
  String.substring (Z.to_nat i) (String.length s - Z.to_nat i) s.

(** [os.path.basename(p)] (posixpath): what follows the last slash. *)
Definition basename (p : string) : string :=
  slice_from p (rfind_char "/" p + 1).

(** Whether every character of [s] is a dot. *)
Fixpoint all_dots (s : string) : bool :=
  match s with
  | EmptyString => true
  | String c s' => Ascii.eqb c "." && all_dots s'
  end.

(** [os.path.splitext(p)] (posixpath): the extension starts at the last
    dot, provided that dot comes after the last slash and the file name
    has a character other than a dot before it. *)
Definition splitext (p : string) : string * string :=
  let sepIndex := rfind_char "/" p in
  let dotIndex := rfind_char "." p in
  if sepIndex <? dotIndex then
    if all_dots (slice p (sepIndex + 1) dotIndex) then (p, EmptyString)
    else (slice p 0 dotIndex, slice_from p dotIndex)
  else (p, EmptyString).

(** [s.split(c)[0]] for a one-character [c]: the text before the first
    occurrence, or all of [s]. *)
Fixpoint split_head (c : ascii) (s : string) : string :=
  match s with
  | EmptyString => EmptyString
  | String d s' =>
      if Ascii.eqb c d then EmptyString else String d (split_head c s')
  end.

(** [s.rsplit(c, 1)[0]] for a one-character [c]: the text before the last
    occurrence, or all of [s]. *)
Definition rsplit1_head (c : ascii) (s : string) : string :=
  let i := rfind_char c s in
  if i <? 0 then s else slice s 0 i.

(** [s.replace(old, new)] for a one-character [old]. *)
Fixpoint replace_char (old : ascii) (new : string) (s : string) : string :=
  match s with
  | EmptyString => EmptyString
  | String c s' =>
      if Ascii.eqb c old then new +:+ replace_char old new s'
      else String c (replace_char old new s')
  end.

(** [re.sub('[...]', '', s)] for a character class given by its members:
    the characters of the class are dropped. *)
Fixpoint remove_chars (class : list ascii) (s : string) : string :=
  match s with
  | EmptyString => EmptyString
  | String c s' =>
      if existsb (Ascii.eqb c) class then remove_chars class s'
      else String c (remove_chars class s')
  end.

(** [c.lower()] for the code points below 256: A..Z and the capital
    letters of Latin-1 move up by 32. *)
Definition lower_char (c : ascii) : ascii :=
  let n := code c in
  if ((65 <=? n) && (n <=? 90) || (192 <=? n) && (n <=? 214)
      || (216 <=? n) && (n <=? 222))%N
  then ascii_of_N (n + 32)
  else c.

(** [s.lower()] *)
Fixpoint lower (s : string) : string :=
  match s with
  | EmptyString => EmptyString
  | String c s' => String (lower_char c) (lower s')
  end.

(** [c.isalnum()] for the code points below 256: the digits, the ASCII
    letters, and the letters and numeric characters of Latin-1. *)
Definition isalnum (c : ascii) : bool :=
  let n := code c in
  ((48 <=? n) && (n <=? 57) || (65 <=? n) && (n <=? 90)
   || (97 <=? n) && (n <=? 122) || (n =? 170) || (n =? 178) || (n =? 179)
   || (n =? 181) || (n =? 185) || (n =? 186)
   || (188 <=? n) && (n <=? 190) || (192 <=? n) && (n <=? 214)
   || (216 <=? n) && (n <=? 246) || (248 <=? n))%N.

(** [''.join(c for c in s if keep(c))] *)
Fixpoint keep_chars (keep : ascii -> bool) (s : string) : string :=
  match s with
  | EmptyString => EmptyString
  | String c s' =>
      if keep c then String c (keep_chars keep s') else keep_chars keep s'
  end.

End Py.

(* ===================================================================== *)
(** * text_canvas.py *)
(* ===================================================================== *)

Module text_canvas.

(** [get_depth]: the number of dots of the id. *)
Definition get_depth (id_str : string) : Z :=
  Py.count_char "." id_str.

Definition get_dash (depth : Z) : string :=
  if depth =? 0 then Py.repeat_char "-" 40
  else if depth =? 1 then Py.repeat_char "-" 20
  else if depth =? 2 then Py.repeat_char "-" 10
  else Py.repeat_char "-" 5.

(** The characters that the scripts remove from file names, the members
    of the class of their regular expression: the angle brackets, the
    colon, the double quote, the two slashes, the bar, the question mark
    and the star. *)
Definition invalid_chars : list ascii :=
  ["<"; ">"; ":"; ascii_of_nat 34; "/"; "\"; "|"; "?"; "*"]%char.

(** [main], line 23: the file-name form of the project name. *)
Definition sanitized_project_name (project_name : string) : string :=
  Py.lower
    (Py.replace_char "&" "and"
       (Py.replace_char " " "_"
          (Py.remove_chars invalid_chars project_name))).

(** [main], line 24. *)
Definition output_file (project_name : string) : string :=
  sanitized_project_name project_name +:+ "_processed.json".

(** [main], line 119. *)
Definition txt_file (project_name : string) : string :=
  Py.rsplit1_head "." (output_file project_name) +:+ ".txt".

(** [main], lines 105-106: the heading of an item in the report. *)
Definition heading (id title : string) : string :=
  id +:+ ". " +:+ title.

End text_canvas.

(* ===================================================================== *)
(** * numbered_list.py *)
(* ===================================================================== *)

Module numbered_list.

Record ListItem := mkListItem { id : string; title : string }.

(** The body of the [for] loop of [parse_list] for one line.  The tuple
    assignment [id_part, title = stripped.split(". ", 1)] needs a list of
    two; it is only reached when the separator occurs, and any other shape
    leaves the list as it is. *)
Definition parse_line (list_items : list ListItem) (line : string)
  : list ListItem :=
  let stripped := Py.strip line in
  if Py.is_empty stripped then list_items
  else if Py.contains ". " stripped then
    match Py.split1 ". " stripped with
    | [id_part; title] =>
        list_items ++ [mkListItem (Py.strip id_part) (Py.strip title)]
    | _ => list_items
    end
  else list_items ++ [mkListItem "" stripped].

Definition parse_list (output : string) : list ListItem :=
  foldl parse_line [] (Py.splitlines output).


(** The main block, lines 115-116: the name of the file written for the
    input file [input_filename]. *)
Definition output_filename (input_filename : string) : string :=
  let base_name := fst (Py.splitext (Py.basename input_filename)) in
  base_name +:+ "_numbered_list.json".

End numbered_list.

(* ===================================================================== *)
(** * plan.py *)
(* ===================================================================== *)

Module plan.

(** [generate_response_and_project_name], lines 21-23: what the function
    returns for the [content] of the reply of the model. *)
Definition project_name_and_plan (content : string) : string * string :=
  let plan_text := Py.strip content in
  let project_name := Py.split_head "010" plan_text in
  (project_name, plan_text).

(** [save_to_json], lines 28-29: the name of the file. *)
Definition plan_filename (project_name : string) : string :=
  let sanitized_project_name :=
    Py.strip
      (Py.keep_chars
         (fun c => Py.isalnum c || Ascii.eqb c " " || Ascii.eqb c "_")
         project_name) in
  Py.lower (Py.replace_char " " "_" sanitized_project_name) +:+ "_plan.json".

End plan.

(* ===================================================================== *)
(** * data_img_p.py *)
(* ===================================================================== *)

Module data_img_p.

(** [generate_explanation], line 37: what the function returns for the
    [content] of the reply of the model. *)
Definition explanation_of (content : string) : string :=
  if negb (Py.is_empty content) then Py.strip content
  else "No explanation generated.".

(** [generate_image_prompt], line 56. *)
Definition image_prompt_of (content : string) : string :=
  if negb (Py.is_empty content) then Py.strip content
  else "No image prompt generated.".

(** The main block, line 134: the name of the file written for the input
    file [input_file]. *)
Definition output_file (input_file : string) : string :=
  "processed_" +:+ Py.basename input_file.

End data_img_p.

(* ===================================================================== *)
(** * The process environment *)
(* ===================================================================== *)

Module Sys.

(** ** Data exchanged with the remote service *)

(** The values of a parameter mapping: [str], [int] and (finite) [float]. *)
Inductive value := VStr (s : string) | VInt (n : Z) | VFloat (q : Q).

(** A value of a decoded JSON object.  [JOther] stands for a float, an
    array or an object, by its [str()] text and its truth value. *)
Inductive json :=
| JNone
| JBool (b : bool)
| JInt (n : Z)
| JStr (s : string)
| JOther (text : string) (truth : bool).

(** [bool(v)] *)
Definition truthy (v : json) : bool :=
  match v with
  | JNone => false
  | JBool b => b
  | JInt n => negb (n =? 0)
  | JStr s => negb (Py.is_empty s)
  | JOther _ t => t
  end.

(** [str(v)], as an f-string formats it. *)
Definition format (v : json) : string :=
  match v with
  | JNone => "None"
  | JBool true => "True"
  | JBool false => "False"
  | JInt n => Py.str_of_int n
  | JStr s => s
  | JOther text _ => text
  end.

(** What [response.json()] makes of a body: not JSON at all, a JSON
    object, or JSON of another type. *)
Inductive json_doc :=
| NotJson
| JsonDict (d : gmap string json)
| JsonOther.

(** A [requests.Response].  [headers] is keyed by the lower-cased field
    name (the library's mapping is case-insensitive); [content] doubles as
    [text]. *)
Record response := mkResponse {
  status_code : Z;
  headers : gmap string string;
  content : string;
  body : json_doc;
}.

(** [response.ok]: [raise_for_status] would not raise, that is the status
    is not in 400..599. *)
Definition ok (r : response) : bool :=
  negb ((400 <=? status_code r) && (status_code r <? 600)).

(** A part of the multipart file set: an open file object or a tuple. *)
Inductive part := PFile (h : nat) | PTuple (name data : string).

#[global] Instance part_eq_dec : EqDecision part.
Proof. solve_decision. Defined.

Inductive method := GET | POST.

Record request := mkRequest {
  req_method : method;
  req_url : string;
  req_headers : gmap string string;
  req_files : gmap string part;
  req_data : gmap string value;
}.

(** What the network does with one request: after [latency] milliseconds
    the call returns a response, or raises (connection error and the
    like) with the given text. *)
Inductive reply :=
| Responds (latency : Z) (r : response)
| Fails (latency : Z) (e : string).

(** ** The world *)

Record world := mkWorld {
  clock : Z;                         (* [time.time()], in milliseconds *)
  fs : gmap string string;           (* the files, by path *)
  pil_size : string -> option (Z * Z);
                                     (* the size PIL reads from a file's
                                        bytes, when it is an image *)
  next_handle : nat;
  open_handles : gset nat;           (* file objects not yet closed *)
  net : list reply;                  (* the replies to come, in order *)
  sent : list request;               (* the requests issued so far *)
  stdout : list string;              (* the lines printed so far *)
}.

Definition set_clock (t : Z) (w : world) : world :=
  mkWorld t (fs w) (pil_size w) (next_handle w) (open_handles w) (net w)
          (sent w) (stdout w).
Definition set_fs (f : gmap string string) (w : world) : world :=
  mkWorld (clock w) f (pil_size w) (next_handle w) (open_handles w) (net w)
          (sent w) (stdout w).
Definition set_handles (n : nat) (o : gset nat) (w : world) : world :=
  mkWorld (clock w) (fs w) (pil_size w) n o (net w) (sent w) (stdout w).
Definition set_net (l : list reply) (w : world) : world :=
  mkWorld (clock w) (fs w) (pil_size w) (next_handle w) (open_handles w) l
          (sent w) (stdout w).
Definition set_sent (l : list request) (w : world) : world :=
  mkWorld (clock w) (fs w) (pil_size w) (next_handle w) (open_handles w)
          (net w) l (stdout w).
Definition set_stdout (l : list string) (w : world) : world :=
  mkWorld (clock w) (fs w) (pil_size w) (next_handle w) (open_handles w)
          (net w) (sent w) l.

(** ** Computations *)

(** How a computation ends: it returns, it leaves the process through
    [exit(code)] ([SystemExit], which [except Exception] does not catch),
    it raises an [Exception] (given by its text), or it waits for a reply
    that the script of the network does not hold. *)
Inductive outcome (A : Type) :=
| Ret (a : A)
| Exit (code : Z)
| Raise (e : string)
| Blocked.
Arguments Ret {A} a.
Arguments Exit {A} code.
Arguments Raise {A} e.
Arguments Blocked {A}.

Definition M (A : Type) : Type := world -> outcome A * world.

Definition ret {A} (a : A) : M A := fun w => (Ret a, w).

Definition bind {A B} (c : M A) (k : A -> M B) : M B :=
  fun w =>
    match c w with
    | (Ret a, w') => k a w'
    | (Exit code, w') => (Exit code, w')
    | (Raise e, w') => (Raise e, w')
    | (Blocked, w') => (Blocked, w')
    end.

Declare Scope sys_scope.
Delimit Scope sys_scope with sys.
Notation "x <- c ;; k" := (bind c (fun x => k))
  (at level 100, c at next level, right associativity) : sys_scope.
Notation "c ;; k" := (bind c (fun _ => k))
  (at level 100, right associativity) : sys_scope.
Local Open Scope sys_scope.

Definition exit {A} (code : Z) : M A := fun w => (Exit code, w).
Definition raise {A} (e : string) : M A := fun w => (Raise e, w).

(** [try: c  except Exception as e: handler e] *)
Definition try_except {A} (c : M A) (handler : string -> M A) : M A :=
  fun w =>
    match c w with
    | (Raise e, w') => handler e w'
    | r => r
    end.

(** [while True: body], where [body] yields [Some a] to leave the loop
    with [a] and [None] to go round again.  [fuel] bounds the rounds; a
    loop that uses it up is reported as [Blocked]. *)
Fixpoint while_true {A} (fuel : nat) (body : M (option A)) : M A :=
  match fuel with
  | O => fun w => (Blocked, w)
  | S fuel' =>
      r <- body ;;
      match r with
      | Some a => ret a
      | None => while_true fuel' body
      end
  end.

(** The loops of the script start every round with an HTTP request, which
    takes one reply from the script of the network: one round more than
    there are replies is enough to see the loop end or wait for a reply. *)
Definition loop {A} (body : M (option A)) : M A :=
  fun w => while_true (S (length (net w))) body w.

Definition print (line : string) : M unit :=
  fun w => (Ret tt, set_stdout (stdout w ++ [line]) w).

(** [time.time()], in milliseconds. *)
Definition time_time : M Z := fun w => (Ret (clock w), w).

(** [int(time.time())]: whole seconds. *)
Definition time_int : M Z := fun w => (Ret (clock w ÷ 1000), w).

(** [time.sleep(seconds)] *)
Definition sleep (seconds : Z) : M unit :=
  fun w => (Ret tt, set_clock (clock w + 1000 * seconds) w).

(** [os.path.exists(path)] *)
Definition path_exists (path : string) : M bool :=
  fun w => (Ret (bool_decide (is_Some (fs w !! path))), w).

(** [open(path, 'rb')] *)
Definition open_rb (path : string) : M nat :=
  fun w =>
    match fs w !! path with
    | Some _ =>
        let h := next_handle w in
        (Ret h, set_handles (S h) ({[h]} ∪ open_handles w) w)
    | None => (Raise ("No such file or directory: " +:+ path), w)
    end.

(** [file.close()]; closing twice is harmless. *)
Definition close (h : nat) : M unit :=
  fun w => (Ret tt, set_handles (next_handle w) (open_handles w ∖ {[h]}) w).

(** [with open(path, 'rb') as f: body f]: the file is closed however the
    body ends.  A body that waits for the network still holds the file. *)
Definition with_open_rb {A} (path : string) (body : nat -> M A) : M A :=
  h <- open_rb path ;;
  fun w =>
    match body h w with
    | (Blocked, w') => (Blocked, w')
    | (r, w') => (r, snd (close h w'))
    end.

(** [with open(path, 'wb') as f: f.write(data)] *)
Definition write_wb (path data : string) : M unit :=
  fun w => (Ret tt, set_fs (<[path := data]> (fs w)) w).

(** [with Image.open(path) as img: body img.size] *)
Definition with_image_open {A} (path : string) (body : Z * Z -> M A) : M A :=
  fun w =>
    match fs w !! path with
    | None => (Raise ("No such file or directory: " +:+ path), w)
    | Some data =>
        match pil_size w data with
        | None => (Raise ("cannot identify image file " +:+ path), w)
        | Some size =>
            (h <- open_rb path ;;
             fun w1 =>
               match body size w1 with
               | (Blocked, w') => (Blocked, w')
               | (r, w') => (r, snd (close h w'))
               end) w
        end
    end.

(** One HTTP exchange: the request is issued, then its reply is awaited. *)
Definition exchange (rq : request) : M response :=
  fun w =>
    let w1 := set_sent (sent w ++ [rq]) w in
    match net w1 with
    | [] => (Blocked, w1)
    | Responds latency r :: rest =>
        (Ret r, set_clock (clock w1 + latency) (set_net rest w1))
    | Fails latency e :: rest =>
        (Raise e, set_clock (clock w1 + latency) (set_net rest w1))
    end.

(** [requests.post(url, headers=headers, files=files, data=data)] *)
Definition requests_post (url : string) (hdrs : gmap string string)
    (files : gmap string part) (data : gmap string value) : M response :=
  exchange (mkRequest POST url hdrs files data).

(** [requests.get(url, headers=headers)] *)
Definition requests_get (url : string) (hdrs : gmap string string)
  : M response :=
  exchange (mkRequest GET url hdrs ∅ ∅).

(** [response.json()] *)
Definition response_json (r : response) : M json_doc :=
  match body r with
  | NotJson => raise "Expecting value"
  | doc => ret doc
  end.

(** [doc.get(key)]: only a dict has [get]; a missing key gives [None]. *)
Definition doc_get (doc : json_doc) (key : string) : M json :=
  match doc with
  | JsonDict d => ret (default JNone (d !! key))
  | _ => raise "object has no attribute 'get'"
  end.

(** [response.headers.get(name, fallback)] *)
Definition header_get (r : response) (name fallback : string) : string :=
  default fallback (headers r !! name).

(** [for x in xs: f x] *)
Fixpoint for_each {A} (xs : list A) (f : A -> M unit) : M unit :=
  match xs with
  | [] => ret tt
  | x :: xs' => f x ;; for_each xs' f
  end.

End Sys.

(* ===================================================================== *)
(** * asset_generation_blueprint.py *)
(* ===================================================================== *)

Module asset_generation_blueprint.
Import Sys.
Local Open Scope sys_scope.

Definition IMAGE_GENERATION_ENDPOINT : string :=
  "https://api.stability.ai/v2beta/stable-image/generate/ultra".
Definition VIDEO_GENERATION_ENDPOINT : string :=
  "https://api.stability.ai/v2beta/image-to-video".
Definition THREE_D_GENERATION_ENDPOINT : string :=
  "https://api.stability.ai/v2beta/3d/stable-fast-3d".
Definition SKETCH_ENDPOINT : string :=
  "https://api.stability.ai/v2beta/stable-image/control/sketch".
Definition SD3_ENDPOINT : string :=
  "https://api.stability.ai/v2beta/stable-image/generate/sd3".
Definition UPSCALER_ENDPOINT : string :=
  "https://api.stability.ai/v2beta/stable-image/upscale/creative".
Definition THREE_D_AWARE_ENDPOINT : string :=
  "https://api.stability.ai/v2beta/3d/stable-point-aware-3d".

(** ** Helper functions *)

Definition unique_filename (prefix ext : string) (seed : option Z)
  : M string :=
  ts <- time_int ;;
  match seed with
  | Some seed =>
      ret (prefix +:+ "_" +:+ Py.str_of_int seed +:+ "_"
           +:+ Py.str_of_int ts +:+ "." +:+ ext)
  | None => ret (prefix +:+ "_" +:+ Py.str_of_int ts +:+ "." +:+ ext)
  end.

(** [if v and os.path.exists(v): files[key] = open(v, 'rb')], for the value
    [v] popped from the parameters.  In this script such a value is a path
    string or absent; for a value of another type nothing is opened. *)
Definition attach (key : string) (v : option value)
    (files : gmap string part) : M (gmap string part) :=
  match v with
  | Some (VStr path) =>
      if Py.is_empty path then ret files
      else
        found <- path_exists path ;;
        if found then
          h <- open_rb path ;;
          ret (<[key := PFile h]> files)
        else ret files
  | _ => ret files
  end.

(** [for file in files.values(): if hasattr(file, "close"): file.close()] *)
Definition close_files (files : gmap string part) : M unit :=
  for_each (map_to_list files)
    (fun kv => match snd kv with
               | PFile h => close h
               | PTuple _ _ => ret tt
               end).

(** [if not files: files["none"] = ("", "")] *)
Definition or_placeholder (files : gmap string part) : gmap string part :=
  if decide (files = ∅) then <["none" := PTuple "" ""]> files else files.

Definition send_generation_request (host : string)
    (params : gmap string value) (files : option (gmap string part))
    (api_key : string) : M response :=
  let hdrs : gmap string string :=
    <["Authorization" := "Bearer " +:+ api_key]>
      (<["Accept" := "image/*"]> ∅) in
  let files := default ∅ files in
  let image_file := params !! "image" in
  let params := delete "image" params in
  let mask_file := params !! "mask" in
  let params := delete "mask" params in
  files <- attach "image" image_file files ;;
  files <- attach "mask" mask_file files ;;
  let files := or_placeholder files in
  print ("Sending REST request to " +:+ host +:+ "...") ;;
  response <- requests_post host hdrs files params ;;
  close_files files ;;
  if negb (ok response) then
    print ("Error: HTTP " +:+ Py.str_of_int (status_code response)
           +:+ ": " +:+ content response) ;;
    exit 1
  else ret response.

(** One round of the polling loop of [send_async_generation_request];
    [start] is in milliseconds, [timeout] and [poll_interval] in seconds. *)
Definition poll_round (poll_url api_key : string)
    (poll_interval timeout start : Z) : M (option response) :=
  print ("Polling results at " +:+ poll_url +:+ "...") ;;
  poll_response <-
    requests_get poll_url
      (<["Authorization" := "Bearer " +:+ api_key]>
         (<["Accept" := "*/*"]> ∅)) ;;
  if negb (ok poll_response) then
    print ("Error: HTTP " +:+ Py.str_of_int (status_code poll_response)
           +:+ ": " +:+ content poll_response) ;;
    exit 1
  else if negb (status_code poll_response =? 202) then
    ret (Some poll_response)
  else
    now <- time_time ;;
    if now - start >? 1000 * timeout then
      print ("Error: Timeout after " +:+ Py.str_of_int timeout
             +:+ " seconds") ;;
      exit 1
    else
      sleep poll_interval ;;
      ret None.

(** The polling loop of [send_async_generation_request]:
    [start = time.time()], then [while True]. *)
Definition poll_results (poll_url api_key : string)
    (poll_interval timeout : Z) : M response :=
  start <- time_time ;;
  loop (poll_round poll_url api_key poll_interval timeout start).

Definition send_async_generation_request (host : string)
    (params : gmap string value) (files : option (gmap string part))
    (api_key : string) (poll_interval timeout : Z) : M response :=
  let hdrs : gmap string string :=
    <["Authorization" := "Bearer " +:+ api_key]>
      (<["Accept" := "application/json"]> ∅) in
  let files := default ∅ files in
  let image_file := params !! "image" in
  let params := delete "image" params in
  let mask_file := params !! "mask" in
  let params := delete "mask" params in
  files <- attach "image" image_file files ;;
  files <- attach "mask" mask_file files ;;
  let files := or_placeholder files in
  print ("Sending asynchronous request to " +:+ host +:+ "...") ;;
  response <- requests_post host hdrs files params ;;
  close_files files ;;
  if negb (ok response) then
    print ("Error: HTTP " +:+ Py.str_of_int (status_code response)
           +:+ ": " +:+ content response) ;;
    exit 1
  else
    response_dict <- response_json response ;;
    generation_id <- doc_get response_dict "id" ;;
    match generation_id with
    | JNone =>
        print "Error: Expected an 'id' in the response" ;;
        exit 1
    | _ =>
        let poll_url :=
          "https://api.stability.ai/v2beta/results/"
          +:+ format generation_id in
        poll_results poll_url api_key poll_interval timeout
    end.

(** The defaults of [send_async_generation_request]. *)
Definition default_poll_interval : Z := 10.
Definition default_timeout : Z := 500.

(** ** Generation functions *)

(** The moderation check shared by the image-producing modes. *)
Definition content_filtered (r : response) : bool :=
  String.eqb (header_get r "finish-reason" "") "CONTENT_FILTERED".

(** [generate_image], lines 162-173: the parameters and the request. *)
Definition image_request (api_key prompt negative_prompt aspect_ratio
    : string) (seed : Z) (output_format endpoint : string) : M response :=
  let params : gmap string value :=
    <["prompt" := VStr prompt]>
      (<["negative_prompt" := VStr negative_prompt]>
         (<["aspect_ratio" := VStr aspect_ratio]>
            (<["seed" := VInt seed]>
               (<["output_format" := VStr output_format]> ∅)))) in
  try_except (send_generation_request endpoint params None api_key)
    (fun e => print ("Error during image generation: " +:+ e) ;;
              exit 1).

Definition generate_image (api_key prompt negative_prompt aspect_ratio
    : string) (seed : Z) (output_format endpoint : string) : M string :=
  response <-
    image_request api_key prompt negative_prompt aspect_ratio seed
      output_format endpoint ;;
  if content_filtered response then
    print "Error: Generation failed NSFW classifier." ;;
    exit 1
  else
    filename <- unique_filename "generated" output_format (Some seed) ;;
    write_wb filename (content response) ;;
    print ("Image successfully generated and saved as '" +:+ filename
           +:+ "'.") ;;
    ret filename.

(** One round of the polling loop of [generate_video]. *)
Definition video_round (result_url api_key : string) (seed : Z)
  : M (option string) :=
  print "Polling video generation result..." ;;
  poll_response <-
    requests_get result_url
      (<["Authorization" := "Bearer " +:+ api_key]>
         (<["accept" := "video/*"]> ∅)) ;;
  if status_code poll_response =? 202 then
    print "Video generation in progress, waiting 10 seconds..." ;;
    sleep 10 ;;
    ret None
  else if status_code poll_response =? 200 then
    filename <- unique_filename "video" "mp4" (Some seed) ;;
    write_wb filename (content poll_response) ;;
    print ("Video successfully generated and saved as '" +:+ filename
           +:+ "'.") ;;
    ret (Some filename)
  else
    print ("Error: " +:+ content poll_response) ;;
    exit 1.

(** The polling loop of [generate_video]. *)
Definition poll_video (result_url api_key : string) (seed : Z) : M string :=
  loop (video_round result_url api_key seed).

Definition generate_video (api_key image_path : string) (seed : Z)
    (cfg_scale : Q) (motion_bucket_id : Z) (endpoint : string) : M string :=
  let hdrs : gmap string string :=
    <["Authorization" := "Bearer " +:+ api_key]> ∅ in
  print ("Sending video generation request to " +:+ endpoint +:+ "...") ;;
  response <-
    try_except
      (with_open_rb image_path (fun image_file =>
         requests_post endpoint hdrs (<["image" := PFile image_file]> ∅)
           (<["seed" := VInt seed]>
              (<["cfg_scale" := VFloat cfg_scale]>
                 (<["motion_bucket_id" := VInt motion_bucket_id]> ∅)))))
      (fun e => print ("Error reading image file: " +:+ e) ;; exit 1) ;;
  if negb (ok response) then
    print ("Error: Video generation failed: HTTP "
           +:+ Py.str_of_int (status_code response) +:+ ": "
           +:+ content response) ;;
    exit 1
  else
    response_dict <- response_json response ;;
    generation_id <- doc_get response_dict "id" ;;
    if negb (truthy generation_id) then
      print "Error: No generation ID received." ;;
      exit 1
    else
      let result_url :=
        "https://api.stability.ai/v2beta/image-to-video/result/"
        +:+ format generation_id in
      poll_video result_url api_key seed.

Definition generate_3d (api_key image_path texture_resolution : string)
    (foreground_ratio : Q) (remesh : string) (vertex_count : Z)
    (additional_params : option (gmap string value)) (endpoint : string)
  : M string :=
  let params : gmap string value :=
    <["texture_resolution" := VStr texture_resolution]>
      (<["foreground_ratio" := VFloat foreground_ratio]>
         (<["remesh" := VStr remesh]>
            (<["vertex_count" := VInt vertex_count]>
               (<["image" := VStr image_path]> ∅)))) in
  let params :=
    match additional_params with
    | Some extra => if decide (extra = ∅) then params else extra ∪ params
    | None => params
    end in
  response <-
    try_except (send_generation_request endpoint params None api_key)
      (fun e => print ("Error during 3D model generation: " +:+ e) ;;
                exit 1) ;;
  filename <- unique_filename "model" "glb" None ;;
  write_wb filename (content response) ;;
  print ("3D model successfully generated and saved as '" +:+ filename
         +:+ "'.") ;;
  ret filename.

Definition generate_3d_aware (api_key image_path texture_resolution : string)
    (foreground_ratio : Q) (remesh : string) (vertex_count : Z)
    (additional_params : option (gmap string value)) (endpoint : string)
  : M string :=
  let params : gmap string value :=
    <["texture_resolution" := VStr texture_resolution]>
      (<["foreground_ratio" := VFloat foreground_ratio]>
         (<["remesh" := VStr remesh]>
            (<["vertex_count" := VInt vertex_count]>
               (<["image" := VStr image_path]> ∅)))) in
  let params :=
    match additional_params with
    | Some extra => if decide (extra = ∅) then params else extra ∪ params
    | None => params
    end in
  response <-
    try_except (send_generation_request endpoint params None api_key)
      (fun e => print ("Error during 3D aware generation: " +:+ e) ;;
                exit 1) ;;
  filename <- unique_filename "model_3d_aware" "glb" None ;;
  write_wb filename (content response) ;;
  print ("3D aware model generated and saved as '" +:+ filename
         +:+ "'.") ;;
  ret filename.

(** [sketch_to_image], lines 275-297: the check of the input file, the
    parameters and the request. *)
Definition sketch_request (api_key input_image prompt negative_prompt
    : string) (control_strength : Q) (seed : Z)
    (output_format endpoint : string) : M response :=
  found <- path_exists input_image ;;
  if negb found then
    print "Error: The specified input file does not exist." ;;
    exit 1
  else
    let params : gmap string value :=
      <["control_strength" := VFloat control_strength]>
        (<["seed" := VInt seed]>
           (<["output_format" := VStr output_format]>
              (<["prompt" := VStr prompt]>
                 (<["negative_prompt" := VStr negative_prompt]> ∅)))) in
    try_except
      (with_open_rb input_image (fun image_file =>
         let files : gmap string part := <["image" := PFile image_file]> ∅ in
         print ("Sending sketch-to-image request to " +:+ endpoint
                +:+ "...") ;;
         requests_post endpoint
           (<["Authorization" := "Bearer " +:+ api_key]>
              (<["Accept" := "image/*"]> ∅))
           files params))
      (fun e => print ("Error during sketch-to-image generation: "
                       +:+ e) ;;
                exit 1).

Definition sketch_to_image (api_key input_image prompt negative_prompt
    : string) (control_strength : Q) (seed : Z)
    (output_format endpoint : string) : M string :=
  response <-
    sketch_request api_key input_image prompt negative_prompt
      control_strength seed output_format endpoint ;;
  if negb (ok response) then
    print ("Error: HTTP " +:+ Py.str_of_int (status_code response)
           +:+ ": " +:+ content response) ;;
    exit 1
  else if content_filtered response then
    print "Error: Generation failed NSFW classifier." ;;
    exit 1
  else
    let filename := fst (Py.splitext (Py.basename input_image)) in
    let edited :=
      "edited_" +:+ filename +:+ "_" +:+ Py.str_of_int seed +:+ "."
      +:+ output_format in
    write_wb edited (content response) ;;
    print ("Sketch-to-image generated and saved as '" +:+ edited
           +:+ "'.") ;;
    ret edited.

(** [generate_sd3], lines 323-331: the parameters. *)
Definition sd3_params (prompt negative_prompt aspect_ratio : string)
    (seed : Z) (output_format model : string) : gmap string value :=
  <["prompt" := VStr prompt]>
    (<["negative_prompt" :=
         VStr (if String.eqb model "sd3" then negative_prompt else "")]>
       (<["aspect_ratio" := VStr aspect_ratio]>
          (<["seed" := VInt seed]>
             (<["output_format" := VStr output_format]>
                (<["model" := VStr model]>
                   (<["mode" := VStr "text-to-image"]> ∅)))))).

(** [generate_sd3], lines 332-336: the request. *)
Definition sd3_request (api_key prompt negative_prompt aspect_ratio
    : string) (seed : Z) (output_format model endpoint : string)
  : M response :=
  let params :=
    sd3_params prompt negative_prompt aspect_ratio seed output_format
      model in
  try_except (send_generation_request endpoint params None api_key)
    (fun e => print ("Error during SD3 image generation: " +:+ e) ;;
              exit 1).

Definition generate_sd3 (api_key prompt negative_prompt aspect_ratio
    : string) (seed : Z) (output_format model endpoint : string)
  : M string :=
  response <-
    sd3_request api_key prompt negative_prompt aspect_ratio seed
      output_format model endpoint ;;
  if content_filtered response then
    print "Error: Generation failed NSFW classifier." ;;
    exit 1
  else
    filename <- unique_filename "sd3_generated" output_format (Some seed) ;;
    write_wb filename (content response) ;;
    print ("SD3 image generated and saved as '" +:+ filename +:+ "'.") ;;
    ret filename.

(** The pixel-area limit of the creative upscaler. *)
Definition max_pixels : Z := 1048576.

(** [upscale_image], lines 360-367: the check of the image dimensions. *)
Definition check_pixels (input_image : string) : M unit :=
  with_image_open input_image (fun size =>
    let (width, height) := size in
    let total_pixels := width * height in
    if total_pixels >? max_pixels then
      print ("Error: Image dimensions exceed the maximum allowed pixels "
             +:+ "(1,048,576). Current: " +:+ Py.str_of_int total_pixels
             +:+ " pixels.") ;;
      exit 1
    else ret tt).

(** [upscale_image], lines 356-384: the checks of the input file, the
    parameters and the request. *)
Definition upscale_request (api_key input_image prompt negative_prompt
    : string) (seed : Z) (creativity : Q)
    (output_format endpoint : string) : M response :=
  found <- path_exists input_image ;;
  if negb found then
    print "Error: The specified input file does not exist." ;;
    exit 1
  else
    check_pixels input_image ;;
    let params : gmap string value :=
      <["prompt" := VStr prompt]>
        (<["negative_prompt" := VStr negative_prompt]>
           (<["seed" := VInt seed]>
              (<["creativity" := VFloat creativity]>
                 (<["output_format" := VStr output_format]> ∅)))) in
    try_except
      (with_open_rb input_image (fun image_file =>
         let files : gmap string part := <["image" := PFile image_file]> ∅ in
         print ("Sending upscale request to " +:+ endpoint +:+ "...") ;;
         send_async_generation_request endpoint params (Some files)
           api_key default_poll_interval default_timeout))
      (fun e => print ("Error during image upscaling: " +:+ e) ;;
                exit 1).

Definition upscale_image (api_key input_image prompt negative_prompt
    : string) (seed : Z) (creativity : Q)
    (output_format endpoint : string) : M string :=
  response <-
    upscale_request api_key input_image prompt negative_prompt seed
      creativity output_format endpoint ;;
  if negb (ok response) then
    print ("Error: HTTP " +:+ Py.str_of_int (status_code response)
           +:+ ": " +:+ content response) ;;
    exit 1
  else if content_filtered response then
    print "Error: Generation failed NSFW classifier." ;;
    exit 1
  else
    let filename := fst (Py.splitext (Py.basename input_image)) in
    let upscaled :=
      "upscaled_" +:+ filename +:+ "_" +:+ Py.str_of_int seed +:+ "."
      +:+ output_format in
    write_wb upscaled (content response) ;;
    print ("Upscaled image saved as '" +:+ upscaled +:+ "'.") ;;
    ret upscaled.

(** ** The model menu of [interactive_main] (mode "sd3") *)

Definition model_map : gmap string string :=
  <["1" := "sd3.5-large"]>
    (<["2" := "sd3-large-turbo"]> (<["3" := "sd3-medium"]> ∅)).

(** [answer] is the line typed at [Enter your choice [1]: ]. *)
Definition menu_model (answer : string) : string :=
  let model_choice :=
    let s := Py.strip answer in if Py.is_empty s then "1" else s in
  default "sd3.5-large" (model_map !! model_choice).

End asset_generation_blueprint.

(* ===================================================================== *)
(** * Timelines of the polling loops *)
(* ===================================================================== *)

(** Auxiliary definitions for the statements about the two polling loops:
    the worlds they pass through and the times at which they read the
    clock.  Times are in milliseconds. *)
Module Trace.
Import Sys.

(** The world once a round of a loop has printed [lines], issued [rq],
    taken the next reply and let [dt] milliseconds pass. *)
Definition advance (lines : list string) (rq : request) (dt : Z)
    (w : world) : world :=
  mkWorld (clock w + dt) (fs w) (pil_size w) (next_handle w)
          (open_handles w) (tl (net w)) (sent w ++ [rq])
          (stdout w ++ lines).

(** The world after one such round per latency of [lats], each followed by
    a sleep of [pause]. *)
Fixpoint advance_all (lines : list string) (rq : request) (pause : Z)
    (lats : list Z) (w : world) : world :=
  match lats with
  | [] => w
  | lat :: lats' =>
      advance_all lines rq pause lats' (advance lines rq (lat + pause) w)
  end.

(** Whether each reply of a run of replies, taking [lats] to arrive and
    [pause] apart, arrives at most [limit] after the start, the first
    request being issued [elapsed] after the start. *)
Fixpoint within_timeout (pause limit elapsed : Z) (lats : list Z) : bool :=
  match lats with
  | [] => true
  | lat :: lats' =>
      (elapsed + lat <=? limit)
      && within_timeout pause limit (elapsed + lat + pause) lats'
  end.

(** The time elapsed when the request after that run is issued. *)
Fixpoint elapsed_after (pause elapsed : Z) (lats : list Z) : Z :=
  match lats with
  | [] => elapsed
  | lat :: lats' => elapsed_after pause (elapsed + lat + pause) lats'
  end.

(** A reply of the script, from its latency and its response. *)
Definition reply_of (p : Z * response) : reply := Responds (fst p) (snd p).

(** The number of requests a computation issued from [w]. *)
Definition issued {A} (w : world) (res : outcome A * world) : Z :=
  Z.of_nat (length (sent (snd res))) - Z.of_nat (length (sent w)).

(** The status request of [send_async_generation_request]. *)
Definition poll_request (poll_url api_key : string) : request :=
  mkRequest GET poll_url
    (<["Authorization" := "Bearer " +:+ api_key]> (<["Accept" := "*/*"]> ∅))
    ∅ ∅.

(** How a computation ends, whatever it returns. *)
Inductive ending := Returned | Exited (code : Z) | Raised | Waiting.

Definition ending_of {A} (o : outcome A) : ending :=
  match o with
  | Ret _ => Returned
  | Exit code => Exited code
  | Raise _ => Raised
  | Blocked => Waiting
  end.

(** The line printed when the default timeout is over. *)
Definition timeout_line : string := "Error: Timeout after 500 seconds".

(** The status request of [generate_video]. *)
Definition video_request (result_url api_key : string) : request :=
  mkRequest GET result_url
    (<["Authorization" := "Bearer " +:+ api_key]>
       (<["accept" := "video/*"]> ∅))
    ∅ ∅.

End Trace.

(* ===================================================================== *)
(** * Frames *)
(* ===================================================================== *)

(** A frame is a relation between the world before and the world after that
    the local steps of a computation do not break: printing, the passing of
    time, opening and closing files.  A frame may moreover hold across HTTP
    exchanges ([Exchanging]) and across the writing of files ([Writing]). *)
Module Frames.
Import Sys.

Class Frame (R : world -> world -> Prop) : Prop := {
  frame_refl : forall w, R w w;
  frame_trans : forall a b c, R a b -> R b c -> R a c;
  frame_stdout : forall w l, R w (set_stdout l w);
  frame_clock : forall w t, R w (set_clock t w);
  frame_handles : forall w n o, R w (set_handles n o w);
}.

Class Exchanging (R : world -> world -> Prop) : Prop := {
  frame_net : forall w l, R w (set_net l w);
  frame_sent : forall w rq, R w (set_sent (sent w ++ [rq]) w);
}.

Class Writing (R : world -> world -> Prop) : Prop := {
  frame_fs : forall w f, R w (set_fs f w);
}.

(** A computation keeps to [R] when the world it leaves is related by [R]
    to the world it started in. *)
Definition steady (R : world -> world -> Prop) {A} (c : M A) : Prop :=
  forall w, R w (snd (c w)).

(** A round of a loop that goes round again has taken a reply. *)
Definition consuming {A} (body : M (option A)) : Prop :=
  forall w w', body w = (Ret None, w') ->
               (length (net w') < length (net w))%nat.

(** No file is written. *)
Definition same_fs (w w' : world) : Prop := fs w' = fs w.

(** No request is issued. *)
Definition same_sent (w w' : world) : Prop := sent w' = sent w.

(** Requests are only added. *)
Definition more_sent (w w' : world) : Prop :=
  exists l, sent w' = sent w ++ l.

End Frames.

(* ===================================================================== *)
(** * Scenarios *)
(* ===================================================================== *)

(** Concrete responses and worlds on which the script is run. *)
Module Scenarios.
Import Sys.

(** The job is still being processed. *)
Definition processing : response := mkResponse 202 ∅ "" NotJson.

(** The finished artifact. *)
Definition finished : response := mkResponse 200 ∅ "ARTIFACT" NotJson.

(** A success without content. *)
Definition no_content : response := mkResponse 204 ∅ "" NotJson.

(** A failure of the service. *)
Definition server_error : response :=
  mkResponse 500 ∅ "internal error" NotJson.

(** An image withheld by the moderation of the service. *)
Definition filtered : response :=
  mkResponse 200 (<["finish-reason" := "CONTENT_FILTERED"]> ∅) "" NotJson.

(** The reply to a submission: a JSON object with the given [id]. *)
Definition accepted (id : json) : response :=
  mkResponse 200 ∅ "{}" (JsonDict (<["id" := id]> ∅)).

(** The reply to a submission: a JSON object without [id]. *)
Definition accepted_without_id : response :=
  mkResponse 200 ∅ "{}" (JsonDict ∅).

(** A world at time [now] (in milliseconds) with one input file,
    [in.png], which PIL reads as an image of [width] by [height] pixels,
    no file open, and the given replies to come. *)
Definition world_at (now width height : Z) (script : list reply) : world :=
  mkWorld now (<["in.png" := "IMAGE"]> ∅) (fun _ => Some (width, height))
          0 ∅ script [] [].

Definition world_of (script : list reply) : world :=
  world_at 0 1024 1024 script.

(** The URLs of the requests issued. *)
Definition urls (w : world) : list string := map req_url (sent w).

End Scenarios.

(* ===================================================================== *)
(** * File handles *)
(* ===================================================================== *)

(** The vocabulary of the statements about open files. *)
Module Handles.
Import Sys.

(** The handles of the file objects of a list of parts. *)
Fixpoint handles_of_list (l : list (string * part)) : gset nat :=
  match l with
  | [] => ∅
  | (_, PFile h) :: l' => {[h]} ∪ handles_of_list l'
  | (_, PTuple _ _) :: l' => handles_of_list l'
  end.

(** The handles of the file objects of a file set. *)
Definition handles_of (files : gmap string part) : gset nat :=
  handles_of_list (map_to_list files).

(** The handles in use were all issued: the next handle is a new one. *)
Definition fresh (w : world) : Prop :=
  forall h, h ∈ open_handles w -> (h < next_handle w)%nat.

(** A relation between the world before and the world after that holds
    across every step that leaves the table of handles alone: printing, the
    passing of time, HTTP exchanges and the writing of files. *)
Class Calm (R : world -> world -> Prop) : Prop := {
  calm_refl : forall w, R w w;
  calm_trans : forall a b c, R a b -> R b c -> R a c;
  calm_stdout : forall w l, R w (set_stdout l w);
  calm_clock : forall w t, R w (set_clock t w);
  calm_net : forall w l, R w (set_net l w);
  calm_sent : forall w l, R w (set_sent l w);
  calm_fs : forall w f, R w (set_fs f w);
}.

(** A computation keeps to [R] on every run that ends: the world it leaves
    when it returns, exits or raises is related by [R] to the world it
    started in.  (A run that waits for a reply has not ended.) *)
Definition ends (R : world -> world -> Prop) {A} (c : M A) : Prop :=
  forall w, fst (c w) <> Blocked -> R w (snd (c w)).

(** The table of handles is as it was. *)
Definition same_handles (w w' : world) : Prop :=
  open_handles w' = open_handles w /\ next_handle w' = next_handle w.

(** No file was opened, and no file was closed but [h]. *)
Definition closing_only (h : nat) (w w' : world) : Prop :=
  open_handles w' ⊆ open_handles w
  /\ open_handles w ∖ {[h]} ⊆ open_handles w'
  /\ next_handle w' = next_handle w.

(** No file opened since is still open; and when the handles in use were
    all issued, the files open are those that were. *)
Definition settled (w w' : world) : Prop :=
  open_handles w' ⊆ open_handles w
  /\ (next_handle w <= next_handle w')%nat
  /\ (fresh w -> open_handles w' = open_handles w).

End Handles.

(* ===================================================================== *)
(** * Parts of runs *)
(* ===================================================================== *)

(** Continuations of the functions of the script, named for the statements
    about them. *)
Module Runs.
Import Sys asset_generation_blueprint.

(** What [send_async_generation_request] does with an ok reply to the
    submission (lines 127-151). *)
Definition after_submit (api_key : string) (poll_interval timeout : Z)
    (response : response) : M Sys.response :=
  bind (response_json response) (fun response_dict =>
  bind (doc_get response_dict "id") (fun generation_id =>
  match generation_id with
  | JNone =>
      bind (print "Error: Expected an 'id' in the response")
        (fun _ => exit 1)
  | _ =>
      poll_results
        ("https://api.stability.ai/v2beta/results/" +:+ format generation_id)
        api_key poll_interval timeout
  end)).

(** What [generate_video] does with an ok reply to the submission (lines
    214-238). *)
Definition after_video_submit (api_key : string) (seed : Z)
    (response : response) : M string :=
  bind (response_json response) (fun response_dict =>
  bind (doc_get response_dict "id") (fun generation_id =>
  if negb (truthy generation_id) then
    bind (print "Error: No generation ID received.") (fun _ => exit 1)
  else
    poll_video
      ("https://api.stability.ai/v2beta/image-to-video/result/"
       +:+ format generation_id)
      api_key seed)).

(** The file set and the table of handles once [send_generation_request]
    or [send_async_generation_request], called without a file set, has
    looked at the entries "image" and "mask": each of the two files is
    opened or not. *)
Inductive attached (w : world)
  : gmap string part -> nat -> gset nat -> Prop :=
| attached_none :
    attached w ∅ (next_handle w) (open_handles w)
| attached_image :
    attached w (<["image" := PFile (next_handle w)]> ∅)
      (S (next_handle w)) ({[next_handle w]} ∪ open_handles w)
| attached_mask :
    attached w (<["mask" := PFile (next_handle w)]> ∅)
      (S (next_handle w)) ({[next_handle w]} ∪ open_handles w)
| attached_both :
    attached w
      (<["mask" := PFile (S (next_handle w))]>
         (<["image" := PFile (next_handle w)]> ∅))
      (S (S (next_handle w)))
      ({[S (next_handle w)]} ∪ ({[next_handle w]} ∪ open_handles w)).

(** What a mode leaves in the file system: the run has written one file,
    the one whose name it returns, or it has not returned and has written
    none. *)
Definition saves (w : world) (run : outcome string * world) : Prop :=
  match fst run with
  | Ret name => exists data, fs (snd run) = <[name := data]> (fs w)
  | _ => fs (snd run) = fs w
  end.

End Runs.

(* ===================================================================== *)
(** * asset_generation_blueprint.py: the dialogue *)
(* ===================================================================== *)

(** [interactive_main] reads its parameters from standard input.  The lines
    still to be read are threaded through the computations of [Sys]:
    [input(prompt)] writes the prompt to stdout, where it is recorded as an
    entry of its own, and takes the next line, or raises [EOFError] when
    there is none. *)
Module Console.
Import Sys.

Definition IO (A : Type) : Type := list string -> M (A * list string).

Definition io_ret {A} (a : A) : IO A := fun stdin => ret (a, stdin).

Definition io_bind {A B} (c : IO A) (k : A -> IO B) : IO B :=
  fun stdin => bind (c stdin) (fun r => k (fst r) (snd r)).

(** A computation that reads nothing. *)
Definition lift {A} (c : M A) : IO A :=
  fun stdin => bind c (fun a => ret (a, stdin)).

Definition input (prompt : string) : IO string :=
  fun stdin =>
    bind (print prompt) (fun _ =>
      match stdin with
      | [] => raise "EOF when reading a line"
      | line :: rest => ret (line, rest)
      end).

(** A Python [float]: a finite value, an infinity or a NaN. *)
Inductive pyfloat := Finite (q : Q) | Infinite (negative : bool) | NaN.

(** [0 <= x <= 1] *)
Definition in_unit_interval (x : pyfloat) : bool :=
  match x with
  | Finite q => Qle_bool 0 q && Qle_bool q 1
  | _ => false
  end.

(** [input(prompt).strip() or default] *)
Definition input_or (prompt default : string) : IO string :=
  io_bind (input prompt) (fun answer =>
    let s := Py.strip answer in
    io_ret (if Py.is_empty s then default else s)).

End Console.

Module interactive.
Import Sys asset_generation_blueprint Console.

Declare Scope io_scope.
Delimit Scope io_scope with io.
Notation "x <- c ;; k" := (io_bind c (fun x => k))
  (at level 100, c at next level, right associativity) : io_scope.
Notation "c ;; k" := (io_bind c (fun _ => k))
  (at level 100, right associativity) : io_scope.

Section Dialogue.

(** The key read from the environment when the module is loaded. *)
Variable api_key : string.

(** [int(s)] and [float(s)] for a string; [None] stands for [ValueError]. *)
Variable int_of_str : string -> option Z.
Variable float_of_str : string -> option pyfloat.

(** The branches for the modes "video", "3d" and "3d-aware", in which a
    float that is not finite can reach the request. *)
Variables video_mode three_d_mode three_d_aware_mode : IO unit.

Local Open Scope io_scope.

(** [print(line); exit(1)] *)
Definition fail {A} (line : string) : IO A :=
  lift (bind (print line) (fun _ => exit 1)).

(** Mode "img", lines 451-473. *)
Definition img_mode : IO unit :=
  answer <- input "Enter the prompt for image generation (required): " ;;
  let prompt := Py.strip answer in
  if Py.is_empty prompt then
    fail "Error: A text prompt is required for image generation."
  else
    negative_prompt <- input_or "Enter a negative prompt [default: '']: " "" ;;
    aspect_ratio <- input_or "Enter aspect ratio [default: 3:2]: " "3:2" ;;
    seed_str <- input_or "Enter seed [default: 42]: " "42" ;;
    match int_of_str seed_str with
    | None => fail "Error: Seed must be an integer."
    | Some seed =>
        output_format <-
          input_or "Enter output format [default: jpeg]: " "jpeg" ;;
        lift (generate_image api_key prompt negative_prompt aspect_ratio
                seed output_format IMAGE_GENERATION_ENDPOINT) ;;
        io_ret tt
    end.

(** Mode "sketch", lines 536-571. *)
Definition sketch_mode : IO unit :=
  answer <- input "Enter the sketch image path (required): " ;;
  let input_file := Py.strip answer in
  found <- lift (path_exists input_file) ;;
  if Py.is_empty input_file || negb found then
    fail "Error: A valid sketch image file is required."
  else
    answer <-
      input "Enter the prompt for sketch-to-image generation (required): " ;;
    let prompt := Py.strip answer in
    if Py.is_empty prompt then
      fail "Error: A text prompt is required for sketch-to-image generation."
    else
      negative_prompt <-
        input_or "Enter a negative prompt [default: '']: " "" ;;
      control_strength_str <-
        input_or "Enter control strength [default: 0.7]: " "0.7" ;;
      match float_of_str control_strength_str with
      | None => fail "Error: Control strength must be a number."
      | Some control_strength =>
          match control_strength with
          | Finite q =>
              if negb (in_unit_interval control_strength) then
                fail "Error: Control strength must be between 0 and 1."
              else
                seed_str <- input_or "Enter seed [default: 42]: " "42" ;;
                match int_of_str seed_str with
                | None => fail "Error: Seed must be an integer."
                | Some seed =>
                    output_format <-
                      input_or "Enter output format [default: jpeg]: "
                        "jpeg" ;;
                    lift (sketch_to_image api_key input_file prompt
                            negative_prompt q seed output_format
                            SKETCH_ENDPOINT) ;;
                    io_ret tt
                end
          | _ => fail "Error: Control strength must be between 0 and 1."
          end
      end.

(** Mode "sd3", lines 573-607. *)
Definition sd3_mode : IO unit :=
  answer <- input "Enter the prompt for SD3 image generation (required): " ;;
  let prompt := Py.strip answer in
  if Py.is_empty prompt then
    fail "Error: A text prompt is required for SD3 generation."
  else
    negative_prompt <- input_or "Enter a negative prompt [default: '']: " "" ;;
    aspect_ratio <- input_or "Enter aspect ratio [default: 3:2]: " "3:2" ;;
    seed_str <- input_or "Enter seed [default: 42]: " "42" ;;
    match int_of_str seed_str with
    | None => fail "Error: Seed must be an integer."
    | Some seed =>
        output_format <-
          input_or "Enter output format [default: jpeg]: " "jpeg" ;;
        lift (print "Choose a model:") ;;
        lift (print "  1 -> sd3.5-large") ;;
        lift (print "  2 -> sd3-large-turbo") ;;
        lift (print "  3 -> sd3-medium") ;;
        answer <- input "Enter your choice [1]: " ;;
        let model := menu_model answer in
        lift (generate_sd3 api_key prompt negative_prompt aspect_ratio seed
                output_format model SD3_ENDPOINT) ;;
        io_ret tt
    end.

(** Mode "upscale", lines 611-646. *)
Definition upscale_mode : IO unit :=
  answer <- input "Enter the image path to upscale (required): " ;;
  let input_file := Py.strip answer in
  found <- lift (path_exists input_file) ;;
  if Py.is_empty input_file || negb found then
    fail "Error: A valid input file is required for upscaling."
  else
    answer <- input "Enter the prompt for upscaling (required): " ;;
    let prompt := Py.strip answer in
    if Py.is_empty prompt then
      fail "Error: A prompt is required for upscaling."
    else
      negative_prompt <-
        input_or "Enter a negative prompt [default: '']: " "" ;;
      seed_str <- input_or "Enter seed [default: 42]: " "42" ;;
      match int_of_str seed_str with
      | None => fail "Error: Seed must be an integer."
      | Some seed =>
          creativity_str <-
            input_or "Enter creativity level [default: 0.3]: " "0.3" ;;
          match float_of_str creativity_str with
          | None => fail "Error: Creativity must be a number."
          | Some creativity =>
              match creativity with
              | Finite q =>
                  if negb (in_unit_interval creativity) then
                    fail "Error: Creativity must be between 0 and 1."
                  else
                    output_format <-
                      input_or "Enter output format [default: jpeg]: "
                        "jpeg" ;;
                    lift (upscale_image api_key input_file prompt
                            negative_prompt seed q output_format
                            UPSCALER_ENDPOINT) ;;
                    io_ret tt
              | _ => fail "Error: Creativity must be between 0 and 1."
              end
          end
      end.

(** The lines printed before the first question. *)
Definition banner : list string :=
  ["Welcome to the Stability AI Asset Generation Script";
   "Press Enter to accept the default values shown in [brackets]."
   +:+ String "010" "";
   "Supported modes:";
   "  img        -> Standard image generation";
   "  video      -> Video generation from an image";
   "  3d         -> Standard 3D model generation";
   "  sketch     -> Sketch-to-image (refine a sketch)";
   "  sd3        -> SD3 image generation";
   "  upscale    -> Upscale an image";
   "  3d-aware   -> 3D aware model generation"].

Definition interactive_main : IO unit :=
  lift (for_each banner print) ;;
  answer <- input "Choose mode [img]: " ;;
  let mode :=
    let s := Py.lower (Py.strip answer) in
    if Py.is_empty s then "img" else s in
  if String.eqb mode "img" then img_mode
  else if String.eqb mode "video" then video_mode
  else if String.eqb mode "3d" then three_d_mode
  else if String.eqb mode "sketch" then sketch_mode
  else if String.eqb mode "sd3" then sd3_mode
  else if String.eqb mode "upscale" then upscale_mode
  else if String.eqb mode "3d-aware" then three_d_aware_mode
  else
    fail ("Error: Invalid mode specified. "
          +:+ "Please choose one of the supported modes.").

End Dialogue.

End interactive.

(* ===================================================================== *)
(** * Theorems *)
(* ===================================================================== *)

Example get_dash_examples :
  text_canvas.get_dash 0 = "----------------------------------------"
  /\ text_canvas.get_dash 7 = "-----".
Proof. split; reflexivity. Qed.

Example parse_list_example :
  numbered_list.parse_list
    ("1. Intro" +:+ String "010" ("  1.1. Define. It all  " +:+ String "013"
       (String "010" (String "010" "Misc"))))
  = [numbered_list.mkListItem "1" "Intro";
     numbered_list.mkListItem "1.1" "Define. It all";
     numbered_list.mkListItem "" "Misc"].
Proof. vm_compute. reflexivity. Qed.

Example splitext_examples :
  Py.splitext (Py.basename "/tmp/in.put/sketch.v2.png") = ("sketch.v2", ".png")
  /\ Py.splitext (Py.basename "dir/.hidden") = (".hidden", "")
  /\ Py.splitext (Py.basename "a/b/") = ("", "")
  /\ Py.splitext "x.d/..name" = ("x.d/..name", "")
  /\ Py.splitext "x.d/..na.me" = ("x.d/..na", ".me")
  /\ Py.basename "plain" = "plain".
Proof. repeat split; reflexivity. Qed.
(* ---------------------------------------------------------------------- *)
(** ** Strings *)

Section Strings.

#[local] Arguments String.append !s1 s2 : simpl nomatch.
#[local] Arguments Ascii.eqb : simpl never.

Lemma append_nil_r (s : string) : s +:+ "" = s.
Proof. induction s as [|c s IH]; simpl; [reflexivity | now rewrite IH]. Qed.

Lemma append_assoc (a b c : string) : (a +:+ b) +:+ c = a +:+ (b +:+ c).
Proof. induction a as [|x a IH]; simpl; [reflexivity | now rewrite IH]. Qed.

Lemma strip_prefix_sound (p s rest : string) :
Py.strip_prefix p s = Some rest -> s = p +:+ rest.
Proof.
revert s; induction p as [|a p IH]; intros s H; simpl in *.
- congruence.
- destruct s as [|b s]; [discriminate|].
  destruct (Ascii.eqb_spec a b) as [->|]; [|discriminate].
  simpl. f_equal. now apply IH.
Qed.

Lemma cut_sound (sep s before after : string) :
Py.cut sep s = Some (before, after) -> s = before +:+ sep +:+ after.
Proof.
revert before; induction s as [|c s IH]; intros before H; simpl in H.
- destruct (Py.strip_prefix sep "") as [rest|] eqn:E; [|discriminate].
  inversion H; subst. now apply strip_prefix_sound in E.
- destruct (Py.strip_prefix sep (String c s)) as [rest|] eqn:E.
  + inversion H; subst. now apply strip_prefix_sound in E.
  + destruct (Py.cut sep s) as [[b a]|]; [|discriminate].
    inversion H; subst. simpl. f_equal. now apply IH.
Qed.

(** The separator of the outline parser is found where it first occurs:
  when the text before an occurrence holds no occurrence itself, the cut
  is made there. *)
Lemma cut_dot_space_first (a b : string) :
(forall x y, a <> x +:+ ". " +:+ y) ->
Py.cut ". " (a +:+ ". " +:+ b) = Some (a, b).
Proof.
induction a as [|c a IH]; intros Hfree.
- reflexivity.
- assert (Hhead : Py.strip_prefix ". " (String c a +:+ ". " +:+ b) = None).
  { simpl. destruct (Ascii.eqb_spec "." c) as [<-|]; [|reflexivity].
    destruct a as [|c' a]; [reflexivity|]. simpl.
    destruct (Ascii.eqb_spec " " c') as [<-|]; [|reflexivity].
    exfalso. now apply (Hfree "" a). }
  change (Py.cut ". " (String c a +:+ ". " +:+ b))
    with (match Py.strip_prefix ". " (String c a +:+ ". " +:+ b) with
          | Some rest => Some ("", rest)
          | None =>
              match Py.cut ". " (a +:+ ". " +:+ b) with
              | Some (before, after) => Some (String c before, after)
              | None => None
              end
          end).
  rewrite Hhead, IH; [reflexivity|].
  intros x y ->. now apply (Hfree (String c x) y).
Qed.

Lemma cut_none (sep s : string) :
(forall x y, s <> x +:+ sep +:+ y) -> Py.cut sep s = None.
Proof.
intros Hfree. destruct (Py.cut sep s) as [[x y]|] eqn:E; [|reflexivity].
apply cut_sound in E. now apply Hfree in E.
Qed.

(** A text without line boundaries is one line, or none when it is empty. *)
Lemma splitlines_from_one_line (line cur : string) :
(forall c, In c (list_ascii_of_string line) -> Py.islinebreak c = false) ->
Py.splitlines_from cur line =
if Py.is_empty (cur +:+ line) then [] else [cur +:+ line].
Proof.
revert cur; induction line as [|c line IH]; intros cur Hnb; simpl.
- now rewrite append_nil_r.
- assert (Hc : Py.islinebreak c = false) by (apply Hnb; now left).
  assert (Hcr : Py.is_cr c = false).
  { unfold Py.is_cr, Py.islinebreak in *.
    destruct (N.eqb_spec (Py.code c) 13) as [E|]; [|reflexivity].
    rewrite E in Hc. discriminate. }
  rewrite Hcr, Hc, IH by (intros d Hd; apply Hnb; now right).
  now rewrite append_assoc.
Qed.

(** The line boundary LF ends the line being read. *)
Lemma splitlines_from_lf (line rest cur : string) :
(forall c, In c (list_ascii_of_string line) -> Py.islinebreak c = false) ->
Py.splitlines_from cur (line +:+ String "010" rest) =
(cur +:+ line) :: Py.splitlines rest.
Proof.
revert cur; induction line as [|c line IH]; intros cur Hnb.
- rewrite append_nil_r. reflexivity.
- assert (Hc : Py.islinebreak c = false) by (apply Hnb; now left).
  assert (Hcr : Py.is_cr c = false).
  { unfold Py.is_cr, Py.islinebreak in *.
    destruct (N.eqb_spec (Py.code c) 13) as [E|]; [|reflexivity].
    rewrite E in Hc. discriminate. }
  simpl.
  rewrite Hcr, Hc, IH by (intros d Hd; apply Hnb; now right).
  now rewrite append_assoc.
Qed.

Lemma foldl_parse_line_app (acc : list numbered_list.ListItem)
  (lines : list string) :
foldl numbered_list.parse_line acc lines =
acc ++ foldl numbered_list.parse_line [] lines.
Proof.
revert acc; induction lines as [|l lines IH]; intros acc; simpl.
- now rewrite app_nil_r.
- rewrite IH, (IH (numbered_list.parse_line [] l)), app_assoc. f_equal.
  unfold numbered_list.parse_line.
  destruct (Py.is_empty (Py.strip l)); [now rewrite app_nil_r|].
  destruct (Py.contains ". " (Py.strip l)).
  + destruct (Py.split1 ". " (Py.strip l)) as [|? [|? [|? ?]]];
      now rewrite ?app_nil_r.
  + reflexivity.
Qed.

Lemma count_char_count_occ (c : ascii) (s : string) :
Py.count_char c s = Z.of_nat (count_occ ascii_dec (list_ascii_of_string s) c).
Proof.
induction s as [|d s IH]; simpl; [reflexivity|].
rewrite IH. destruct (ascii_dec d c) as [->|Hne].
- rewrite Ascii.eqb_refl. lia.
- destruct (Ascii.eqb_spec c d); [congruence | lia].
Qed.

(* ---------------------------------------------------------------------- *)
(** ** text_canvas.py *)

(** C9.  For every outline item id the depth is the number of dots of the
  id, and the dash line is made of 40, 20, 10 or 5 dashes for depth 0, 1, 2
  and 3 or more; the ids "1", "1.2", "1.2.3" and "1.2.3.4" have depth 0, 1,
  2 and 3 and get 40, 20, 10 and 5 dashes. *)
Theorem get_dash_step_function :
(forall id_str : string,
   let depth := text_canvas.get_depth id_str in
   depth = Z.of_nat
             (count_occ ascii_dec (list_ascii_of_string id_str) "."%char)
   /\ text_canvas.get_dash depth =
      string_of_list_ascii
        (List.repeat "-"%char
           match Z.to_nat depth with
           | 0 => 40 | 1 => 20 | 2 => 10 | _ => 5
           end%nat))
/\ (text_canvas.get_depth "1" = 0
    /\ text_canvas.get_dash (text_canvas.get_depth "1")
       = "----------------------------------------")
/\ (text_canvas.get_depth "1.2" = 1
    /\ text_canvas.get_dash (text_canvas.get_depth "1.2")
       = "--------------------")
/\ (text_canvas.get_depth "1.2.3" = 2
    /\ text_canvas.get_dash (text_canvas.get_depth "1.2.3") = "----------")
/\ (text_canvas.get_depth "1.2.3.4" = 3
    /\ text_canvas.get_dash (text_canvas.get_depth "1.2.3.4") = "-----").
Proof.
split; [|repeat split; reflexivity].
intros id_str depth. subst depth. unfold text_canvas.get_depth.
rewrite count_char_count_occ. split; [reflexivity|].
rewrite Nat2Z.id.
destruct (count_occ ascii_dec (list_ascii_of_string id_str) "."%char)
  as [|[|[|n]]]; try reflexivity.
unfold text_canvas.get_dash.
rewrite !(proj2 (Z.eqb_neq _ _)) by lia.
reflexivity.
Qed.

(* ---------------------------------------------------------------------- *)
(** ** numbered_list.py *)

(** C8.  [parse_list] splits a line on the first ". " into an id and a
  title, and makes a line without ". " a title with an empty id: the two
  lines of the specification parse as it says; in general, for a line
  whose stripped text is [a ++ ". " ++ b] with no ". " inside [a] the item
  is [{id: strip a, title: strip b}], and for a non-blank line whose
  stripped text holds no ". " the item is [{id: "", title: stripped}];
  the lines of a text separated by LF are parsed one after the other. *)
Theorem parse_list_first_dot_space :
numbered_list.parse_list "1.2. Define requirements"
= [numbered_list.mkListItem "1.2" "Define requirements"]
/\ numbered_list.parse_list "Miscellaneous notes"
   = [numbered_list.mkListItem "" "Miscellaneous notes"]
/\ (forall line a b : string,
      (forall c, In c (list_ascii_of_string line) ->
                 Py.islinebreak c = false) ->
      Py.strip line = a +:+ ". " +:+ b ->
      (forall x y, a <> x +:+ ". " +:+ y) ->
      numbered_list.parse_list line
      = [numbered_list.mkListItem (Py.strip a) (Py.strip b)])
/\ (forall line : string,
      (forall c, In c (list_ascii_of_string line) ->
                 Py.islinebreak c = false) ->
      Py.strip line <> "" ->
      (forall x y, Py.strip line <> x +:+ ". " +:+ y) ->
      numbered_list.parse_list line
      = [numbered_list.mkListItem "" (Py.strip line)])
/\ (forall line rest : string,
      (forall c, In c (list_ascii_of_string line) ->
                 Py.islinebreak c = false) ->
      numbered_list.parse_list (line +:+ String "010" rest)
      = numbered_list.parse_list line ++ numbered_list.parse_list rest).
Proof.
split; [reflexivity|]. split; [reflexivity|].
assert (Hone : forall line,
    (forall c, In c (list_ascii_of_string line) ->
               Py.islinebreak c = false) ->
    numbered_list.parse_list line = numbered_list.parse_line [] line).
{ intros line Hnb. unfold numbered_list.parse_list, Py.splitlines.
  rewrite splitlines_from_one_line by assumption. simpl.
  destruct line; reflexivity. }
split; [|split].
- intros line a b Hnb Hs Hfree. rewrite Hone by assumption.
  unfold numbered_list.parse_line, Py.contains, Py.split1.
  rewrite Hs, cut_dot_space_first by assumption.
  destruct a; reflexivity.
- intros line Hnb Hne Hfree. rewrite Hone by assumption.
  unfold numbered_list.parse_line, Py.contains.
  rewrite cut_none by assumption.
  destruct (Py.strip line); [congruence | reflexivity].
- intros line rest Hnb.
  unfold numbered_list.parse_list at 1. unfold Py.splitlines.
  rewrite splitlines_from_lf by assumption. simpl.
  rewrite foldl_parse_line_app. f_equal.
  rewrite Hone by assumption. reflexivity.
Qed.

Lemma parse_list_first_dot_space_witness :
numbered_list.parse_list "  3.1. Plan. Then act  "
= [numbered_list.mkListItem "3.1" "Plan. Then act"].
Proof.
apply (proj1 (proj2 (proj2 parse_list_first_dot_space))
         "  3.1. Plan. Then act  " "3.1" "Plan. Then act").
- intros c Hc. simpl in Hc.
  repeat (destruct Hc as [<-|Hc]; [reflexivity|]). destruct Hc.
- reflexivity.
- intros x y E.
  destruct x as [|c0 [|c1 [|c2 [|c3 x]]]]; simpl in E; try discriminate;
    destruct y; discriminate.
Defined.

End Strings.

(* ---------------------------------------------------------------------- *)
(** ** Running computations *)

Import Sys asset_generation_blueprint.

(** Unfolds the primitives of [Sys] in the goal. *)
Ltac sys_unfold :=
  cbv [bind ret print exit raise try_except time_time time_int sleep
       path_exists open_rb close with_open_rb write_wb with_image_open
       exchange requests_post requests_get response_json doc_get
       set_clock set_fs set_handles set_net set_sent set_stdout
       clock fs pil_size next_handle open_handles net sent stdout
       Trace.advance Trace.issued fst snd].

(** Replaces a world by its fields, so that projections compute. *)
Ltac open_world w :=
  destruct w as [now0 files0 pil0 next0 opened0 script0 log0 out0];
  cbn [Sys.clock Sys.fs Sys.pil_size Sys.next_handle Sys.open_handles
       Sys.net Sys.sent Sys.stdout] in *.

Lemma ok_202 (r : response) : status_code r = 202 -> ok r = true.
Proof. unfold ok. intros ->. reflexivity. Qed.

Lemma while_true_S {A} (fuel : nat) (body : M (option A)) (w : world) :
  while_true (S fuel) body w =
  match body w with
  | (Ret (Some a), w') => (Ret a, w')
  | (Ret None, w') => while_true fuel body w'
  | (Exit code, w') => (Exit code, w')
  | (Raise e, w') => (Raise e, w')
  | (Blocked, w') => (Blocked, w')
  end.
Proof.
  cbn [while_true]. unfold bind.
  destruct (body w) as [[[a|]| | |] w']; reflexivity.
Qed.

(** *** The rounds of the shared poller *)

Section PollRound.
Variables (poll_url api_key : string) (poll_interval timeout start : Z).

Let line : string := "Polling results at " +:+ poll_url +:+ "...".
Let rq : request := Trace.poll_request poll_url api_key.
Let body : M (option response) :=
  poll_round poll_url api_key poll_interval timeout start.

Lemma poll_round_blocked (w : world) :
  net w = [] ->
  body w = (Blocked, Trace.advance [line] rq 0 w).
Proof.
  intros Hnet. open_world w. subst. subst body. unfold poll_round.
  sys_unfold. cbn [tl]. rewrite Z.add_0_r. reflexivity.
Qed.

Lemma poll_round_fails (w : world) (lat : Z) (e : string) (rest : list reply) :
  net w = Fails lat e :: rest ->
  body w = (Raise e, Trace.advance [line] rq lat w).
Proof.
  intros Hnet. open_world w. subst. subst body. unfold poll_round.
  sys_unfold. reflexivity.
Qed.

Lemma poll_round_pending (w : world) (lat : Z) (r : response)
    (rest : list reply) :
  net w = Responds lat r :: rest ->
  status_code r = 202 ->
  clock w + lat - start <= 1000 * timeout ->
  body w = (Ret None, Trace.advance [line] rq (lat + 1000 * poll_interval) w).
Proof.
  intros Hnet Hst Hle. open_world w. subst. subst body. unfold poll_round.
  sys_unfold. rewrite (ok_202 r Hst), Hst. cbn [negb Z.eqb Pos.eqb].
  replace (now0 + lat - start >? 1000 * timeout) with false
    by (symmetry; rewrite Z.gtb_ltb; apply Z.ltb_ge; lia).
  cbn [tl]. rewrite Z.add_assoc. reflexivity.
Qed.

Lemma poll_round_timeout (w : world) (lat : Z) (r : response)
    (rest : list reply) :
  net w = Responds lat r :: rest ->
  status_code r = 202 ->
  clock w + lat - start > 1000 * timeout ->
  body w =
  (Exit 1,
   set_stdout
     (stdout w ++ [line] ++
      ["Error: Timeout after " +:+ Py.str_of_int timeout +:+ " seconds"])
     (Trace.advance [line] rq lat w)).
Proof.
  intros Hnet Hst Hgt. open_world w. subst. subst body. unfold poll_round.
  sys_unfold. rewrite (ok_202 r Hst), Hst. cbn [negb Z.eqb Pos.eqb].
  replace (now0 + lat - start >? 1000 * timeout) with true
    by (symmetry; rewrite Z.gtb_ltb; apply Z.ltb_lt; lia).
  cbn [tl]. rewrite <- app_assoc. reflexivity.
Qed.

Lemma poll_round_done (w : world) (lat : Z) (r : response)
    (rest : list reply) :
  net w = Responds lat r :: rest ->
  status_code r <> 202 ->
  ok r = true ->
  body w = (Ret (Some r), Trace.advance [line] rq lat w).
Proof.
  intros Hnet Hst Hok. open_world w. subst. subst body. unfold poll_round.
  sys_unfold. rewrite Hok. cbn [negb].
  rewrite (proj2 (Z.eqb_neq _ _) Hst). reflexivity.
Qed.

Lemma poll_round_error (w : world) (lat : Z) (r : response)
    (rest : list reply) :
  net w = Responds lat r :: rest ->
  ok r = false ->
  body w =
  (Exit 1,
   set_stdout
     (stdout w ++ [line] ++
      ["Error: HTTP " +:+ Py.str_of_int (status_code r) +:+ ": "
       +:+ content r])
     (Trace.advance [line] rq lat w)).
Proof.
  intros Hnet Hok. open_world w. subst. subst body. unfold poll_round.
  sys_unfold. rewrite Hok. cbn [negb tl]. rewrite <- app_assoc.
  reflexivity.
Qed.

End PollRound.

(** *** Worlds along a run of pending rounds *)

Lemma elapsed_after_shift (pause e : Z) (lats : list Z) :
  Trace.elapsed_after pause e lats = e + Trace.elapsed_after pause 0 lats.
Proof.
  revert e; induction lats as [|lat lats IH]; intros e; cbn; [lia|].
  rewrite IH, (IH (0 + lat + pause)). lia.
Qed.

Section AdvanceAll.
Variables (lines : list string) (rq : request) (pause : Z).

Lemma advance_all_net (lats : list Z) (w : world) :
  net (Trace.advance_all lines rq pause lats w) = drop (length lats) (net w).
Proof.
  revert w; induction lats as [|lat lats IH]; intros w; cbn.
  - now rewrite drop_0.
  - rewrite IH. cbn. destruct (net w); simpl; [by rewrite !drop_nil | done].
Qed.

Lemma advance_all_clock (lats : list Z) (w : world) :
  clock (Trace.advance_all lines rq pause lats w)
  = clock w + Trace.elapsed_after pause 0 lats.
Proof.
  revert w; induction lats as [|lat lats IH]; intros w; cbn; [lia|].
  rewrite IH, (elapsed_after_shift pause (0 + lat + pause)). cbn. lia.
Qed.

Lemma advance_all_sent (lats : list Z) (w : world) :
  sent (Trace.advance_all lines rq pause lats w)
  = sent w ++ List.repeat rq (length lats).
Proof.
  revert w; induction lats as [|lat lats IH]; intros w; cbn.
  - now rewrite app_nil_r.
  - rewrite IH. cbn. now rewrite <- app_assoc.
Qed.

Lemma advance_all_fs (lats : list Z) (w : world) :
  fs (Trace.advance_all lines rq pause lats w) = fs w.
Proof.
  revert w; induction lats as [|lat lats IH]; intros w; cbn;
    [reflexivity | now rewrite IH].
Qed.

Lemma advance_all_open_handles (lats : list Z) (w : world) :
  open_handles (Trace.advance_all lines rq pause lats w) = open_handles w.
Proof.
  revert w; induction lats as [|lat lats IH]; intros w; cbn;
    [reflexivity | now rewrite IH].
Qed.

End AdvanceAll.

(** *** The loop of the shared poller *)

Section PollLoop.
Variables (poll_url api_key : string) (poll_interval timeout start : Z).

Let line : string := "Polling results at " +:+ poll_url +:+ "...".
Let rq : request := Trace.poll_request poll_url api_key.
Let body : M (option response) :=
  poll_round poll_url api_key poll_interval timeout start.

(** As long as the replies are 202 and arrive within the timeout, the
    loop goes round: one request, one sleep per reply. *)
Lemma poll_pending_rounds (ps : list (Z * response)) (fuel : nat)
    (w : world) (tail : list reply) :
  net w = map Trace.reply_of ps ++ tail ->
  Forall (fun p => status_code (snd p) = 202) ps ->
  Trace.within_timeout (1000 * poll_interval) (1000 * timeout)
    (clock w - start) (map fst ps) = true ->
  while_true (length ps + fuel) body w
  = while_true fuel body
      (Trace.advance_all [line] rq (1000 * poll_interval) (map fst ps) w).
Proof.
  revert w; induction ps as [|[lat r] ps IH]; intros w Hnet Hall Hin.
  - reflexivity.
  - cbn [map Trace.reply_of fst snd app] in Hnet.
    cbn [Trace.within_timeout map fst] in Hin.
    apply andb_prop in Hin as [Hle Hin]. apply Z.leb_le in Hle.
    inversion Hall as [|? ? Hst Hall']; subst. cbn [snd] in Hst.
    cbn [length Nat.add]. rewrite while_true_S.
    subst body.
    rewrite (poll_round_pending _ _ _ _ _ w lat r _ Hnet Hst) by lia.
    cbn [map fst Trace.advance_all]. apply IH.
    + cbn. now rewrite Hnet.
    + assumption.
    + cbn. replace (clock w + (lat + 1000 * poll_interval) - start)
        with (clock w - start + lat + 1000 * poll_interval) by lia.
      assumption.
Qed.

End PollLoop.

Section PollResults.
Variables (poll_url api_key : string) (poll_interval timeout : Z).

Let line : string := "Polling results at " +:+ poll_url +:+ "...".
Let rq : request := Trace.poll_request poll_url api_key.

(** The run of [poll_results] over replies that are 202 and in time,
    up to the round that takes the reply after them. *)
Lemma poll_results_pending (ps : list (Z * response)) (w : world)
    (reply : reply) (rest : list Sys.reply) :
  net w = map Trace.reply_of ps ++ reply :: rest ->
  Forall (fun p => status_code (snd p) = 202) ps ->
  Trace.within_timeout (1000 * poll_interval) (1000 * timeout) 0
    (map fst ps) = true ->
  let w' :=
    Trace.advance_all [line] rq (1000 * poll_interval) (map fst ps) w in
  poll_results poll_url api_key poll_interval timeout w
  = match
      poll_round poll_url api_key poll_interval timeout (clock w) w'
    with
    | (Ret (Some a), w'') => (Ret a, w'')
    | (Ret None, w'') =>
        while_true (S (length rest))
          (poll_round poll_url api_key poll_interval timeout (clock w)) w''
    | (Exit code, w'') => (Exit code, w'')
    | (Raise e, w'') => (Raise e, w'')
    | (Blocked, w'') => (Blocked, w'')
    end
    /\ net w' = reply :: rest
    /\ clock w' = clock w
                  + Trace.elapsed_after (1000 * poll_interval) 0 (map fst ps)
    /\ sent w' = sent w ++ List.repeat rq (length ps)
    /\ fs w' = fs w
    /\ open_handles w' = open_handles w.
Proof.
  intros Hnet Hall Hin w'. split.
  - unfold poll_results, bind, time_time, loop.
    rewrite Hnet, length_app, length_map. cbn [length].
    replace (S (length ps + S (length rest)))
      with (length ps + S (S (length rest)))%nat by lia.
    rewrite (poll_pending_rounds _ _ _ _ _ ps _ w (reply :: rest));
      try assumption.
    + now rewrite while_true_S.
    + now rewrite Z.sub_diag.
  - subst w'.
    rewrite advance_all_net, advance_all_clock, advance_all_sent,
      advance_all_fs, advance_all_open_handles, length_map, Hnet.
    repeat split.
    replace (length ps) with (length (map Trace.reply_of ps))
      by apply length_map.
    now rewrite drop_app_length.
Qed.

End PollResults.

(* ---------------------------------------------------------------------- *)
(** ** The shared poller: timeout *)

(** C1 (amended).  With a poll interval of 10 s and a timeout of 500 s the
    loop of [send_async_generation_request] goes round exactly while the
    status is 202: a reply with another status ends it, returned when it is
    ok and fatal otherwise.  While 202 persists the loop halts with the
    fatal timeout error at the first 202 reply that arrives more than 500 s
    after the start, and issues no further poll.  When requests take no
    time this is the 52nd consecutive 202 reply, at elapsed time 510 s: the
    51st arrives at 500 s exactly, which is not beyond the timeout. *)
Theorem poll_results_timeout (poll_url api_key : string) (w : world) :
  let run := poll_results poll_url api_key 10 500 w in
  (forall (ps : list (Z * response)) lat r rest,
     net w = map Trace.reply_of ps ++ Responds lat r :: rest ->
     Forall (fun p => status_code (snd p) = 202) ps ->
     Trace.within_timeout 10000 500000 0 (map fst ps) = true ->
     status_code r <> 202 ->
     fst run = (if ok r then Ret r else Exit 1)
     /\ Trace.issued w run = Z.of_nat (length ps) + 1)
  /\ (forall (ps : list (Z * response)) lat r rest,
        net w = map Trace.reply_of ps ++ Responds lat r :: rest ->
        Forall (fun p => status_code (snd p) = 202) ps ->
        Trace.within_timeout 10000 500000 0 (map fst ps) = true ->
        status_code r = 202 ->
        Trace.elapsed_after 10000 0 (map fst ps) + lat > 500000 ->
        fst run = Exit 1
        /\ Trace.issued w run = Z.of_nat (length ps) + 1
        /\ last (stdout (snd run)) = Some Trace.timeout_line
        /\ clock (snd run) - clock w
           = Trace.elapsed_after 10000 0 (map fst ps) + lat)
  /\ (forall (rs : list response) rest,
        net w = map (Responds 0) rs ++ rest ->
        length rs = 52%nat ->
        Forall (fun r => status_code r = 202) rs ->
        fst run = Exit 1
        /\ Trace.issued w run = 52
        /\ last (stdout (snd run)) = Some Trace.timeout_line
        /\ clock (snd run) - clock w = 510000).
Proof.
  intros run.
  assert (Hdone : forall (ps : list (Z * response)) lat r rest,
     net w = map Trace.reply_of ps ++ Responds lat r :: rest ->
     Forall (fun p => status_code (snd p) = 202) ps ->
     Trace.within_timeout 10000 500000 0 (map fst ps) = true ->
     status_code r <> 202 ->
     fst run = (if ok r then Ret r else Exit 1)
     /\ Trace.issued w run = Z.of_nat (length ps) + 1).
  { intros ps lat r rest Hnet Hall Hin Hst.
    destruct (poll_results_pending poll_url api_key 10 500 ps w _ rest
                Hnet Hall Hin) as (Hrun & Hnet' & _ & Hsent & _).
    subst run. rewrite Hrun. clear Hrun.
    destruct (ok r) eqn:Hok.
    - rewrite (poll_round_done _ _ _ _ _ _ lat r rest Hnet' Hst Hok).
      split; [reflexivity|]. unfold Trace.issued. cbn [snd Trace.advance sent].
      rewrite Hsent, !length_app, repeat_length. cbn [length]. lia.
    - rewrite (poll_round_error _ _ _ _ _ _ lat r rest Hnet' Hok).
      split; [reflexivity|]. unfold Trace.issued.
      cbn [snd Trace.advance sent set_stdout].
      rewrite Hsent, !length_app, repeat_length. cbn [length]. lia. }
  assert (Hlate : forall (ps : list (Z * response)) lat r rest,
        net w = map Trace.reply_of ps ++ Responds lat r :: rest ->
        Forall (fun p => status_code (snd p) = 202) ps ->
        Trace.within_timeout 10000 500000 0 (map fst ps) = true ->
        status_code r = 202 ->
        Trace.elapsed_after 10000 0 (map fst ps) + lat > 500000 ->
        fst run = Exit 1
        /\ Trace.issued w run = Z.of_nat (length ps) + 1
        /\ last (stdout (snd run)) = Some Trace.timeout_line
        /\ clock (snd run) - clock w
           = Trace.elapsed_after 10000 0 (map fst ps) + lat).
  { intros ps lat r rest Hnet Hall Hin Hst Hgt.
    destruct (poll_results_pending poll_url api_key 10 500 ps w _ rest
                Hnet Hall Hin) as (Hrun & Hnet' & Hclock & Hsent & _).
    subst run. rewrite Hrun. clear Hrun.
    rewrite (poll_round_timeout _ _ _ _ _ _ lat r rest Hnet' Hst)
      by (rewrite Hclock; change (1000 * 10) with 10000; lia).
    split; [reflexivity|]. split; [|split].
    - unfold Trace.issued. cbn [snd Trace.advance sent set_stdout].
      rewrite Hsent, !length_app, repeat_length. cbn [length]. lia.
    - cbn [snd set_stdout stdout]. rewrite app_assoc, last_snoc.
      reflexivity.
    - cbn [snd set_stdout Trace.advance clock]. rewrite Hclock.
      change (1000 * 10) with 10000. lia. }
  split; [exact Hdone|]. split; [exact Hlate|].
  intros rs rest Hnet Hlen Hall.
  destruct rs as [|r0 rs _] using rev_ind; [discriminate|].
  rewrite length_app in Hlen. cbn in Hlen.
  assert (Hlen' : length rs = 51%nat) by lia. clear Hlen.
  apply Forall_app in Hall as [Hall Hr0].
  inversion Hr0 as [|? ? Hst _]; subst.
  rewrite map_app, <- app_assoc in Hnet. cbn [map app] in Hnet.
  assert (Hmap : map (Responds 0) rs
                 = map Trace.reply_of (map (pair 0) rs)).
  { rewrite map_map. reflexivity. }
  assert (Hlats : map fst (map (pair 0) rs) = List.repeat 0 51).
  { rewrite map_map. cbn [fst]. rewrite <- Hlen'. clear.
    induction rs; cbn; [reflexivity | now f_equal]. }
  rewrite Hmap in Hnet.
  destruct (Hlate (map (pair 0) rs) 0 r0 rest Hnet) as (H1 & H2 & H3 & H4).
  - apply Forall_map. exact Hall.
  - rewrite Hlats. reflexivity.
  - exact Hst.
  - rewrite Hlats. reflexivity.
  - rewrite Hlats in H4. rewrite length_map, Hlen' in H2.
    repeat split; assumption.
Qed.

(* ---------------------------------------------------------------------- *)
(** ** Frames *)

Import Frames.

#[local] Instance same_fs_frame : Frame same_fs.
Proof. split; unfold same_fs; intros; cbn; congruence. Qed.

#[local] Instance same_fs_exchanging : Exchanging same_fs.
Proof. split; unfold same_fs; intros; reflexivity. Qed.

#[local] Instance same_sent_frame : Frame same_sent.
Proof. split; unfold same_sent; intros; cbn; congruence. Qed.

#[local] Instance same_sent_writing : Writing same_sent.
Proof. split; unfold same_sent; intros; reflexivity. Qed.

#[local] Instance more_sent_frame : Frame more_sent.
Proof.
  split; unfold more_sent; intros; cbn; try (exists []; now rewrite app_nil_r).
  destruct H as [l1 H1], H0 as [l2 H2]. exists (l1 ++ l2).
  now rewrite H2, H1, app_assoc.
Qed.

#[local] Instance more_sent_exchanging : Exchanging more_sent.
Proof.
  split; unfold more_sent; intros; cbn.
  - exists []. now rewrite app_nil_r.
  - now exists [rq].
Qed.

#[local] Instance more_sent_writing : Writing more_sent.
Proof.
  split; unfold more_sent; intros; cbn. exists []. now rewrite app_nil_r.
Qed.

Create HintDb steady.

Section Steady.
Context (R : world -> world -> Prop) `{!Frame R}.

Lemma steady_ret {A} (a : A) : steady R (ret a).
Proof. intros w. apply frame_refl. Qed.

Lemma steady_exit {A} (code : Z) : steady R (@exit A code).
Proof. intros w. apply frame_refl. Qed.

Lemma steady_raise {A} (e : string) : steady R (@raise A e).
Proof. intros w. apply frame_refl. Qed.

Lemma steady_bind {A B} (c : M A) (k : A -> M B) :
  steady R c -> (forall a, steady R (k a)) -> steady R (bind c k).
Proof.
  intros Hc Hk w. unfold bind. specialize (Hc w).
  destruct (c w) as [[a| | |] w']; cbn in *; try assumption.
  eapply frame_trans; [exact Hc | apply Hk].
Qed.

Lemma steady_try_except {A} (c : M A) (h : string -> M A) :
  steady R c -> (forall e, steady R (h e)) -> steady R (try_except c h).
Proof.
  intros Hc Hh w. unfold try_except. specialize (Hc w).
  destruct (c w) as [[a| |e|] w']; cbn in *; try assumption.
  eapply frame_trans; [exact Hc | apply Hh].
Qed.

Lemma steady_while_true {A} (fuel : nat) (body : M (option A)) :
  steady R body -> steady R (while_true fuel body).
Proof.
  intros Hb. induction fuel as [|fuel IH]; cbn [while_true].
  - intros w. apply frame_refl.
  - apply steady_bind; [assumption|]. intros [a|];
      [apply steady_ret | assumption].
Qed.

Lemma steady_loop {A} (body : M (option A)) :
  steady R body -> steady R (loop body).
Proof. intros Hb w. unfold loop. now apply steady_while_true. Qed.

Lemma steady_for_each {A} (xs : list A) (f : A -> M unit) :
  (forall x, steady R (f x)) -> steady R (for_each xs f).
Proof.
  intros Hf. induction xs as [|x xs IH]; cbn [for_each].
  - apply steady_ret.
  - apply steady_bind; [apply Hf | intros _; assumption].
Qed.

Lemma steady_print (line : string) : steady R (print line).
Proof. intros w. apply frame_stdout. Qed.

Lemma steady_time_time : steady R time_time.
Proof. intros w. apply frame_refl. Qed.

Lemma steady_time_int : steady R time_int.
Proof. intros w. apply frame_refl. Qed.

Lemma steady_sleep (seconds : Z) : steady R (sleep seconds).
Proof. intros w. apply frame_clock. Qed.

Lemma steady_path_exists (path : string) : steady R (path_exists path).
Proof. intros w. apply frame_refl. Qed.

Lemma steady_open_rb (path : string) : steady R (open_rb path).
Proof.
  intros w. unfold open_rb.
  destruct (fs w !! path); cbn; [apply frame_handles | apply frame_refl].
Qed.

Lemma steady_close (h : nat) : steady R (close h).
Proof. intros w. apply frame_handles. Qed.

Lemma steady_with_open_rb {A} (path : string) (body : nat -> M A) :
  (forall h, steady R (body h)) -> steady R (with_open_rb path body).
Proof.
  intros Hb. unfold with_open_rb. apply steady_bind; [apply steady_open_rb|].
  intros h w. specialize (Hb h w).
  destruct (body h w) as [[a| |e|] w']; cbn in *; try assumption;
    (eapply frame_trans; [exact Hb | apply frame_handles]).
Qed.

Lemma steady_with_image_open {A} (path : string) (body : Z * Z -> M A) :
  (forall size, steady R (body size)) -> steady R (with_image_open path body).
Proof.
  intros Hb w. unfold with_image_open.
  destruct (fs w !! path) as [data|] eqn:Hfs; [|apply frame_refl].
  destruct (pil_size w data) as [size|]; [|apply frame_refl].
  clear Hfs.
  apply (steady_bind (open_rb path)); [apply steady_open_rb|].
  intros h w1. specialize (Hb size w1).
  destruct (body size w1) as [[a| |e|] w']; cbn in *; try assumption;
    (eapply frame_trans; [exact Hb | apply frame_handles]).
Qed.

(** What follows a step keeps to [R] from the world the step left. *)
Lemma steady_bind_from {A B} (c : M A) (k : A -> M B) (w : world) :
  (forall a, steady R (k a)) -> R (snd (c w)) (snd (bind c k w)).
Proof.
  intros Hk. unfold bind.
  destruct (c w) as [[a| | |] w']; cbn; try apply frame_refl. apply Hk.
Qed.

Lemma steady_try_except_from {A} (c : M A) (h : string -> M A) (w : world) :
  (forall e, steady R (h e)) -> R (snd (c w)) (snd (try_except c h w)).
Proof.
  intros Hh. unfold try_except.
  destruct (c w) as [[a| |e|] w']; cbn; try apply frame_refl. apply Hh.
Qed.

Lemma steady_write_wb `{!Writing R} (path data : string) :
  steady R (write_wb path data).
Proof. intros w. apply frame_fs. Qed.

Context `{!Exchanging R}.

Lemma steady_exchange (rq : request) : steady R (exchange rq).
Proof.
  intros w. unfold exchange.
  assert (H1 := frame_sent w rq).
  destruct (net (set_sent (sent w ++ [rq]) w)) as [|[lat r|lat e] rest];
    cbn [snd]; [assumption| |];
    (eapply frame_trans; [exact H1|];
     eapply frame_trans; [apply frame_net | apply frame_clock]).
Qed.

Lemma steady_requests_post url hdrs files data :
  steady R (requests_post url hdrs files data).
Proof. apply steady_exchange. Qed.

Lemma steady_requests_get url hdrs : steady R (requests_get url hdrs).
Proof. apply steady_exchange. Qed.

Lemma steady_response_json (r : response) : steady R (response_json r).
Proof.
  unfold response_json.
  destruct (body r); [apply steady_raise | apply steady_ret..].
Qed.

Lemma steady_doc_get (doc : json_doc) (key : string) :
  steady R (doc_get doc key).
Proof.
  destruct doc; [apply steady_raise | apply steady_ret | apply steady_raise].
Qed.

End Steady.

#[local] Hint Resolve steady_ret steady_exit steady_raise steady_print
  steady_time_time steady_time_int steady_sleep steady_path_exists
  steady_open_rb steady_close steady_exchange steady_requests_post
  steady_requests_get steady_response_json steady_doc_get steady_write_wb
  : steady.

(** Splits a goal [steady R c] along the structure of [c]. *)
Ltac steady :=
  repeat first
    [ progress cbv zeta
    | match goal with
      | |- Frame _ => exact _
      | |- Exchanging _ => exact _
      | |- Writing _ => exact _
      end
    | progress intros
    | match goal with
      | |- steady _ (bind _ _) => apply steady_bind
      | |- steady _ (try_except _ _) => apply steady_try_except
      | |- steady _ (with_open_rb _ _) => apply steady_with_open_rb
      | |- steady _ (with_image_open _ _) => apply steady_with_image_open
      | |- steady _ (loop _) => apply steady_loop
      | |- steady _ (for_each _ _) => apply steady_for_each
      | |- steady _ (if ?b then _ else _) => destruct b
      | |- steady _ (match ?x with _ => _ end) => destruct x
      end
    | solve [eauto with steady typeclass_instances] ].

Section SteadyScript.
Context (R : world -> world -> Prop) `{!Frame R}.

Lemma steady_unique_filename prefix ext seed :
  steady R (unique_filename prefix ext seed).
Proof. unfold unique_filename. steady. Qed.

Lemma steady_attach key v files : steady R (attach key v files).
Proof. unfold attach. steady. Qed.

Lemma steady_close_files files : steady R (close_files files).
Proof. unfold close_files. steady. Qed.

Hint Resolve steady_attach steady_close_files : steady.

Context `{!Exchanging R}.

Lemma steady_send_generation_request host params files api_key :
  steady R (send_generation_request host params files api_key).
Proof. unfold send_generation_request. steady. Qed.

Lemma steady_poll_round poll_url api_key poll_interval timeout start :
  steady R (poll_round poll_url api_key poll_interval timeout start).
Proof. unfold poll_round. steady. Qed.

Hint Resolve steady_poll_round : steady.

Lemma steady_poll_results poll_url api_key poll_interval timeout :
  steady R (poll_results poll_url api_key poll_interval timeout).
Proof. unfold poll_results. steady. Qed.

Hint Resolve steady_poll_results : steady.

Lemma steady_send_async_generation_request host params files api_key
    poll_interval timeout :
  steady R (send_async_generation_request host params files api_key
              poll_interval timeout).
Proof. unfold send_async_generation_request. steady. Qed.

Hint Resolve steady_send_generation_request
  steady_send_async_generation_request : steady.

Lemma steady_image_request api_key prompt negative_prompt aspect_ratio seed
    output_format endpoint :
  steady R (image_request api_key prompt negative_prompt aspect_ratio seed
              output_format endpoint).
Proof. unfold image_request. steady. Qed.

Lemma steady_sd3_request api_key prompt negative_prompt aspect_ratio seed
    output_format model endpoint :
  steady R (sd3_request api_key prompt negative_prompt aspect_ratio seed
              output_format model endpoint).
Proof. unfold sd3_request. steady. Qed.

Lemma steady_sketch_request api_key input_image prompt negative_prompt
    control_strength seed output_format endpoint :
  steady R (sketch_request api_key input_image prompt negative_prompt
              control_strength seed output_format endpoint).
Proof. unfold sketch_request. steady. Qed.

Lemma steady_check_pixels input_image : steady R (check_pixels input_image).
Proof. unfold check_pixels. steady. Qed.

Hint Resolve steady_check_pixels : steady.

Lemma steady_upscale_request api_key input_image prompt negative_prompt
    seed creativity output_format endpoint :
  steady R (upscale_request api_key input_image prompt negative_prompt
              seed creativity output_format endpoint).
Proof. unfold upscale_request. steady. Qed.

End SteadyScript.

#[local] Hint Resolve steady_unique_filename steady_attach steady_close_files
  steady_send_generation_request steady_poll_round steady_poll_results
  steady_send_async_generation_request steady_image_request
  steady_sd3_request steady_sketch_request steady_upscale_request : steady.

(* ---------------------------------------------------------------------- *)
(** ** File names *)

(** C7.  With the clock at the whole second [ts], [unique_filename] returns
    [<prefix>_<ts>.<ext>] without a seed and [<prefix>_<seed>_<ts>.<ext>]
    with one, and leaves the world as it is; at [ts = 1700000000] it returns
    "model_1700000000.glb" for ("model", "glb") and
    "generated_7_1700000000.jpeg" for ("generated", "jpeg") with seed 7. *)
Theorem unique_filename_deterministic (w : world) (ts : Z) :
  clock w ÷ 1000 = ts ->
  (forall prefix ext,
     unique_filename prefix ext None w
     = (Ret (prefix +:+ "_" +:+ Py.str_of_int ts +:+ "." +:+ ext), w))
  /\ (forall prefix ext seed,
        unique_filename prefix ext (Some seed) w
        = (Ret (prefix +:+ "_" +:+ Py.str_of_int seed +:+ "_"
                +:+ Py.str_of_int ts +:+ "." +:+ ext), w))
  /\ (ts = 1700000000 ->
      unique_filename "model" "glb" None w
      = (Ret "model_1700000000.glb", w)
      /\ unique_filename "generated" "jpeg" (Some 7) w
         = (Ret "generated_7_1700000000.jpeg", w)).
Proof.
  intros <-. split; [|split].
  - reflexivity.
  - reflexivity.
  - intros Hts. unfold unique_filename, bind, time_int, ret.
    rewrite Hts. split; reflexivity.
Qed.

Lemma unique_filename_deterministic_witness :
  let w := mkWorld 1700000000250 ∅ (fun _ => None) 0 ∅ [] [] [] in
  unique_filename "model" "glb" None w = (Ret "model_1700000000.glb", w)
  /\ unique_filename "generated" "jpeg" (Some 7) w
     = (Ret "generated_7_1700000000.jpeg", w).
Proof.
  intros w.
  apply (proj2 (proj2 (unique_filename_deterministic w 1700000000 eq_refl))).
  reflexivity.
Defined.

(* ---------------------------------------------------------------------- *)
(** ** Content moderation *)

Lemma content_filtered_header (r : response) :
  headers r !! "finish-reason" = Some "CONTENT_FILTERED" ->
  content_filtered r = true.
Proof. intros H. unfold content_filtered, header_get. now rewrite H. Qed.

(** C4.  In every image-producing mode (image, sketch, sd3, upscale), when
    the response the request part obtains carries the header
    [finish-reason: CONTENT_FILTERED], the run ends in [exit(1)] and the
    files are those of the start: no output file is written, whatever the
    status of the response. *)
Theorem content_filtered_is_fatal (r : response) (w w1 : world) :
  headers r !! "finish-reason" = Some "CONTENT_FILTERED" ->
  (forall api_key prompt negative_prompt aspect_ratio seed output_format
          endpoint,
     image_request api_key prompt negative_prompt aspect_ratio seed
       output_format endpoint w = (Ret r, w1) ->
     let run := generate_image api_key prompt negative_prompt aspect_ratio
                  seed output_format endpoint w in
     fst run = Exit 1 /\ fs (snd run) = fs w)
  /\ (forall api_key input_image prompt negative_prompt control_strength
             seed output_format endpoint,
        sketch_request api_key input_image prompt negative_prompt
          control_strength seed output_format endpoint w = (Ret r, w1) ->
        let run := sketch_to_image api_key input_image prompt
                     negative_prompt control_strength seed output_format
                     endpoint w in
        fst run = Exit 1 /\ fs (snd run) = fs w)
  /\ (forall api_key prompt negative_prompt aspect_ratio seed output_format
             model endpoint,
        sd3_request api_key prompt negative_prompt aspect_ratio seed
          output_format model endpoint w = (Ret r, w1) ->
        let run := generate_sd3 api_key prompt negative_prompt aspect_ratio
                     seed output_format model endpoint w in
        fst run = Exit 1 /\ fs (snd run) = fs w)
  /\ (forall api_key input_image prompt negative_prompt seed creativity
             output_format endpoint,
        upscale_request api_key input_image prompt negative_prompt seed
          creativity output_format endpoint w = (Ret r, w1) ->
        let run := upscale_image api_key input_image prompt negative_prompt
                     seed creativity output_format endpoint w in
        fst run = Exit 1 /\ fs (snd run) = fs w).
Proof.
  intros Hhdr. apply content_filtered_header in Hhdr.
  split; [|split; [|split]]; intros *; intros H run.
  - assert (Hfs := steady_image_request same_fs api_key prompt
                     negative_prompt aspect_ratio seed output_format endpoint
                     w).
    subst run. unfold generate_image, bind. rewrite H in *. rewrite Hhdr.
    split; [reflexivity | exact Hfs].
  - assert (Hfs := steady_sketch_request same_fs api_key input_image prompt
                     negative_prompt control_strength seed output_format
                     endpoint w).
    subst run. unfold sketch_to_image, bind. rewrite H in *. rewrite Hhdr.
    destruct (ok r); (split; [reflexivity | exact Hfs]).
  - assert (Hfs := steady_sd3_request same_fs api_key prompt negative_prompt
                     aspect_ratio seed output_format model endpoint w).
    subst run. unfold generate_sd3, bind. rewrite H in *. rewrite Hhdr.
    split; [reflexivity | exact Hfs].
  - assert (Hfs := steady_upscale_request same_fs api_key input_image prompt
                     negative_prompt seed creativity output_format endpoint
                     w).
    subst run. unfold upscale_image, bind. rewrite H in *. rewrite Hhdr.
    destruct (ok r); (split; [reflexivity | exact Hfs]).
Qed.

(* ---------------------------------------------------------------------- *)
(** ** What the request helpers send *)

Lemma bind_ret_w {A B} (a : A) (k : A -> M B) (w : world) :
  bind (ret a) k w = k a w.
Proof. reflexivity. Qed.

Lemma bind_print_w {B} (line : string) (k : unit -> M B) (w : world) :
  bind (print line) k w = k tt (set_stdout (stdout w ++ [line]) w).
Proof. reflexivity. Qed.

Lemma exchange_sent (rq : request) (w : world) :
  sent (snd (exchange rq w)) = sent w ++ [rq].
Proof.
  unfold exchange. cbn [net set_sent].
  destruct (net w) as [|[lat r|lat e] rest]; reflexivity.
Qed.

Lemma or_placeholder_empty :
  or_placeholder ∅ = <["none" := PTuple "" ""]> ∅.
Proof. reflexivity. Qed.

Lemma or_placeholder_non_empty (files : gmap string part) :
  files <> ∅ -> or_placeholder files = files.
Proof.
  intros H. unfold or_placeholder. now destruct (decide (files = ∅)).
Qed.

(** The request of [send_generation_request] when the parameters name no
    file: a POST with the placeholder part and the parameters as they are,
    and nothing else is sent. *)
Lemma send_generation_request_sent (host : string)
    (params : gmap string value) (api_key : string) (w : world) :
  params !! "image" = None ->
  params !! "mask" = None ->
  sent (snd (send_generation_request host params None api_key w))
  = sent w
    ++ [mkRequest POST host
          (<["Authorization" := "Bearer " +:+ api_key]>
             (<["Accept" := "image/*"]> ∅))
          (<["none" := PTuple "" ""]> ∅) params].
Proof.
  intros Himage Hmask. unfold send_generation_request. cbv zeta.
  rewrite Himage, (delete_id params "image" Himage).
  rewrite Hmask, (delete_id params "mask" Hmask).
  cbn [attach default]. rewrite !bind_ret_w, or_placeholder_empty.
  rewrite bind_print_w.
  match goal with
  | |- sent (snd (bind ?c ?k ?w0)) = _ =>
      assert (Hrest : same_sent (snd (c w0)) (snd (bind c k w0)))
  end.
  { apply (steady_bind_from same_sent); steady. }
  rewrite Hrest. unfold requests_post. now rewrite exchange_sent.
Qed.

(** The first request of [send_async_generation_request] when the
    parameters name no file and the caller passes the file set. *)
Lemma send_async_generation_request_sent (host : string)
    (params : gmap string value) (files : gmap string part)
    (api_key : string) (poll_interval timeout : Z) (w : world) :
  params !! "image" = None ->
  params !! "mask" = None ->
  files <> ∅ ->
  exists more,
    sent (snd (send_async_generation_request host params (Some files)
                 api_key poll_interval timeout w))
    = sent w
      ++ mkRequest POST host
           (<["Authorization" := "Bearer " +:+ api_key]>
              (<["Accept" := "application/json"]> ∅))
           files params :: more.
Proof.
  intros Himage Hmask Hfiles. unfold send_async_generation_request.
  cbv zeta.
  rewrite Himage, (delete_id params "image" Himage).
  rewrite Hmask, (delete_id params "mask" Hmask).
  cbn [attach default].
  rewrite !bind_ret_w. cbv beta delta [id].
  rewrite (or_placeholder_non_empty files Hfiles).
  rewrite bind_print_w.
  match goal with
  | |- exists more, sent (snd (bind ?c ?k ?w0)) = _ =>
      assert (Hrest : more_sent (snd (c w0)) (snd (bind c k w0)))
  end.
  { apply steady_bind_from; steady. }
  destruct Hrest as [more Hrest]. exists more. rewrite Hrest.
  unfold requests_post. rewrite exchange_sent, <- app_assoc. reflexivity.
Qed.

(* ---------------------------------------------------------------------- *)
(** ** The SD3 menu *)

Lemma menu_model_cases (answer : string) :
  menu_model answer = "sd3.5-large"
  \/ menu_model answer = "sd3-large-turbo"
  \/ menu_model answer = "sd3-medium".
Proof.
  unfold menu_model, model_map.
  set (choice := if Py.is_empty (Py.strip answer) then "1"
                 else Py.strip answer).
  clearbody choice.
  destruct (decide (choice = "1")) as [->|H1]; [now left|].
  destruct (decide (choice = "2")) as [->|H2]; [now right; left|].
  destruct (decide (choice = "3")) as [->|H3]; [now right; right|].
  left. now rewrite !lookup_insert_ne, lookup_empty by congruence.
Qed.

(** C10.  Whatever is typed at the model menu, the model is one of
    sd3.5-large, sd3-large-turbo and sd3-medium, and [generate_sd3] called
    with it issues exactly one request, a POST to the endpoint whose
    [negative_prompt] field is the empty string, whatever negative prompt
    was supplied. *)
Theorem sd3_menu_negative_prompt_empty (answer api_key prompt negative_prompt
    aspect_ratio : string) (seed : Z) (output_format endpoint : string)
    (w : world) :
  let model := menu_model answer in
  let run := generate_sd3 api_key prompt negative_prompt aspect_ratio seed
               output_format model endpoint w in
  (model = "sd3.5-large" \/ model = "sd3-large-turbo" \/ model = "sd3-medium")
  /\ exists rq,
       sent (snd run) = sent w ++ [rq]
       /\ req_method rq = POST
       /\ req_url rq = endpoint
       /\ req_data rq !! "negative_prompt" = Some (VStr "")
       /\ req_data rq !! "prompt" = Some (VStr prompt)
       /\ req_data rq !! "model" = Some (VStr model).
Proof.
  intros model run. split; [apply menu_model_cases|].
  assert (Hneq : String.eqb model "sd3" = false).
  { destruct (menu_model_cases answer) as [H|[H|H]];
      subst model; rewrite H; reflexivity. }
  eexists. split; [|repeat split].
  - subst run. unfold generate_sd3.
    match goal with
    | |- sent (snd (bind ?c ?k ?w0)) = _ =>
        assert (Hsave : same_sent (snd (c w0)) (snd (bind c k w0)))
    end.
    { apply (steady_bind_from same_sent); steady. }
    rewrite Hsave. unfold sd3_request. cbv zeta.
    match goal with
    | |- sent (snd (try_except ?c ?h ?w0)) = _ =>
        assert (Htry : same_sent (snd (c w0)) (snd (try_except c h w0)))
    end.
    { apply (steady_try_except_from same_sent); steady. }
    rewrite Htry. apply send_generation_request_sent; reflexivity.
  - reflexivity.
  - reflexivity.
  - cbn [req_data]. unfold sd3_params. rewrite Hneq. reflexivity.
  - reflexivity.
  - reflexivity.
Qed.

(* ---------------------------------------------------------------------- *)
(** ** The pixel limit of the upscaler *)

Lemma path_exists_found (path data : string) (w : world) :
  fs w !! path = Some data -> path_exists path w = (Ret true, w).
Proof.
  intros H. unfold path_exists. rewrite H.
  rewrite bool_decide_eq_true_2 by eauto. reflexivity.
Qed.

(** The outcome of the check of the image dimensions. *)
Lemma check_pixels_outcome (input_image data : string) (width height : Z)
    (w : world) :
  fs w !! input_image = Some data ->
  pil_size w data = Some (width, height) ->
  fst (check_pixels input_image w)
  = (if width * height >? 1048576 then Exit 1 else Ret tt)
  /\ sent (snd (check_pixels input_image w)) = sent w
  /\ fs (snd (check_pixels input_image w)) = fs w.
Proof.
  intros Hfs Hpil. unfold check_pixels, with_image_open.
  rewrite Hfs, Hpil. unfold bind, open_rb. rewrite Hfs.
  change max_pixels with 1048576.
  destruct (width * height >? 1048576); repeat split; reflexivity.
Qed.

(** Opening an existing file sends nothing by itself. *)
Lemma with_open_rb_sent {A} (path data : string) (body : nat -> M A)
    (w : world) :
  fs w !! path = Some data ->
  sent (snd (with_open_rb path body w))
  = sent (snd (body (next_handle w)
                 (set_handles (S (next_handle w))
                    ({[next_handle w]} ∪ open_handles w) w))).
Proof.
  intros Hfs. unfold with_open_rb, bind, open_rb. rewrite Hfs.
  destruct (body _ _) as [[a| |e|] w']; reflexivity.
Qed.

(** C5.  For an input file that PIL reads as an image of [width] by
    [height] pixels, [upscale_image] ends in [exit(1)] without any request
    and without writing a file when [width * height] exceeds 1,048,576, and
    goes on to submit the image (a POST to the endpoint is its first
    request) when [width * height] is at most 1,048,576. *)
Theorem upscale_pixel_limit (api_key input_image prompt negative_prompt
    : string) (seed : Z) (creativity : Q) (output_format endpoint : string)
    (w : world) (data : string) (width height : Z) :
  fs w !! input_image = Some data ->
  pil_size w data = Some (width, height) ->
  let run := upscale_image api_key input_image prompt negative_prompt seed
               creativity output_format endpoint w in
  (width * height > 1048576 ->
   fst run = Exit 1
   /\ sent (snd run) = sent w
   /\ fs (snd run) = fs w)
  /\ (width * height <= 1048576 ->
      exists rq more,
        sent (snd run) = sent w ++ rq :: more
        /\ req_method rq = POST
        /\ req_url rq = endpoint
        /\ is_Some (req_files rq !! "image")).
Proof.
  intros Hfs Hpil run.
  destruct (check_pixels_outcome input_image data width height w Hfs Hpil)
    as (Hout & Hsent & Hfiles).
  assert (Hrun : run = upscale_image api_key input_image prompt
                         negative_prompt seed creativity output_format
                         endpoint w) by reflexivity.
  clearbody run. unfold upscale_image, upscale_request in Hrun.
  unfold bind at 1 2 in Hrun.
  rewrite (path_exists_found _ _ _ Hfs) in Hrun. cbn [negb] in Hrun.
  unfold bind at 1 in Hrun.
  destruct (check_pixels input_image w) as [o w1]. cbn [fst snd] in *.
  split.
  - intros Hbig.
    replace (width * height >? 1048576) with true in Hout
      by (symmetry; rewrite Z.gtb_ltb; apply Z.ltb_lt; lia).
    subst o run. repeat split; assumption.
  - intros Hsmall.
    replace (width * height >? 1048576) with false in Hout
      by (symmetry; rewrite Z.gtb_ltb; apply Z.ltb_ge; lia).
    subst o.
    match type of Hrun with
    | context [try_except ?c ?h w1] =>
        assert (Htry : more_sent (snd (c w1)) (snd (try_except c h w1)))
          by (apply (steady_try_except_from more_sent); steady);
        destruct (try_except c h w1) as [o w2];
        destruct Htry as [l Htry];
        rewrite (with_open_rb_sent input_image data) in Htry
          by congruence
    end.
    cbn [snd] in Htry. rewrite bind_print_w in Htry.
    match type of Htry with
    | context [send_async_generation_request ?host ?params
                 (Some ?files) ?key ?i ?t ?w0] =>
        destruct (send_async_generation_request_sent host params files key
                    i t w0) as [more Hpost];
          [reflexivity | reflexivity | apply insert_non_empty |]
    end.
    rewrite Hpost in Htry.
    cbn [sent set_stdout set_handles] in Htry. rewrite Hsent in Htry.
    assert (Hsave : exists l', sent (snd run) = sent w2 ++ l').
    { subst run.
      destruct o as [a| | |]; try (exists []; now rewrite app_nil_r).
      match goal with
      | |- exists l', sent (snd (?k w2)) = _ =>
          assert (Hk : steady more_sent k) by steady
      end.
      apply Hk. }
    destruct Hsave as [l' Hsave].
    eexists _, (more ++ l ++ l'). split.
    { rewrite Hsave, Htry, <- !app_assoc. reflexivity. }
    repeat split. cbn [req_files]. rewrite lookup_insert_eq. eauto.
Qed.

(* ---------------------------------------------------------------------- *)
(** ** The loop of the video mode *)

Section VideoLoop.
Variables (result_url api_key : string) (seed : Z).

Let polling : string := "Polling video generation result...".
Let waiting : string :=
  "Video generation in progress, waiting 10 seconds...".
Let rq : request := Trace.video_request result_url api_key.
Let body : M (option string) := video_round result_url api_key seed.

Lemma video_round_pending (w : world) (lat : Z) (r : response)
    (rest : list reply) :
  net w = Responds lat r :: rest ->
  status_code r = 202 ->
  body w = (Ret None, Trace.advance [polling; waiting] rq (lat + 10000) w).
Proof.
  intros Hnet Hst. open_world w. subst. subst body. unfold video_round.
  sys_unfold. rewrite Hst. cbn [Z.eqb Pos.eqb tl].
  rewrite <- app_assoc, Z.add_assoc. reflexivity.
Qed.

Lemma video_round_done (w : world) (lat : Z) (r : response)
    (rest : list reply) :
  net w = Responds lat r :: rest ->
  status_code r = 200 ->
  exists filename w',
    body w = (Ret (Some filename), w')
    /\ clock w' = clock w + lat
    /\ net w' = rest
    /\ sent w' = sent w ++ [rq]
    /\ fs w' = <[filename := content r]> (fs w).
Proof.
  intros Hnet Hst. open_world w. subst. subst body. unfold video_round.
  sys_unfold. rewrite Hst. cbn [Z.eqb Pos.eqb].
  unfold unique_filename. sys_unfold. eexists _, _. split; [reflexivity|].
  repeat split.
Qed.

Lemma video_round_error (w : world) (lat : Z) (r : response)
    (rest : list reply) :
  net w = Responds lat r :: rest ->
  status_code r <> 202 ->
  status_code r <> 200 ->
  body w
  = (Exit 1,
     set_stdout (stdout w ++ [polling] ++ ["Error: " +:+ content r])
       (Trace.advance [polling] rq lat w)).
Proof.
  intros Hnet H202 H200. open_world w. subst. subst body.
  unfold video_round. sys_unfold.
  rewrite (proj2 (Z.eqb_neq _ _) H202), (proj2 (Z.eqb_neq _ _) H200).
  cbn [tl]. rewrite <- app_assoc. reflexivity.
Qed.

(** As long as the replies are 202 the loop goes round, however long it
    has been going. *)
Lemma video_pending_rounds (ps : list (Z * response)) (fuel : nat)
    (w : world) (tail : list reply) :
  net w = map Trace.reply_of ps ++ tail ->
  Forall (fun p => status_code (snd p) = 202) ps ->
  while_true (length ps + fuel) body w
  = while_true fuel body
      (Trace.advance_all [polling; waiting] rq 10000 (map fst ps) w).
Proof.
  revert w; induction ps as [|[lat r] ps IH]; intros w Hnet Hall.
  - reflexivity.
  - cbn [map Trace.reply_of fst snd app] in Hnet.
    inversion Hall as [|? ? Hst Hall']; subst. cbn [snd] in Hst.
    cbn [length Nat.add]. rewrite while_true_S.
    rewrite (video_round_pending w lat r _ Hnet Hst).
    cbn [map fst Trace.advance_all]. apply IH; [|assumption].
    cbn. now rewrite Hnet.
Qed.

(** The run of [poll_video] over replies that are 202, up to the round
    that takes the reply after them. *)
Lemma poll_video_pending (ps : list (Z * response)) (w : world)
    (reply : reply) (rest : list Sys.reply) :
  net w = map Trace.reply_of ps ++ reply :: rest ->
  Forall (fun p => status_code (snd p) = 202) ps ->
  let w' :=
    Trace.advance_all [polling; waiting] rq 10000 (map fst ps) w in
  poll_video result_url api_key seed w
  = match body w' with
    | (Ret (Some a), w'') => (Ret a, w'')
    | (Ret None, w'') => while_true (S (length rest)) body w''
    | (Exit code, w'') => (Exit code, w'')
    | (Raise e, w'') => (Raise e, w'')
    | (Blocked, w'') => (Blocked, w'')
    end
    /\ net w' = reply :: rest
    /\ clock w' = clock w + Trace.elapsed_after 10000 0 (map fst ps)
    /\ sent w' = sent w ++ List.repeat rq (length ps).
Proof.
  intros Hnet Hall w'. split.
  - unfold poll_video, loop.
    rewrite Hnet, length_app, length_map. cbn [length].
    replace (S (length ps + S (length rest)))
      with (length ps + S (S (length rest)))%nat by lia.
    fold body.
    rewrite (video_pending_rounds ps _ w (reply :: rest))
      by assumption.
    now rewrite while_true_S.
  - subst w'.
    rewrite advance_all_net, advance_all_clock, advance_all_sent,
      length_map, Hnet.
    repeat split.
    replace (length ps) with (length (map Trace.reply_of ps))
      by apply length_map.
    now rewrite drop_app_length.
Qed.

End VideoLoop.

(** C2 (amended).  Over the same replies, a run of 202 replies followed by
    a reply [r], the loop of the video mode and the shared poller agree
    when the 202 replies arrive within the 500 s timeout of the shared
    poller and [r] is a 200 or an error status (400-599): both poll at a
    10 s interval, issue the same number of polls, end at the same time,
    and succeed on 200 and exit on the error.  Beyond that they differ: the
    video loop has no timeout (it succeeds on a 200 however late) and exits
    on every status other than 200 and 202. *)
Theorem poll_loops_agree (poll_url result_url api_key : string) (seed : Z)
    (w : world) (ps : list (Z * response)) (lat : Z) (r : response)
    (rest : list reply) :
  net w = map Trace.reply_of ps ++ Responds lat r :: rest ->
  Forall (fun p => status_code (snd p) = 202) ps ->
  let shared := poll_results poll_url api_key 10 500 w in
  let video := poll_video result_url api_key seed w in
  (Trace.within_timeout 10000 500000 0 (map fst ps) = true ->
   status_code r = 200 \/ ok r = false ->
   Trace.ending_of (fst shared) = Trace.ending_of (fst video)
   /\ Trace.ending_of (fst video)
      = (if status_code r =? 200 then Trace.Returned else Trace.Exited 1)
   /\ Trace.issued w shared = Trace.issued w video
   /\ clock (snd shared) = clock (snd video)
   /\ net (snd shared) = net (snd video))
  /\ (status_code r = 200 ->
      Trace.ending_of (fst video) = Trace.Returned
      /\ Trace.issued w video = Z.of_nat (length ps) + 1
      /\ clock (snd video) - clock w
         = Trace.elapsed_after 10000 0 (map fst ps) + lat)
  /\ (status_code r <> 200 -> status_code r <> 202 ->
      Trace.ending_of (fst video) = Trace.Exited 1
      /\ Trace.issued w video = Z.of_nat (length ps) + 1).
Proof.
  intros Hnet Hall shared video.
  destruct (poll_video_pending result_url api_key seed ps w _ rest Hnet Hall)
    as (Hvideo & Hvnet & Hvclock & Hvsent).
  assert (Hv200 : status_code r = 200 ->
      Trace.ending_of (fst video) = Trace.Returned
      /\ Trace.issued w video = Z.of_nat (length ps) + 1
      /\ clock (snd video) - clock w
         = Trace.elapsed_after 10000 0 (map fst ps) + lat
      /\ net (snd video) = rest).
  { intros Hst. subst video. rewrite Hvideo.
    destruct (video_round_done result_url api_key seed _ lat r rest Hvnet Hst)
      as (filename & w' & -> & Hc & Hn & Hs & _).
    cbn [fst snd Trace.ending_of]. unfold Trace.issued. cbn [snd].
    rewrite Hs, Hvsent, Hc, Hvclock, !length_app, repeat_length.
    cbn [length]. repeat split; [lia | lia | assumption]. }
  assert (Hverr : status_code r <> 200 -> status_code r <> 202 ->
      Trace.ending_of (fst video) = Trace.Exited 1
      /\ Trace.issued w video = Z.of_nat (length ps) + 1
      /\ clock (snd video) - clock w
         = Trace.elapsed_after 10000 0 (map fst ps) + lat
      /\ net (snd video) = rest).
  { intros H200 H202. subst video. rewrite Hvideo.
    rewrite (video_round_error result_url api_key seed _ lat r rest Hvnet
               H202 H200).
    cbn [fst snd Trace.ending_of]. unfold Trace.issued.
    cbn [snd set_stdout Trace.advance sent clock net].
    rewrite Hvsent, Hvclock, Hvnet, !length_app, repeat_length.
    cbn [length tl]. repeat split; lia. }
  split; [|split].
  - intros Hin Hr.
    destruct (poll_results_pending poll_url api_key 10 500 ps w _ rest
                Hnet Hall Hin) as (Hshared & Hnet' & Hclock & Hsent & _).
    change (1000 * 10) with 10000 in *.
    destruct Hr as [Hst|Hok].
    + destruct (Hv200 Hst) as (He & Hi & Hc & Hn).
      rewrite He, Hi, Hst, Hn. cbn [Z.eqb Pos.eqb].
      subst shared. rewrite Hshared.
      rewrite (poll_round_done _ _ _ _ _ _ lat r rest Hnet')
        by (try (unfold ok; rewrite Hst; reflexivity); lia).
      unfold Trace.issued. cbn [fst snd Trace.ending_of Trace.advance
                                 sent clock net].
      rewrite Hsent, Hclock, Hnet', !length_app, repeat_length.
      cbn [length tl]. repeat split; lia.
    + assert (H200 : status_code r <> 200).
      { intros E. unfold ok in Hok. rewrite E in Hok. discriminate. }
      assert (H202 : status_code r <> 202).
      { intros E. unfold ok in Hok. rewrite E in Hok. discriminate. }
      destruct (Hverr H200 H202) as (He & Hi & Hc & Hn).
      rewrite He, Hi, Hn, (proj2 (Z.eqb_neq _ _) H200).
      subst shared. rewrite Hshared.
      rewrite (poll_round_error _ _ _ _ _ _ lat r rest Hnet' Hok).
      unfold Trace.issued.
      cbn [fst snd Trace.ending_of Trace.advance set_stdout sent clock net].
      rewrite Hsent, Hclock, Hnet', !length_app, repeat_length.
      cbn [length tl]. repeat split; lia.
  - intros Hst. destruct (Hv200 Hst) as (He & Hi & Hc & _). now repeat split.
  - intros H200 H202. destruct (Hverr H200 H202) as (He & Hi & _).
    now split.
Qed.

(* ---------------------------------------------------------------------- *)
(** ** Runs on concrete worlds *)

Import Scenarios.

Lemma poll_results_timeout_witness :
  (let w := world_of [Responds 0 processing; Responds 0 processing;
                      Responds 0 finished] in
   let run := poll_results "https://api.stability.ai/v2beta/results/job"
                "key" 10 500 w in
   fst run = Ret finished /\ Trace.issued w run = 3)
  /\ (let w := world_of [Responds 250000 processing;
                         Responds 250000 processing] in
      let run := poll_results "https://api.stability.ai/v2beta/results/job"
                   "key" 10 500 w in
      fst run = Exit 1 /\ Trace.issued w run = 2)
  /\ (let w := world_of (List.repeat (Responds 0 processing) 60) in
      let run := poll_results "https://api.stability.ai/v2beta/results/job"
                   "key" 10 500 w in
      fst run = Exit 1
      /\ Trace.issued w run = 52
      /\ clock (snd run) - clock w = 510000).
Proof.
  split; [|split]; intros w run.
  - apply (proj1 (poll_results_timeout
                    "https://api.stability.ai/v2beta/results/job" "key" w)
             [(0, processing); (0, processing)] 0 finished []).
    + reflexivity.
    + repeat constructor.
    + reflexivity.
    + discriminate.
  - destruct (proj1 (proj2 (poll_results_timeout
                    "https://api.stability.ai/v2beta/results/job" "key" w))
             [(250000, processing)] 250000 processing [])
      as (H1 & H2 & _).
    + reflexivity.
    + repeat constructor.
    + reflexivity.
    + reflexivity.
    + reflexivity.
    + split; assumption.
  - destruct (proj2 (proj2 (poll_results_timeout
                    "https://api.stability.ai/v2beta/results/job" "key" w))
             (List.repeat processing 52)
             (List.repeat (Responds 0 processing) 8))
      as (H1 & H2 & _ & H4).
    + reflexivity.
    + reflexivity.
    + repeat constructor.
    + repeat split; assumption.
Defined.

(** C1, as stated, fails: when requests take no time, the 51st consecutive
    202 reply arrives 500 s after the start, which is not beyond the
    timeout; the loop sleeps and polls a 52nd time, and returns the 200
    reply that this poll gets. *)
Lemma poll_timeout_not_at_51st_reply :
  let w := world_of (List.repeat (Responds 0 processing) 51
                     ++ [Responds 0 finished]) in
  let run := poll_results "https://api.stability.ai/v2beta/results/job"
               "key" 10 500 w in
  fst run = Ret finished
  /\ fst run <> Exit 1
  /\ Trace.issued w run = 52
  /\ clock (snd run) - clock w = 510000.
Proof. vm_compute. repeat split; discriminate. Qed.

(** When every request takes 100 ms, the 51st consecutive 202 reply arrives
    505.1 s after the start and the loop halts there, after 51 polls. *)
Example poll_timeout_when_requests_take_time :
  let w := world_of (List.repeat (Responds 100 processing) 60) in
  let run := poll_results "https://api.stability.ai/v2beta/results/job"
               "key" 10 500 w in
  fst run = Exit 1
  /\ Trace.issued w run = 51
  /\ clock (snd run) - clock w = 505100
  /\ last (stdout (snd run)) = Some Trace.timeout_line.
Proof. vm_compute. repeat split. Qed.

Lemma poll_loops_agree_witness :
  let w := world_of [Responds 120 processing; Responds 80 processing;
                     Responds 40 finished] in
  let shared := poll_results "https://api.stability.ai/v2beta/results/job"
                  "key" 10 500 w in
  let video :=
    poll_video "https://api.stability.ai/v2beta/image-to-video/result/job"
      "key" 42 w in
  Trace.ending_of (fst shared) = Trace.ending_of (fst video)
  /\ Trace.ending_of (fst video) = Trace.Returned
  /\ Trace.issued w shared = Trace.issued w video
  /\ clock (snd shared) = clock (snd video)
  /\ net (snd shared) = net (snd video).
Proof.
  intros w shared video.
  apply (proj1 (poll_loops_agree
                  "https://api.stability.ai/v2beta/results/job"
                  "https://api.stability.ai/v2beta/image-to-video/result/job"
                  "key" 42 w [(120, processing); (80, processing)] 40
                  finished [] eq_refl
                  ltac:(repeat constructor))).
  - reflexivity.
  - left. reflexivity.
Defined.

(** C2, as stated, fails.  On a 204 reply the shared poller returns the
    response and the video loop exits; on 52 consecutive 202 replies that
    take no time, followed by a 200, the shared poller exits on its timeout
    after 52 polls and the video loop polls a 53rd time and succeeds. *)
Lemma poll_loops_differ :
  (let w := world_of [Responds 0 no_content] in
   let shared := poll_results "https://api.stability.ai/v2beta/results/job"
                   "key" 10 500 w in
   let video :=
     poll_video "https://api.stability.ai/v2beta/image-to-video/result/job"
       "key" 42 w in
   fst shared = Ret no_content /\ fst video = Exit 1
   /\ Trace.ending_of (fst shared) <> Trace.ending_of (fst video))
  /\ (let w := world_of (List.repeat (Responds 0 processing) 52
                         ++ [Responds 0 finished]) in
      let shared := poll_results "https://api.stability.ai/v2beta/results/job"
                      "key" 10 500 w in
      let video :=
        poll_video "https://api.stability.ai/v2beta/image-to-video/result/job"
          "key" 42 w in
      fst shared = Exit 1 /\ Trace.issued w shared = 52
      /\ fst video = Ret "video_42_520.mp4" /\ Trace.issued w video = 53
      /\ Trace.ending_of (fst shared) <> Trace.ending_of (fst video)).
Proof. vm_compute. repeat split; discriminate. Qed.

(* ---------------------------------------------------------------------- *)
(** ** The job identifier *)

(** C3 at a reply whose [id] is the empty string.  The shared poller only
    rejects a missing [id]: the upscale mode goes on to poll the URL made of
    the empty identifier, here until it gets the 200 reply, and saves it.
    The video mode rejects the empty identifier before any poll, and both
    reject a missing one. *)
Theorem async_empty_id_is_polled :
  (let w := world_of [Responds 0 (accepted (JStr ""));
                      Responds 0 processing; Responds 0 finished] in
   let run := upscale_image "key" "in.png" "a cat" "" 42 0.3 "jpeg"
                UPSCALER_ENDPOINT w in
   fst run = Ret "upscaled_in_42.jpeg"
   /\ urls (snd run)
      = [UPSCALER_ENDPOINT;
         "https://api.stability.ai/v2beta/results/";
         "https://api.stability.ai/v2beta/results/"])
  /\ (let w := world_of [Responds 0 (accepted (JStr ""));
                         Responds 0 processing; Responds 0 finished] in
      let run := generate_video "key" "in.png" 42 7.5 127
                   VIDEO_GENERATION_ENDPOINT w in
      fst run = Exit 1 /\ urls (snd run) = [VIDEO_GENERATION_ENDPOINT])
  /\ (let w := world_of [Responds 0 accepted_without_id;
                         Responds 0 processing; Responds 0 finished] in
      let run := upscale_image "key" "in.png" "a cat" "" 42 0.3 "jpeg"
                   UPSCALER_ENDPOINT w in
      fst run = Exit 1 /\ urls (snd run) = [UPSCALER_ENDPOINT])
  /\ (let w := world_of [Responds 0 accepted_without_id;
                         Responds 0 processing; Responds 0 finished] in
      let run := generate_video "key" "in.png" 42 7.5 127
                   VIDEO_GENERATION_ENDPOINT w in
      fst run = Exit 1 /\ urls (snd run) = [VIDEO_GENERATION_ENDPOINT]).
Proof. vm_compute. repeat split. Qed.

(* ---------------------------------------------------------------------- *)
(** ** File handles *)

(** C6 at a request that raises.  [send_generation_request] and
    [send_async_generation_request] open the file named under "image" and
    close it after the POST has returned, whatever its status; when the
    POST raises (here a refused connection) the exception leaves the
    function before the closing loop and the handle stays open. *)
Theorem attachment_left_open_on_exception :
  let params : gmap string value :=
    <["image" := VStr "in.png"]> (<["prompt" := VStr "a cat"]> ∅) in
  (let w := world_of [Fails 0 "Connection refused"] in
   let run := send_generation_request THREE_D_GENERATION_ENDPOINT params
                None "key" w in
   fst run = Raise "Connection refused"
   /\ elements (open_handles (snd run)) = [0%nat])
  /\ (let w := world_of [Fails 0 "Connection refused"] in
      let run := send_async_generation_request UPSCALER_ENDPOINT params
                   None "key" 10 500 w in
      fst run = Raise "Connection refused"
      /\ elements (open_handles (snd run)) = [0%nat])
  /\ (let w := world_of [Responds 0 finished] in
      let run := send_generation_request THREE_D_GENERATION_ENDPOINT params
                   None "key" w in
      fst run = Ret finished /\ elements (open_handles (snd run)) = [])
  /\ (let w := world_of [Responds 0 server_error] in
      let run := send_generation_request THREE_D_GENERATION_ENDPOINT params
                   None "key" w in
      fst run = Exit 1 /\ elements (open_handles (snd run)) = [])
  /\ (let w := world_of [Responds 0 server_error] in
      let run := send_async_generation_request UPSCALER_ENDPOINT params
                   None "key" 10 500 w in
      fst run = Exit 1 /\ elements (open_handles (snd run)) = []).
Proof. vm_compute. repeat split. Qed.

Lemma content_filtered_is_fatal_witness :
  (let w := world_of [Responds 0 filtered] in
   let run := generate_image "key" "a cat" "" "3:2" 42 "jpeg"
                IMAGE_GENERATION_ENDPOINT w in
   fst run = Exit 1 /\ fs (snd run) = fs w)
  /\ (let w := world_of [Responds 0 filtered] in
      let run := sketch_to_image "key" "in.png" "a cat" "" 0.7 42 "jpeg"
                   SKETCH_ENDPOINT w in
      fst run = Exit 1 /\ fs (snd run) = fs w)
  /\ (let w := world_of [Responds 0 filtered] in
      let run := generate_sd3 "key" "a cat" "" "3:2" 42 "jpeg" "sd3.5-large"
                   SD3_ENDPOINT w in
      fst run = Exit 1 /\ fs (snd run) = fs w)
  /\ (let w := world_of [Responds 0 (accepted (JStr "job"));
                         Responds 0 processing; Responds 0 filtered] in
      let run := upscale_image "key" "in.png" "a cat" "" 42 0.3 "jpeg"
                   UPSCALER_ENDPOINT w in
      fst run = Exit 1 /\ fs (snd run) = fs w).
Proof.
  split; [|split; [|split]]; intros w run.
  - apply (proj1 (content_filtered_is_fatal filtered w
                    (snd (image_request "key" "a cat" "" "3:2" 42 "jpeg"
                            IMAGE_GENERATION_ENDPOINT w))
                    eq_refl)).
    vm_compute. reflexivity.
  - apply (proj1 (proj2 (content_filtered_is_fatal filtered w
                    (snd (sketch_request "key" "in.png" "a cat" "" 0.7 42
                            "jpeg" SKETCH_ENDPOINT w))
                    eq_refl))).
    vm_compute. reflexivity.
  - apply (proj1 (proj2 (proj2 (content_filtered_is_fatal filtered w
                    (snd (sd3_request "key" "a cat" "" "3:2" 42 "jpeg"
                            "sd3.5-large" SD3_ENDPOINT w))
                    eq_refl)))).
    vm_compute. reflexivity.
  - apply (proj2 (proj2 (proj2 (content_filtered_is_fatal filtered w
                    (snd (upscale_request "key" "in.png" "a cat" "" 42 0.3
                            "jpeg" UPSCALER_ENDPOINT w))
                    eq_refl)))).
    vm_compute. reflexivity.
Defined.

Lemma upscale_pixel_limit_witness :
  (let w := world_at 0 1025 1025 [Responds 0 (accepted (JStr "job"));
                                  Responds 0 finished] in
   let run := upscale_image "key" "in.png" "a cat" "" 42 0.3 "jpeg"
                UPSCALER_ENDPOINT w in
   fst run = Exit 1 /\ sent (snd run) = sent w /\ fs (snd run) = fs w)
  /\ (let w := world_at 0 1024 1024 [Responds 0 (accepted (JStr "job"));
                                     Responds 0 finished] in
      let run := upscale_image "key" "in.png" "a cat" "" 42 0.3 "jpeg"
                   UPSCALER_ENDPOINT w in
      exists rq more,
        sent (snd run) = sent w ++ rq :: more
        /\ req_method rq = POST
        /\ req_url rq = UPSCALER_ENDPOINT
        /\ is_Some (req_files rq !! "image")).
Proof.
  split; intros w run.
  - apply (proj1 (upscale_pixel_limit "key" "in.png" "a cat" "" 42 0.3
                    "jpeg" UPSCALER_ENDPOINT w "IMAGE" 1025 1025
                    eq_refl eq_refl)).
    reflexivity.
  - apply (proj2 (upscale_pixel_limit "key" "in.png" "a cat" "" 42 0.3
                    "jpeg" UPSCALER_ENDPOINT w "IMAGE" 1024 1024
                    eq_refl eq_refl)).
    discriminate.
Defined.

(* ---------------------------------------------------------------------- *)
(** ** The rounds allowed to the loops *)

Lemma while_true_fuel {A} (body : M (option A)) :
  consuming body ->
  forall fuel1 fuel2 w,
    (length (net w) < fuel1)%nat -> (length (net w) < fuel2)%nat ->
    while_true fuel1 body w = while_true fuel2 body w.
Proof.
  intros Hbody. induction fuel1 as [|fuel1 IH]; intros fuel2 w H1 H2;
    [lia|].
  destruct fuel2 as [|fuel2]; [lia|].
  rewrite !while_true_S.
  destruct (body w) as [[[a|]| | |] w'] eqn:E; try reflexivity.
  apply Hbody in E. apply IH; lia.
Qed.

Lemma poll_round_consuming poll_url api_key poll_interval timeout start :
  consuming (poll_round poll_url api_key poll_interval timeout start).
Proof.
  intros w w'. open_world w. unfold poll_round. sys_unfold.
  destruct script0 as [|[lat r|lat e] rest]; try discriminate.
  destruct (ok r); cbn [negb]; try discriminate.
  destruct (status_code r =? 202); cbn [negb]; try discriminate.
  destruct (_ >? _); try discriminate.
  intros [= <-]. cbn. lia.
Qed.

Lemma video_round_consuming result_url api_key seed :
  consuming (video_round result_url api_key seed).
Proof.
  intros w w'. open_world w. unfold video_round. sys_unfold.
  destruct script0 as [|[lat r|lat e] rest]; try discriminate.
  destruct (status_code r =? 202).
  - intros [= <-]. cbn. lia.
  - destruct (status_code r =? 200); [|discriminate].
    unfold unique_filename. sys_unfold. discriminate.
Qed.

(** The rounds that [loop] allows are enough: more would not change the
    outcome of either polling loop. *)
Lemma loop_fuel_enough {A} (body : M (option A)) (fuel : nat) (w : world) :
  consuming body ->
  (length (net w) < fuel)%nat ->
  while_true fuel body w = loop body w.
Proof.
  intros Hbody Hfuel. unfold loop. apply while_true_fuel; [assumption|lia..].
Qed.

(* ====================================================================== *)
(** * Further properties of the request helpers *)

#[local] Set Warnings "-clear-no-such-hyp".

Import Runs.

(** What [attach] does: it returns the file set, with one more part when it
    opened the file, and only the table of handles changes. *)
Lemma attach_outcome (key : string) (v : option value)
    (files : gmap string part) (w : world) :
  (attach key v files w = (Ret files, w))
  \/ (attach key v files w
      = (Ret (<[key := PFile (next_handle w)]> files),
         set_handles (S (next_handle w))
           ({[next_handle w]} ∪ open_handles w) w)).
Proof.
  unfold attach. destruct v as [[path|n|q]|]; try (now left).
  destruct (Py.is_empty path); [now left|].
  unfold bind, path_exists, open_rb.
  destruct (fs w !! path) as [data|] eqn:Hfs.
  - right. rewrite bool_decide_eq_true_2 by eauto. rewrite Hfs. reflexivity.
  - left. rewrite bool_decide_eq_false_2; [reflexivity|].
    intros [x Hx]. congruence.
Qed.

(** The closing loop over a list of parts: only the set of open handles
    changes, and it loses the handles of the file parts. *)
Lemma for_each_close (l : list (string * part)) (w : world) :
  for_each l (fun kv => match snd kv with
                        | PFile h => close h
                        | PTuple _ _ => ret tt
                        end) w
  = (Ret tt,
     set_handles (next_handle w)
       (open_handles w ∖ Handles.handles_of_list l) w).
Proof.
  revert w; induction l as [|[k [h|a b]] l IH]; intros w;
    cbn [for_each Handles.handles_of_list snd].
  - unfold ret, set_handles. destruct w; cbn.
    now rewrite difference_empty_L.
  - unfold bind, close. rewrite IH. unfold set_handles. destruct w; cbn.
    now rewrite difference_difference_l_L.
  - unfold bind, ret. rewrite IH. reflexivity.
Qed.

Lemma close_files_outcome (files : gmap string part) (w : world) :
  close_files files w
  = (Ret tt,
     set_handles (next_handle w)
       (open_handles w ∖ Handles.handles_of files) w).
Proof. unfold close_files. apply for_each_close. Qed.

Lemma set_handles_same (w : world) :
  set_handles (next_handle w) (open_handles w) w = w.
Proof. now destruct w. Qed.

Lemma attach_twice {A} (v1 v2 : option value)
    (k : gmap string part -> M A) (w : world) :
  exists files n o,
    attached w files n o
    /\ bind (attach "image" v1 ∅)
         (fun files => bind (attach "mask" v2 files) k) w
       = k files (set_handles n o w).
Proof.
  unfold bind at 1.
  destruct (attach_outcome "image" v1 ∅ w) as [-> | ->]; unfold bind at 1.
  - destruct (attach_outcome "mask" v2 ∅ w) as [-> | ->].
    + eexists _, _, _. split; [apply attached_none|].
      now rewrite set_handles_same.
    + eexists _, _, _. split; [apply attached_mask | reflexivity].
  - match goal with
    | |- context [attach "mask" v2 ?f ?w1] =>
        destruct (attach_outcome "mask" v2 f w1) as [-> | ->]
    end.
    + eexists _, _, _. split; [apply attached_image | reflexivity].
    + eexists _, _, _. split; [apply attached_both | reflexivity].
Qed.

(** The handles of the file set are those that were opened. *)
Lemma attached_handles (w : world) (files : gmap string part) (n : nat)
    (o : gset nat) :
  attached w files n o ->
  o ∖ Handles.handles_of (or_placeholder files) ⊆ open_handles w
  /\ (Handles.fresh w ->
      o ∖ Handles.handles_of (or_placeholder files) = open_handles w)
  /\ or_placeholder files <> ∅.
Proof.
  intros H. unfold Handles.fresh.
  destruct H; unfold Handles.handles_of.
  - rewrite or_placeholder_empty.
    set (l := map_to_list _). vm_compute in l. subst l.
    cbn [Handles.handles_of_list].
    repeat split; [set_unfold; naive_solver | set_unfold; naive_solver | apply insert_non_empty].
  - rewrite or_placeholder_non_empty by apply insert_non_empty.
    rewrite insert_empty, map_to_list_singleton.
    cbn [Handles.handles_of_list].
    repeat split; [set_unfold; naive_solver | | apply insert_non_empty].
    intros Hfresh. apply set_eq. intros h. specialize (Hfresh h).
    set_unfold; naive_solver lia.
  - rewrite or_placeholder_non_empty by apply insert_non_empty.
    rewrite insert_empty, map_to_list_singleton.
    cbn [Handles.handles_of_list].
    repeat split; [set_unfold; naive_solver | | apply insert_non_empty].
    intros Hfresh. apply set_eq. intros h. specialize (Hfresh h).
    set_unfold; naive_solver lia.
  - rewrite or_placeholder_non_empty by apply insert_non_empty.
    assert (Hl : Handles.handles_of_list
                   (map_to_list
                      (<["mask" := PFile (S (next_handle w))]>
                         (<["image" := PFile (next_handle w)]> ∅)))
                 = {[S (next_handle w)]} ∪ ({[next_handle w]} ∪ ∅)).
    { generalize (next_handle w). intros N.
      set (l := map_to_list _). vm_compute in l. subst l. reflexivity. }
    rewrite Hl.
    repeat split; [set_unfold; naive_solver | | apply insert_non_empty].
    intros Hfresh. apply set_eq. intros h. specialize (Hfresh h).
    set_unfold; naive_solver lia.
Qed.

(** The run of [send_generation_request] without a file set, on a world
    whose next reply is known. *)
Lemma send_generation_request_run (host : string)
    (params : gmap string value) (api_key : string) (w : world)
    (reply : reply) (rest : list Sys.reply) :
  net w = reply :: rest ->
  exists files n o,
    attached w files n o
    /\ send_generation_request host params None api_key w
       = let rq :=
           mkRequest POST host
             (<["Authorization" := "Bearer " +:+ api_key]>
                (<["Accept" := "image/*"]> ∅))
             (or_placeholder files)
             (delete "mask" (delete "image" params)) in
         let sending :=
           mkWorld (clock w) (fs w) (pil_size w) n o rest
             (sent w ++ [rq])
             (stdout w ++ ["Sending REST request to " +:+ host +:+ "..."]) in
         match reply with
         | Fails lat e => (Raise e, set_clock (clock w + lat) sending)
         | Responds lat r =>
             let closed :=
               set_handles n
                 (o ∖ Handles.handles_of (or_placeholder files))
                 (set_clock (clock w + lat) sending) in
             if ok r then (Ret r, closed)
             else (Exit 1,
                   set_stdout
                     (stdout closed
                      ++ ["Error: HTTP " +:+ Py.str_of_int (status_code r)
                          +:+ ": " +:+ content r])
                     closed)
         end.
Proof.
  intros Hnet. unfold send_generation_request. cbv zeta.
  cbn [default from_option].
  match goal with
  | |- context [bind (attach "image" ?v1 ?f0) ?K] =>
      match K with
      | (fun files => bind (attach "mask" ?v2 files) ?k) =>
          destruct (attach_twice v1 v2 k w) as (files & n & o & Hatt & Heq)
      end
  end.
  exists files, n, o. split; [assumption|].
  unfold id in *. rewrite Heq. clear Heq. rewrite bind_print_w.
  unfold bind at 1. unfold requests_post, exchange.
  cbn [net sent set_sent set_stdout set_handles stdout]. rewrite Hnet.
  destruct reply as [lat r|lat e]; [|reflexivity].
  unfold bind at 1. rewrite close_files_outcome.
  cbn [next_handle open_handles set_clock set_net set_sent set_stdout
       set_handles clock fs pil_size net sent stdout].
  destruct (ok r); reflexivity.
Qed.

(* ---------------------------------------------------------------------- *)
(** ** Runs that leave the table of handles alone *)

Import Handles.

#[local] Instance same_handles_calm : Calm same_handles.
Proof.
  split; unfold same_handles; cbn; [done | | done..].
  intros a b c [H1 H2] [H3 H4]. split; congruence.
Qed.

#[local] Instance closing_only_calm (h : nat) : Calm (closing_only h).
Proof.
  split; unfold closing_only; cbn.
  2: { intros a b c (H1 & H2 & H3) (H4 & H5 & H6).
       repeat split; [set_solver | set_solver | congruence]. }
  all: intros; repeat split; set_solver.
Qed.

#[local] Instance settled_calm : Calm settled.
Proof.
  split; unfold settled, fresh; cbn.
  2: { intros a b c (H1 & H2 & H3) (H4 & H5 & H6).
       repeat split; [set_solver | lia |].
       intros Hfresh. rewrite <- (H3 Hfresh). apply H6.
       intros x Hx. rewrite (H3 Hfresh) in Hx. apply Hfresh in Hx. lia. }
  all: intros; repeat split; first [reflexivity | lia].
Qed.

Lemma same_handles_closing_only (h : nat) (w w' : world) :
  same_handles w w' -> closing_only h w w'.
Proof. intros [H1 H2]. unfold closing_only. rewrite H1. set_solver. Qed.

Section Ends.
Context (R : world -> world -> Prop) `{!Calm R}.

Lemma ends_ret {A} (a : A) : ends R (ret a).
Proof. intros w _. apply calm_refl. Qed.

Lemma ends_exit {A} (code : Z) : ends R (@exit A code).
Proof. intros w _. apply calm_refl. Qed.

Lemma ends_raise {A} (e : string) : ends R (@raise A e).
Proof. intros w _. apply calm_refl. Qed.

Lemma ends_bind {A B} (c : M A) (k : A -> M B) :
  ends R c -> (forall a, ends R (k a)) -> ends R (bind c k).
Proof.
  intros Hc Hk w. unfold bind. specialize (Hc w).
  destruct (c w) as [[a| | |] w']; cbn in *; intros Hend;
    try (apply Hc; discriminate); try congruence.
  eapply calm_trans; [apply Hc; discriminate | now apply Hk].
Qed.

Lemma ends_try_except {A} (c : M A) (h : string -> M A) :
  ends R c -> (forall e, ends R (h e)) -> ends R (try_except c h).
Proof.
  intros Hc Hh w. unfold try_except. specialize (Hc w).
  destruct (c w) as [[a| |e|] w']; cbn in *; intros Hend;
    try (apply Hc; discriminate); try congruence.
  eapply calm_trans; [apply Hc; discriminate | now apply Hh].
Qed.

Lemma ends_while_true {A} (fuel : nat) (body : M (option A)) :
  ends R body -> ends R (while_true fuel body).
Proof.
  intros Hb. induction fuel as [|fuel IH]; cbn [while_true].
  - intros w H. now cbn in H.
  - apply ends_bind; [assumption|]. intros [a|];
      [apply ends_ret | assumption].
Qed.

Lemma ends_loop {A} (body : M (option A)) : ends R body -> ends R (loop body).
Proof. intros Hb w. unfold loop. now apply ends_while_true. Qed.

Lemma ends_print (line : string) : ends R (print line).
Proof. intros w _. apply calm_stdout. Qed.

Lemma ends_time_time : ends R time_time.
Proof. intros w _. apply calm_refl. Qed.

Lemma ends_time_int : ends R time_int.
Proof. intros w _. apply calm_refl. Qed.

Lemma ends_sleep (seconds : Z) : ends R (sleep seconds).
Proof. intros w _. apply calm_clock. Qed.

Lemma ends_path_exists (path : string) : ends R (path_exists path).
Proof. intros w _. apply calm_refl. Qed.

Lemma ends_write_wb (path data : string) : ends R (write_wb path data).
Proof. intros w _. apply calm_fs. Qed.

Lemma ends_exchange (rq : request) : ends R (exchange rq).
Proof.
  intros w. unfold exchange.
  assert (H1 := calm_sent w (sent w ++ [rq])).
  destruct (net (set_sent (sent w ++ [rq]) w)) as [|[lat r|lat e] rest];
    cbn [fst snd]; intros _; [assumption| |];
    (eapply calm_trans; [exact H1|];
     eapply calm_trans; [apply calm_net | apply calm_clock]).
Qed.

Lemma ends_requests_post url hdrs files data :
  ends R (requests_post url hdrs files data).
Proof. apply ends_exchange. Qed.

Lemma ends_requests_get url hdrs : ends R (requests_get url hdrs).
Proof. apply ends_exchange. Qed.

Lemma ends_response_json (r : response) : ends R (response_json r).
Proof.
  unfold response_json.
  destruct (body r); [apply ends_raise | apply ends_ret..].
Qed.

Lemma ends_doc_get (doc : json_doc) (key : string) : ends R (doc_get doc key).
Proof.
  destruct doc; [apply ends_raise | apply ends_ret | apply ends_raise].
Qed.

End Ends.

Create HintDb ends.

#[local] Hint Resolve ends_ret ends_exit ends_raise ends_print
  ends_time_time ends_time_int ends_sleep ends_path_exists ends_write_wb
  ends_exchange ends_requests_post ends_requests_get ends_response_json
  ends_doc_get : ends.

(** Splits a goal [ends R c] along the structure of [c]. *)
Ltac ends :=
  repeat first
    [ progress cbv zeta
    | match goal with |- Calm _ => exact _ end
    | progress intros
    | match goal with
      | |- Handles.ends _ (bind _ _) => apply ends_bind
      | |- Handles.ends _ (try_except _ _) => apply ends_try_except
      | |- Handles.ends _ (loop _) => apply ends_loop
      | |- Handles.ends _ (if ?b then _ else _) => destruct b
      | |- Handles.ends _ (match ?x with _ => _ end) => destruct x
      end
    | solve [eauto with ends typeclass_instances] ].

Section EndsScript.
Context (R : world -> world -> Prop) `{!Calm R}.

Lemma ends_unique_filename prefix ext seed :
  ends R (unique_filename prefix ext seed).
Proof. unfold unique_filename. ends. Qed.

Lemma ends_poll_round poll_url api_key poll_interval timeout start :
  ends R (poll_round poll_url api_key poll_interval timeout start).
Proof. unfold poll_round. ends. Qed.

Hint Resolve ends_poll_round ends_unique_filename : ends.

Lemma ends_poll_results poll_url api_key poll_interval timeout :
  ends R (poll_results poll_url api_key poll_interval timeout).
Proof. unfold poll_results. ends. Qed.

Lemma ends_video_round result_url api_key seed :
  ends R (video_round result_url api_key seed).
Proof. unfold video_round. ends. Qed.

Hint Resolve ends_video_round : ends.

Lemma ends_poll_video result_url api_key seed :
  ends R (poll_video result_url api_key seed).
Proof. unfold poll_video. ends. Qed.

End EndsScript.

#[local] Hint Resolve ends_unique_filename ends_poll_round ends_poll_results
  ends_video_round ends_poll_video : ends.

(* ---------------------------------------------------------------------- *)
(** ** The synchronous request *)



(** X2.  When the POST returns a response, whatever its status,
    [send_generation_request] leaves open no file that it opened; and when
    the handles in use were all issued, the files open afterwards are
    exactly those that were open before. *)
Theorem send_generation_request_closes_files (host : string)
    (params : gmap string value) (api_key : string) (w : world)
    (lat : Z) (r : response) (rest : list reply) :
  net w = Responds lat r :: rest ->
  let run := send_generation_request host params None api_key w in
  open_handles (snd run) ⊆ open_handles w
  /\ (fresh w -> open_handles (snd run) = open_handles w).
Proof.
  intros Hnet run.
  destruct (send_generation_request_run host params api_key w _ rest Hnet)
    as (files & n & o & Hatt & Hrun).
  destruct (attached_handles w files n o Hatt) as (Hsub & Heq & _).
  subst run. rewrite Hrun. clear Hrun. cbv zeta.
  destruct (ok r); cbn [snd open_handles set_handles set_stdout];
    split; assumption.
Qed.

Lemma send_generation_request_closes_files_witness :
  let w := world_of [Responds 0 finished] in
  let run := send_generation_request THREE_D_GENERATION_ENDPOINT
               (<["image" := VStr "in.png"]> ∅) None "key" w in
  open_handles (snd run) = open_handles w.
Proof.
  intros w run.
  apply (proj2 (send_generation_request_closes_files
                  THREE_D_GENERATION_ENDPOINT
                  (<["image" := VStr "in.png"]> ∅) "key" w 0 finished []
                  eq_refl)).
  intros h Hh. cbn in Hh. set_solver.
Defined.

(* ---------------------------------------------------------------------- *)
(** ** The asynchronous request *)

(** The run of [send_async_generation_request] without a file set, on a
    world whose next reply is known. *)
Lemma send_async_generation_request_run (host : string)
    (params : gmap string value) (api_key : string)
    (poll_interval timeout : Z) (w : world)
    (reply : reply) (rest : list Sys.reply) :
  net w = reply :: rest ->
  exists files n o,
    attached w files n o
    /\ send_async_generation_request host params None api_key poll_interval
         timeout w
       = let rq :=
           mkRequest POST host
             (<["Authorization" := "Bearer " +:+ api_key]>
                (<["Accept" := "application/json"]> ∅))
             (or_placeholder files)
             (delete "mask" (delete "image" params)) in
         let sending :=
           mkWorld (clock w) (fs w) (pil_size w) n o rest
             (sent w ++ [rq])
             (stdout w
              ++ ["Sending asynchronous request to " +:+ host +:+ "..."]) in
         match reply with
         | Fails lat e => (Raise e, set_clock (clock w + lat) sending)
         | Responds lat r =>
             let closed :=
               set_handles n
                 (o ∖ Handles.handles_of (or_placeholder files))
                 (set_clock (clock w + lat) sending) in
             if ok r then
               after_submit api_key poll_interval timeout r closed
             else (Exit 1,
                   set_stdout
                     (stdout closed
                      ++ ["Error: HTTP " +:+ Py.str_of_int (status_code r)
                          +:+ ": " +:+ content r])
                     closed)
         end.
Proof.
  intros Hnet. unfold send_async_generation_request. cbv zeta.
  cbn [default from_option].
  match goal with
  | |- context [bind (attach "image" ?v1 ?f0) ?K] =>
      match K with
      | (fun files => bind (attach "mask" ?v2 files) ?k) =>
          destruct (attach_twice v1 v2 k w) as (files & n & o & Hatt & Heq)
      end
  end.
  exists files, n, o. split; [assumption|].
  unfold id in *. rewrite Heq. clear Heq. rewrite bind_print_w.
  unfold bind at 1. unfold requests_post, exchange.
  cbn [net sent set_sent set_stdout set_handles stdout]. rewrite Hnet.
  destruct reply as [lat r|lat e]; [|reflexivity].
  unfold bind at 1. rewrite close_files_outcome.
  cbn [next_handle open_handles set_clock set_net set_sent set_stdout
       set_handles clock fs pil_size net sent stdout].
  destruct (ok r); reflexivity.
Qed.

Lemma ends_after_submit (R : world -> world -> Prop) `{!Calm R}
    api_key poll_interval timeout response :
  ends R (after_submit api_key poll_interval timeout response).
Proof. unfold after_submit. ends. Qed.

(** Every round of the shared poller issues one status request. *)
Lemma poll_round_sent poll_url api_key poll_interval timeout start w :
  sent (snd (poll_round poll_url api_key poll_interval timeout start w))
  = sent w ++ [Trace.poll_request poll_url api_key].
Proof.
  open_world w. unfold poll_round. sys_unfold.
  destruct script0 as [|[lat r|lat e] rest]; try reflexivity.
  destruct (ok r); cbn [negb]; try reflexivity.
  destruct (status_code r =? 202); cbn [negb]; try reflexivity.
  destruct (_ >? _); reflexivity.
Qed.

Lemma while_true_sent {A} (body : M (option A)) (rq : request) :
  (forall w, sent (snd (body w)) = sent w ++ [rq]) ->
  forall fuel w, exists n,
    sent (snd (while_true fuel body w)) = sent w ++ List.repeat rq n.
Proof.
  intros Hbody. induction fuel as [|fuel IH]; intros w.
  - exists 0%nat. cbn. now rewrite app_nil_r.
  - rewrite while_true_S. specialize (Hbody w).
    destruct (body w) as [[[a|]| | |] w']; cbn [snd] in *;
      try (exists 1%nat; exact Hbody).
    destruct (IH w') as [n Hn]. exists (S n).
    rewrite Hn, Hbody, <- app_assoc. reflexivity.
Qed.

Lemma poll_results_sent poll_url api_key poll_interval timeout w :
  exists n,
    sent (snd (poll_results poll_url api_key poll_interval timeout w))
    = sent w ++ List.repeat (Trace.poll_request poll_url api_key) n.
Proof.
  unfold poll_results, bind, time_time, loop.
  apply while_true_sent. intros w'. apply poll_round_sent.
Qed.

(** X3.  The submission of [send_async_generation_request]: a reply that
    is not ok, or an ok reply whose JSON object has no [id] (or a null
    one), ends the call with exit status 1; an ok reply that is not a JSON
    object, or an exception of the POST, raises.  In each of these cases
    the POST is the only request: no status poll is issued. *)
Theorem send_async_rejected_submission (host : string)
    (params : gmap string value) (api_key : string)
    (poll_interval timeout : Z) (w : world)
    (reply : reply) (rest : list Sys.reply) :
  net w = reply :: rest ->
  let run := send_async_generation_request host params None api_key
               poll_interval timeout w in
  match reply with
  | Fails _ e => fst run = Raise e /\ Trace.issued w run = 1
  | Responds _ r =>
      (ok r = false -> fst run = Exit 1 /\ Trace.issued w run = 1)
      /\ (ok r = true ->
          match body r with
          | JsonDict d =>
              default JNone (d !! "id") = JNone ->
              fst run = Exit 1 /\ Trace.issued w run = 1
          | _ =>
              (exists e, fst run = Raise e) /\ Trace.issued w run = 1
          end)
  end.
Proof.
  intros Hnet run.
  destruct (send_async_generation_request_run host params api_key
              poll_interval timeout w reply rest Hnet)
    as (files & n & o & _ & Hrun).
  subst run. rewrite Hrun. clear Hrun. cbv zeta. unfold Trace.issued.
  destruct reply as [lat r|lat e].
  - split.
    + intros ->. cbn. rewrite length_app. cbn. split; [reflexivity | lia].
    + intros ->. unfold after_submit, response_json, doc_get, bind.
      destruct (body r) as [|d|]; cbn.
      * rewrite length_app. cbn. split; [eauto | lia].
      * intros ->. cbn. rewrite length_app. cbn. split; [reflexivity | lia].
      * rewrite length_app. cbn. split; [eauto | lia].
  - cbn. rewrite length_app. cbn. split; [reflexivity | lia].
Qed.

Lemma send_async_rejected_submission_witness :
  let w := world_of [Responds 0 accepted_without_id; Responds 0 finished] in
  let run := send_async_generation_request UPSCALER_ENDPOINT
               (<["prompt" := VStr "a cat"]> ∅) None "key" 10 500 w in
  fst run = Exit 1 /\ Trace.issued w run = 1.
Proof.
  intros w run.
  apply (proj2 (send_async_rejected_submission UPSCALER_ENDPOINT
                  (<["prompt" := VStr "a cat"]> ∅) "key" 10 500 w
                  (Responds 0 accepted_without_id) [Responds 0 finished]
                  eq_refl));
    reflexivity.
Defined.

(** X4.  Once the submission has an ok reply with an [id],
    [send_async_generation_request] issues nothing but status requests:
    GETs to [https://api.stability.ai/v2beta/results/<id>] that carry the
    bearer token and no form data. *)
Theorem send_async_polls_job_url (host : string)
    (params : gmap string value) (api_key : string)
    (poll_interval timeout : Z) (w : world) (lat : Z) (r : response)
    (d : gmap string json) (job : json) (rest : list reply) :
  net w = Responds lat r :: rest ->
  ok r = true ->
  body r = JsonDict d ->
  d !! "id" = Some job ->
  job <> JNone ->
  let run := send_async_generation_request host params None api_key
               poll_interval timeout w in
  exists post n,
    sent (snd run)
    = sent w ++ post
        :: List.repeat
             (mkRequest GET
                ("https://api.stability.ai/v2beta/results/" +:+ format job)
                (<["Authorization" := "Bearer " +:+ api_key]>
                   (<["Accept" := "*/*"]> ∅))
                ∅ ∅) n
    /\ req_method post = POST /\ req_url post = host.
Proof.
  intros Hnet Hok Hbody Hid Hne run.
  destruct (send_async_generation_request_run host params api_key
              poll_interval timeout w _ rest Hnet)
    as (files & n & o & _ & Hrun).
  subst run. rewrite Hrun. clear Hrun. cbv zeta. rewrite Hok.
  unfold after_submit, response_json, doc_get, bind at 1 2.
  rewrite Hbody. cbn [ret]. rewrite Hid. cbn [default from_option id].
  match goal with
  | |- context [match job with JNone => ?a | _ => _ end ?w0] =>
      replace (match job with
               | JNone => a
               | _ =>
                   poll_results
                     ("https://api.stability.ai/v2beta/results/"
                      +:+ format job)
                     api_key poll_interval timeout
               end w0)
        with (poll_results
                ("https://api.stability.ai/v2beta/results/" +:+ format job)
                api_key poll_interval timeout w0)
        by (destruct job; congruence || reflexivity);
      destruct (poll_results_sent
                  ("https://api.stability.ai/v2beta/results/" +:+ format job)
                  api_key poll_interval timeout w0) as [k Hk]
  end.
  eexists _, k. rewrite Hk. cbn [sent set_handles set_clock].
  rewrite <- app_assoc. repeat split.
Qed.

(* ---------------------------------------------------------------------- *)
(** ** Files opened by [with] *)

(** A file opened by [with open(...)] is closed when the block is left,
    provided the block opens no file and closes none but this one. *)
Lemma ends_with_open_rb {A} (path : string) (body : nat -> M A) :
  (forall h, ends (closing_only h) (body h)) ->
  ends settled (with_open_rb path body).
Proof.
  intros Hbody w. unfold with_open_rb, bind, open_rb.
  destruct (fs w !! path) as [data|]; [|intros _; apply calm_refl].
  match goal with
  | |- context [body ?h ?w1] =>
      specialize (Hbody h w1); destruct (body h w1) as [o w']
  end.
  cbn [fst snd] in *. intros Hend.
  assert (Ho : o <> Blocked)
    by (destruct o; cbn [fst] in Hend; congruence).
  destruct (Hbody Ho) as (H1 & H2 & H3).
  cbn [open_handles next_handle set_handles] in *.
  assert (Hs : settled w (snd (close (next_handle w) w'))).
  { unfold settled, fresh, close. cbn. rewrite H3.
    repeat split; [set_solver | lia |].
    intros Hfresh. apply set_eq. intros x. specialize (Hfresh x).
    set_unfold. naive_solver lia. }
  destruct o; try congruence; exact Hs.
Qed.

Lemma ends_with_image_open {A} (path : string) (body : Z * Z -> M A) :
  (forall size h, ends (closing_only h) (body size)) ->
  ends settled (with_image_open path body).
Proof.
  intros Hbody w. unfold with_image_open.
  destruct (fs w !! path) as [data|] eqn:Hfs; [|intros _; apply calm_refl].
  destruct (pil_size w data) as [size|]; [|intros _; apply calm_refl].
  unfold bind, open_rb. rewrite Hfs.
  match goal with
  | |- context [body size ?w1] =>
      specialize (Hbody size (next_handle w) w1);
      destruct (body size w1) as [o w']
  end.
  cbn [fst snd] in *. intros Hend.
  assert (Ho : o <> Blocked)
    by (destruct o; cbn [fst] in Hend; congruence).
  destruct (Hbody Ho) as (H1 & H2 & H3).
  cbn [open_handles next_handle set_handles] in *.
  assert (Hs : settled w (snd (close (next_handle w) w'))).
  { unfold settled, fresh, close. cbn. rewrite H3.
    repeat split; [set_solver | lia |].
    intros Hfresh. apply set_eq. intros x. specialize (Hfresh x).
    set_unfold. naive_solver lia. }
  destruct o; try congruence; exact Hs.
Qed.

(** The closing loop over the file set that [upscale_image] passes. *)
Lemma ends_close_files_image (h : nat) :
  ends (closing_only h) (close_files (<["image" := PFile h]> ∅)).
Proof.
  intros w _. rewrite close_files_outcome. unfold Handles.handles_of.
  rewrite insert_empty, map_to_list_singleton.
  cbn [Handles.handles_of_list]. unfold closing_only. cbn.
  repeat split; set_solver.
Qed.

Lemma bind_ret_l {A B} (a : A) (k : A -> M B) : bind (ret a) k = k a.
Proof. reflexivity. Qed.

(** [send_async_generation_request] as [upscale_image] calls it: with the
    open input file as the file set and parameters that name no file. *)
Lemma ends_send_async_with_image (host : string)
    (params : gmap string value) (h : nat) (api_key : string)
    (poll_interval timeout : Z) :
  params !! "image" = None ->
  params !! "mask" = None ->
  ends (closing_only h)
    (send_async_generation_request host params
       (Some (<["image" := PFile h]> ∅)) api_key poll_interval timeout).
Proof.
  intros Himage Hmask. unfold send_async_generation_request. cbv zeta.
  rewrite Himage, (delete_id params "image" Himage).
  rewrite Hmask, (delete_id params "mask" Hmask).
  cbn [attach default from_option]. unfold id. rewrite !bind_ret_l.
  rewrite (or_placeholder_non_empty _ (insert_non_empty _ _ _)).
  assert (Hc := ends_close_files_image h).
  ends.
Qed.

Lemma ends_check_pixels (input_image : string) :
  ends settled (check_pixels input_image).
Proof. unfold check_pixels. apply ends_with_image_open. ends. Qed.

Lemma ends_sketch_to_image api_key input_image prompt negative_prompt
    control_strength seed output_format endpoint :
  ends settled
    (sketch_to_image api_key input_image prompt negative_prompt
       control_strength seed output_format endpoint).
Proof.
  unfold sketch_to_image, sketch_request.
  ends. apply ends_with_open_rb. ends.
Qed.

Lemma ends_generate_video api_key image_path seed cfg_scale motion_bucket_id
    endpoint :
  ends settled
    (generate_video api_key image_path seed cfg_scale motion_bucket_id
       endpoint).
Proof.
  unfold generate_video.
  ends. apply ends_with_open_rb. ends.
Qed.

Lemma ends_upscale_image api_key input_image prompt negative_prompt seed
    creativity output_format endpoint :
  ends settled
    (upscale_image api_key input_image prompt negative_prompt seed
       creativity output_format endpoint).
Proof.
  unfold upscale_image, upscale_request.
  assert (Hc := ends_check_pixels input_image).
  ends. apply ends_with_open_rb. ends.
  apply ends_send_async_with_image; reflexivity.
Qed.

(** X5.  The modes that open their input file in a [with] block
    ([sketch_to_image], [generate_video], [upscale_image]) leave no file
    open on any run that ends, whether it returns, exits or raises, also
    when the request raises: no file that the mode opened is still open, and
    when the handles in use were all issued the open files are exactly those
    of the start. *)
Theorem with_block_modes_close_files (w : world) :
  (forall api_key input_image prompt negative_prompt control_strength seed
          output_format endpoint,
     let run := sketch_to_image api_key input_image prompt negative_prompt
                  control_strength seed output_format endpoint w in
     fst run <> Blocked ->
     open_handles (snd run) ⊆ open_handles w
     /\ (fresh w -> open_handles (snd run) = open_handles w))
  /\ (forall api_key image_path seed cfg_scale motion_bucket_id endpoint,
        let run := generate_video api_key image_path seed cfg_scale
                     motion_bucket_id endpoint w in
        fst run <> Blocked ->
        open_handles (snd run) ⊆ open_handles w
        /\ (fresh w -> open_handles (snd run) = open_handles w))
  /\ (forall api_key input_image prompt negative_prompt seed creativity
             output_format endpoint,
        let run := upscale_image api_key input_image prompt negative_prompt
                     seed creativity output_format endpoint w in
        fst run <> Blocked ->
        open_handles (snd run) ⊆ open_handles w
        /\ (fresh w -> open_handles (snd run) = open_handles w)).
Proof.
  split; [|split]; intros *; intros Hend.
  - destruct (ends_sketch_to_image api_key input_image prompt
                negative_prompt control_strength seed output_format endpoint
                w Hend) as (H1 & _ & H3).
    split; assumption.
  - destruct (ends_generate_video api_key image_path seed cfg_scale
                motion_bucket_id endpoint w Hend) as (H1 & _ & H3).
    split; assumption.
  - destruct (ends_upscale_image api_key input_image prompt negative_prompt
                seed creativity output_format endpoint w Hend)
      as (H1 & _ & H3).
    split; assumption.
Qed.

Lemma with_block_modes_close_files_witness :
  (let w := world_of [Fails 0 "Connection refused"] in
   let run := sketch_to_image "key" "in.png" "a cat" "" 0.7 42 "jpeg"
                SKETCH_ENDPOINT w in
   fst run = Exit 1 /\ open_handles (snd run) = open_handles w)
  /\ (let w := world_of [Fails 0 "Connection refused"] in
      let run := generate_video "key" "in.png" 42 7.5 127
                   VIDEO_GENERATION_ENDPOINT w in
      fst run = Exit 1 /\ open_handles (snd run) = open_handles w)
  /\ (let w := world_of [Fails 0 "Connection refused"] in
      let run := upscale_image "key" "in.png" "a cat" "" 42 0.3 "jpeg"
                   UPSCALER_ENDPOINT w in
      fst run = Exit 1 /\ open_handles (snd run) = open_handles w).
Proof.
  assert (Hfresh : forall script, fresh (world_of script)).
  { intros script h Hh. cbn in Hh. set_solver. }
  split; [|split]; intros w run; (split; [reflexivity|]).
  - apply (proj1 (with_block_modes_close_files w) "key" "in.png" "a cat" ""
             0.7%Q 42 "jpeg" SKETCH_ENDPOINT); [discriminate | apply Hfresh].
  - apply (proj1 (proj2 (with_block_modes_close_files w)) "key" "in.png" 42
             7.5%Q 127 VIDEO_GENERATION_ENDPOINT);
      [discriminate | apply Hfresh].
  - apply (proj2 (proj2 (with_block_modes_close_files w)) "key" "in.png"
             "a cat" "" 42 0.3%Q "jpeg" UPSCALER_ENDPOINT);
      [discriminate | apply Hfresh].
Defined.

Lemma send_async_polls_job_url_witness :
  let w := world_of [Responds 0 (accepted (JStr "job7"));
                     Responds 0 processing; Responds 0 finished] in
  let run := send_async_generation_request UPSCALER_ENDPOINT
               (<["prompt" := VStr "a cat"]> ∅) None "key" 10 500 w in
  exists post n,
    sent (snd run)
    = sent w ++ post
        :: List.repeat
             (mkRequest GET "https://api.stability.ai/v2beta/results/job7"
                (<["Authorization" := "Bearer key"]>
                   (<["Accept" := "*/*"]> ∅))
                ∅ ∅) n
    /\ req_method post = POST /\ req_url post = UPSCALER_ENDPOINT.
Proof.
  intros w run.
  apply (send_async_polls_job_url UPSCALER_ENDPOINT
           (<["prompt" := VStr "a cat"]> ∅) "key" 10 500 w 0
           (accepted (JStr "job7")) (<["id" := JStr "job7"]> ∅)
           (JStr "job7") [Responds 0 processing; Responds 0 finished]);
    [reflexivity | reflexivity | reflexivity | reflexivity | discriminate].
Defined.

(* ---------------------------------------------------------------------- *)
(** ** The video mode *)

(** The run of [generate_video] when the input file cannot be opened. *)
Lemma generate_video_missing_file (api_key image_path : string) (seed : Z)
    (cfg_scale : Q) (motion_bucket_id : Z) (endpoint : string) (w : world) :
  fs w !! image_path = None ->
  generate_video api_key image_path seed cfg_scale motion_bucket_id endpoint
    w
  = (Exit 1,
     set_stdout
       (stdout w
        ++ ["Sending video generation request to " +:+ endpoint +:+ "..."]
        ++ ["Error reading image file: "
            +:+ ("No such file or directory: " +:+ image_path)])
       w).
Proof.
  intros Hfs. open_world w. unfold generate_video. sys_unfold.
  rewrite Hfs. cbn. rewrite <- app_assoc. reflexivity.
Qed.

(** The run of [generate_video] on an input file that exists, in a world
    whose next reply is known. *)
Lemma generate_video_run (api_key image_path : string) (seed : Z)
    (cfg_scale : Q) (motion_bucket_id : Z) (endpoint : string) (w : world)
    (data : string) (reply : reply) (rest : list Sys.reply) :
  fs w !! image_path = Some data ->
  net w = reply :: rest ->
  generate_video api_key image_path seed cfg_scale motion_bucket_id endpoint
    w
  = let h := next_handle w in
    let rq :=
      mkRequest POST endpoint
        (<["Authorization" := "Bearer " +:+ api_key]> ∅)
        (<["image" := PFile h]> ∅)
        (<["seed" := VInt seed]>
           (<["cfg_scale" := VFloat cfg_scale]>
              (<["motion_bucket_id" := VInt motion_bucket_id]> ∅))) in
    let closed lat :=
      mkWorld (clock w + lat) (fs w) (pil_size w) (S h)
        (({[h]} ∪ open_handles w) ∖ {[h]}) rest (sent w ++ [rq])
        (stdout w
         ++ ["Sending video generation request to " +:+ endpoint +:+ "..."])
    in
    match reply with
    | Fails lat e =>
        (Exit 1,
         set_stdout
           (stdout (closed lat) ++ ["Error reading image file: " +:+ e])
           (closed lat))
    | Responds lat r =>
        if ok r then after_video_submit api_key seed r (closed lat)
        else (Exit 1,
              set_stdout
                (stdout (closed lat)
                 ++ ["Error: Video generation failed: HTTP "
                     +:+ Py.str_of_int (status_code r) +:+ ": "
                     +:+ content r])
                (closed lat))
    end.
Proof.
  intros Hfs Hnet. open_world w. subst. unfold generate_video.
  sys_unfold. rewrite Hfs. cbn [negb].
  destruct reply as [lat r|lat e]; [|reflexivity].
  destruct (ok r); reflexivity.
Qed.

(** X6.  The submission of [generate_video]: an input file that cannot be
    opened ends the run with exit status 1 before any request; an exception
    of the POST, a reply that is not ok, and an ok reply whose JSON object
    has no [id] or a falsy one (null, empty string, zero) end it with exit
    status 1 after the POST alone; an ok reply that is not a JSON object
    raises.  In none of these cases is a status poll issued. *)
Theorem generate_video_rejected_submission (api_key image_path : string)
    (seed : Z) (cfg_scale : Q) (motion_bucket_id : Z) (endpoint : string)
    (w : world) :
  let run := generate_video api_key image_path seed cfg_scale
               motion_bucket_id endpoint w in
  (fs w !! image_path = None ->
   fst run = Exit 1 /\ Trace.issued w run = 0 /\ fs (snd run) = fs w)
  /\ (forall data reply rest,
        fs w !! image_path = Some data ->
        net w = reply :: rest ->
        match reply with
        | Fails _ e => fst run = Exit 1 /\ Trace.issued w run = 1
        | Responds _ r =>
            (ok r = false -> fst run = Exit 1 /\ Trace.issued w run = 1)
            /\ (ok r = true ->
                match body r with
                | JsonDict d =>
                    truthy (default JNone (d !! "id")) = false ->
                    fst run = Exit 1 /\ Trace.issued w run = 1
                | _ =>
                    (exists e, fst run = Raise e) /\ Trace.issued w run = 1
                end)
        end).
Proof.
  intros run. split.
  - intros Hfs. subst run.
    rewrite (generate_video_missing_file _ _ _ _ _ _ _ Hfs).
    unfold Trace.issued. cbn. repeat split. lia.
  - intros data reply rest Hfs Hnet. subst run.
    rewrite (generate_video_run _ _ _ _ _ _ _ _ _ _ Hfs Hnet). cbv zeta.
    unfold Trace.issued.
    destruct reply as [lat r|lat e].
    + split.
      * intros ->. cbn. rewrite length_app. cbn. split; [reflexivity | lia].
      * intros ->. unfold after_video_submit, response_json, doc_get, bind.
        destruct (body r) as [|d|]; cbn.
        -- rewrite length_app. cbn. split; [eauto | lia].
        -- intros ->. cbn. rewrite length_app. cbn.
           split; [reflexivity | lia].
        -- rewrite length_app. cbn. split; [eauto | lia].
    + cbn. rewrite length_app. cbn. split; [reflexivity | lia].
Qed.

Lemma generate_video_rejected_submission_witness :
  (let w := world_of [Responds 0 (accepted (JStr "job"))] in
   let run := generate_video "key" "missing.png" 42 7.5 127
                VIDEO_GENERATION_ENDPOINT w in
   fst run = Exit 1 /\ Trace.issued w run = 0 /\ fs (snd run) = fs w)
  /\ (let w := world_of [Responds 0 (accepted (JInt 0));
                         Responds 0 finished] in
      let run := generate_video "key" "in.png" 42 7.5 127
                   VIDEO_GENERATION_ENDPOINT w in
      fst run = Exit 1 /\ Trace.issued w run = 1).
Proof.
  split; intros w run.
  - apply (proj1 (generate_video_rejected_submission "key" "missing.png" 42
                    7.5%Q 127 VIDEO_GENERATION_ENDPOINT w)).
    reflexivity.
  - apply (proj2 (proj2 (generate_video_rejected_submission "key" "in.png" 42
                    7.5%Q 127 VIDEO_GENERATION_ENDPOINT w)
                   "IMAGE" (Responds 0 (accepted (JInt 0)))
                   [Responds 0 finished] eq_refl eq_refl));
      reflexivity.
Defined.

(** Every round of the video loop issues one status request. *)
Lemma video_round_sent result_url api_key seed w :
  sent (snd (video_round result_url api_key seed w))
  = sent w ++ [Trace.video_request result_url api_key].
Proof.
  open_world w. unfold video_round. sys_unfold.
  destruct script0 as [|[lat r|lat e] rest]; try reflexivity.
  destruct (status_code r =? 202); try reflexivity.
  destruct (status_code r =? 200); try reflexivity.
Qed.

Lemma poll_video_sent result_url api_key seed w :
  exists n,
    sent (snd (poll_video result_url api_key seed w))
    = sent w ++ List.repeat (Trace.video_request result_url api_key) n.
Proof.
  unfold poll_video, loop.
  apply while_true_sent. intros w'. apply video_round_sent.
Qed.

(** X7.  Once the submission of [generate_video] has an ok reply with a
    truthy [id], whatever its replies the run issues two kinds of request
    only: the POST of the image, with [seed], [cfg_scale] and
    [motion_bucket_id] as form data, and then status requests, GETs to
    [https://api.stability.ai/v2beta/image-to-video/result/<id>] with the
    bearer token. *)
Theorem generate_video_polls_job_url (api_key image_path : string)
    (seed : Z) (cfg_scale : Q) (motion_bucket_id : Z) (endpoint : string)
    (w : world) (data : string) (lat : Z) (r : response)
    (d : gmap string json) (job : json) (rest : list reply) :
  fs w !! image_path = Some data ->
  net w = Responds lat r :: rest ->
  ok r = true ->
  body r = JsonDict d ->
  d !! "id" = Some job ->
  truthy job = true ->
  let run := generate_video api_key image_path seed cfg_scale
               motion_bucket_id endpoint w in
  exists post n,
    sent (snd run)
    = sent w ++ post
        :: List.repeat
             (mkRequest GET
                ("https://api.stability.ai/v2beta/image-to-video/result/"
                 +:+ format job)
                (<["Authorization" := "Bearer " +:+ api_key]>
                   (<["accept" := "video/*"]> ∅))
                ∅ ∅) n
    /\ req_method post = POST
    /\ req_url post = endpoint
    /\ req_data post
       = <["seed" := VInt seed]>
           (<["cfg_scale" := VFloat cfg_scale]>
              (<["motion_bucket_id" := VInt motion_bucket_id]> ∅))
    /\ is_Some (req_files post !! "image").
Proof.
  intros Hfs Hnet Hok Hbody Hid Htruthy run. subst run.
  rewrite (generate_video_run _ _ _ _ _ _ _ _ _ _ Hfs Hnet). cbv zeta.
  rewrite Hok.
  unfold after_video_submit, response_json, doc_get, bind at 1 2.
  rewrite Hbody. cbn [ret]. rewrite Hid. cbn [default from_option].
  unfold id. rewrite Htruthy. cbn [negb].
  match goal with
  | |- context [poll_video ?url ?key ?s ?w0] =>
      destruct (poll_video_sent url key s w0) as [k Hk]
  end.
  eexists _, k. rewrite Hk. cbn [sent]. rewrite <- app_assoc.
  split; [reflexivity|]. repeat split.
  cbn [req_files]. rewrite lookup_insert_eq. eauto.
Qed.

Lemma generate_video_polls_job_url_witness :
  let w := world_of [Responds 0 (accepted (JStr "v1"));
                     Responds 0 processing; Responds 0 finished] in
  let run := generate_video "key" "in.png" 42 7.5 127
               VIDEO_GENERATION_ENDPOINT w in
  exists post n,
    sent (snd run)
    = sent w ++ post
        :: List.repeat
             (mkRequest GET
                "https://api.stability.ai/v2beta/image-to-video/result/v1"
                (<["Authorization" := "Bearer key"]>
                   (<["accept" := "video/*"]> ∅))
                ∅ ∅) n
    /\ req_method post = POST
    /\ req_url post = VIDEO_GENERATION_ENDPOINT
    /\ req_data post
       = <["seed" := VInt 42]>
           (<["cfg_scale" := VFloat 7.5]>
              (<["motion_bucket_id" := VInt 127]> ∅))
    /\ is_Some (req_files post !! "image").
Proof.
  intros w run.
  apply (generate_video_polls_job_url "key" "in.png" 42 7.5%Q 127
           VIDEO_GENERATION_ENDPOINT w "IMAGE" 0 (accepted (JStr "v1"))
           (<["id" := JStr "v1"]> ∅) (JStr "v1")
           [Responds 0 processing; Responds 0 finished]);
    reflexivity.
Defined.

(* ---------------------------------------------------------------------- *)
(** ** The modes that go through [send_generation_request] *)

Lemma content_not_filtered (r : response) :
  content_filtered r = false <->
  headers r !! "finish-reason" <> Some "CONTENT_FILTERED".
Proof.
  unfold content_filtered, header_get.
  destruct (headers r !! "finish-reason") as [v|] eqn:E; cbn.
  - rewrite String.eqb_neq. split; congruence.
  - split; [discriminate | reflexivity].
Qed.

(** The run of [send_generation_request] when no file is attached. *)
Lemma send_generation_request_unattached (host : string)
    (params : gmap string value) (api_key : string) (w : world)
    (reply : reply) (rest : list Sys.reply) :
  attach "image" (params !! "image") ∅ w = (Ret ∅, w) ->
  delete "image" params !! "mask" = None ->
  net w = reply :: rest ->
  send_generation_request host params None api_key w
  = let rq :=
      mkRequest POST host
        (<["Authorization" := "Bearer " +:+ api_key]>
           (<["Accept" := "image/*"]> ∅))
        (<["none" := PTuple "" ""]> ∅)
        (delete "image" params) in
    let sending :=
      mkWorld (clock w) (fs w) (pil_size w) (next_handle w) (open_handles w)
        rest (sent w ++ [rq])
        (stdout w ++ ["Sending REST request to " +:+ host +:+ "..."]) in
    match reply with
    | Fails lat e => (Raise e, set_clock (clock w + lat) sending)
    | Responds lat r =>
        let got := set_clock (clock w + lat) sending in
        if ok r then (Ret r, got)
        else (Exit 1,
              set_stdout
                (stdout got
                 ++ ["Error: HTTP " +:+ Py.str_of_int (status_code r)
                     +:+ ": " +:+ content r])
                got)
    end.
Proof.
  intros Himage Hmask Hnet. unfold send_generation_request. cbv zeta.
  cbn [default from_option]. unfold bind at 1. rewrite Himage.
  rewrite Hmask. rewrite (delete_id _ _ Hmask).
  cbn [attach]. rewrite bind_ret_l. rewrite or_placeholder_empty.
  rewrite bind_print_w.
  unfold bind at 1. unfold requests_post, exchange.
  cbn [net sent set_sent set_stdout set_handles stdout]. rewrite Hnet.
  destruct reply as [lat r|lat e]; [|reflexivity].
  unfold bind at 1. rewrite close_files_outcome.
  unfold Handles.handles_of.
  set (l := map_to_list _). vm_compute in l. subst l.
  cbn [Handles.handles_of_list]. rewrite difference_empty_L.
  cbn [next_handle open_handles set_clock set_net set_sent set_stdout
       set_handles clock fs pil_size net sent stdout].
  destruct (ok r); reflexivity.
Qed.

(** X8.  [generate_image] and [generate_sd3] on a world whose next reply is
    known: the run issues one POST, with the placeholder part as its only
    file and all the parameters as form data, opens no file and takes one
    reply.  It returns [<prefix>_<seed>_<timestamp>.<format>], with the
    time at which the reply arrived, exactly when the reply is ok and does
    not carry [finish-reason: CONTENT_FILTERED], and then the files are
    those of the start with the body of the reply under that name; in every
    other case, an exception of the POST included, it ends with exit status
    1 and writes no file. *)
Theorem text_modes_contract (api_key prompt negative_prompt aspect_ratio
    : string) (seed : Z) (output_format model endpoint : string)
    (w : world) (reply : reply) (rest : list Sys.reply) :
  net w = reply :: rest ->
  let contract (prefix : string) (params : gmap string value)
      (run : outcome string * world) : Prop :=
    match reply with
    | Responds lat r =>
        let name :=
          prefix +:+ "_" +:+ Py.str_of_int seed +:+ "_"
          +:+ Py.str_of_int ((clock w + lat) ÷ 1000) +:+ "."
          +:+ output_format in
        if ok r && negb (content_filtered r)
        then fst run = Ret name
             /\ fs (snd run) = <[name := content r]> (fs w)
        else fst run = Exit 1 /\ fs (snd run) = fs w
    | Fails _ _ => fst run = Exit 1 /\ fs (snd run) = fs w
    end
    /\ sent (snd run)
       = sent w
         ++ [mkRequest POST endpoint
               (<["Authorization" := "Bearer " +:+ api_key]>
                  (<["Accept" := "image/*"]> ∅))
               (<["none" := PTuple "" ""]> ∅) params]
    /\ net (snd run) = rest
    /\ open_handles (snd run) = open_handles w
    /\ next_handle (snd run) = next_handle w in
  contract "generated"
    (<["prompt" := VStr prompt]>
       (<["negative_prompt" := VStr negative_prompt]>
          (<["aspect_ratio" := VStr aspect_ratio]>
             (<["seed" := VInt seed]>
                (<["output_format" := VStr output_format]> ∅)))))
    (generate_image api_key prompt negative_prompt aspect_ratio seed
       output_format endpoint w)
  /\ contract "sd3_generated"
       (sd3_params prompt negative_prompt aspect_ratio seed output_format
          model)
       (generate_sd3 api_key prompt negative_prompt aspect_ratio seed
          output_format model endpoint w).
Proof.
  intros Hnet contract. subst contract. cbv beta.
  split.
  - remember (generate_image _ _ _ _ _ _ _ _) as run eqn:Hrun.
    unfold generate_image, image_request in Hrun.
    set (params := <["prompt" := _]> _) in *.
    assert (Himage : params !! "image" = None) by reflexivity.
    assert (Hmask : params !! "mask" = None) by reflexivity.
    unfold bind at 1 in Hrun. unfold try_except in Hrun.
    rewrite (send_generation_request_unattached endpoint params api_key w
               reply rest) in Hrun;
      [| rewrite Himage; reflexivity
       | rewrite (delete_id _ _ Himage); exact Hmask
       | exact Hnet].
    rewrite (delete_id _ _ Himage) in Hrun. cbv zeta in Hrun.
    destruct reply as [lat r|lat e].
    + destruct (ok r); cbn [andb].
      * destruct (content_filtered r); cbn [negb]; subst run; repeat split.
      * subst run. repeat split.
    + subst run. repeat split.
  - remember (generate_sd3 _ _ _ _ _ _ _ _ _) as run eqn:Hrun.
    unfold generate_sd3, sd3_request in Hrun.
    set (params := sd3_params _ _ _ _ _ _) in *.
    assert (Himage : params !! "image" = None) by reflexivity.
    assert (Hmask : params !! "mask" = None) by reflexivity.
    unfold bind at 1 in Hrun. unfold try_except in Hrun.
    rewrite (send_generation_request_unattached endpoint params api_key w
               reply rest) in Hrun;
      [| rewrite Himage; reflexivity
       | rewrite (delete_id _ _ Himage); exact Hmask
       | exact Hnet].
    rewrite (delete_id _ _ Himage) in Hrun. cbv zeta in Hrun.
    destruct reply as [lat r|lat e].
    + destruct (ok r); cbn [andb].
      * destruct (content_filtered r); cbn [negb]; subst run; repeat split.
      * subst run. repeat split.
    + subst run. repeat split.
Qed.

Lemma text_modes_contract_witness :
  let w := world_at 5000 1024 1024 [Responds 2500 finished] in
  let run := generate_image "key" "a fox" "" "1:1" 7 "png"
               IMAGE_GENERATION_ENDPOINT w in
  fst run = Ret "generated_7_7.png"
  /\ fs (snd run) = <["generated_7_7.png" := "ARTIFACT"]> (fs w)
  /\ length (sent (snd run)) = 1%nat.
Proof.
  intros w run.
  destruct (text_modes_contract "key" "a fox" "" "1:1" 7 "png" "sd3.5-large"
              IMAGE_GENERATION_ENDPOINT w (Responds 2500 finished) []
              eq_refl) as [(Hres & Hsent & _) _].
  cbn [andb ok finished status_code] in Hres.
  destruct Hres as [Hret Hfs].
  split; [exact Hret|]. split; [exact Hfs|].
  fold run in Hsent. rewrite Hsent. reflexivity.
Defined.





(* ---------------------------------------------------------------------- *)
(** ** A video that is generated *)

(** The round of the video loop that takes a 200. *)
Lemma video_round_saves (result_url api_key : string) (seed : Z)
    (w : world) (lat : Z) (r : response) (rest : list reply) :
  net w = Responds lat r :: rest ->
  status_code r = 200 ->
  let name :=
    "video_" +:+ Py.str_of_int seed +:+ "_"
    +:+ Py.str_of_int ((clock w + lat) ÷ 1000) +:+ ".mp4" in
  exists w',
    video_round result_url api_key seed w = (Ret (Some name), w')
    /\ clock w' = clock w + lat
    /\ net w' = rest
    /\ sent w' = sent w ++ [Trace.video_request result_url api_key]
    /\ fs w' = <[name := content r]> (fs w)
    /\ open_handles w' = open_handles w.
Proof.
  intros Hnet Hst. open_world w. subst. unfold video_round.
  sys_unfold. rewrite Hst. cbn [Z.eqb Pos.eqb].
  unfold unique_filename. sys_unfold. eexists. split; [reflexivity|].
  repeat split.
Qed.

(** X10.  [generate_video] from submission to file.  When the input file
    exists, the submission gets an ok reply with a truthy [id], and the
    status requests get any number of 202 replies and then a 200, the run
    returns [video_<seed>_<timestamp>.mp4], stamped with the time at which
    the 200 arrived, and the files are those of the start with the body of
    the 200 under that name.  Between two status requests the run sleeps
    10 s; it gives up at no time.  It issues one request per reply and
    leaves open no file that was not open before. *)
Theorem generate_video_saves (api_key image_path : string) (seed : Z)
    (cfg_scale : Q) (motion_bucket_id : Z) (endpoint : string) (w : world)
    (data : string) (lat0 : Z) (r0 : response) (d : gmap string json)
    (job : json) (ps : list (Z * response)) (lat : Z) (r : response)
    (rest : list reply) :
  fs w !! image_path = Some data ->
  net w
  = Responds lat0 r0 :: map Trace.reply_of ps ++ Responds lat r :: rest ->
  ok r0 = true ->
  body r0 = JsonDict d ->
  d !! "id" = Some job ->
  truthy job = true ->
  Forall (fun p => status_code (snd p) = 202) ps ->
  status_code r = 200 ->
  let run := generate_video api_key image_path seed cfg_scale
               motion_bucket_id endpoint w in
  let arrival :=
    clock w + lat0 + Trace.elapsed_after 10000 0 (map fst ps) + lat in
  let name :=
    "video_" +:+ Py.str_of_int seed +:+ "_"
    +:+ Py.str_of_int (arrival ÷ 1000) +:+ ".mp4" in
  fst run = Ret name
  /\ fs (snd run) = <[name := content r]> (fs w)
  /\ clock (snd run) = arrival
  /\ net (snd run) = rest
  /\ Trace.issued w run = Z.of_nat (length ps) + 2
  /\ open_handles (snd run) = open_handles w ∖ {[next_handle w]}.
Proof.
  intros Hfs Hnet Hok Hbody Hid Htruthy Hall Hst run arrival name.
  assert (Hrun : run = generate_video api_key image_path seed cfg_scale
                         motion_bucket_id endpoint w) by reflexivity.
  clearbody run.
  rewrite (generate_video_run _ _ _ _ _ _ _ _ _ _ Hfs Hnet) in Hrun.
  cbv zeta in Hrun. rewrite Hok in Hrun.
  unfold after_video_submit, response_json, doc_get in Hrun.
  unfold bind at 1 2 in Hrun.
  rewrite Hbody in Hrun. cbn [ret] in Hrun. rewrite Hid in Hrun.
  cbn [default from_option] in Hrun. unfold id in Hrun.
  rewrite Htruthy in Hrun. cbn [negb] in Hrun.
  match type of Hrun with
  | _ = poll_video ?url _ _ ?w0 =>
      destruct (poll_video_pending url api_key seed ps w0 (Responds lat r)
                  rest eq_refl Hall) as (Hloop & Hn & Hc & Hs);
      rewrite Hloop in Hrun; clear Hloop;
      destruct (video_round_saves url api_key seed _ lat r rest Hn Hst)
        as (w' & Hround & Hc' & Hn' & Hs' & Hfs' & Ho')
  end.
  cbv zeta in Hround, Hfs'. rewrite Hc in Hround, Hc', Hfs'.
  cbn [clock] in Hround, Hc', Hfs'.
  fold arrival in Hround, Hc', Hfs'. fold name in Hround, Hfs'.
  rewrite Hround in Hrun. subst run. cbn [fst snd].
  rewrite advance_all_fs in Hfs'. rewrite advance_all_open_handles in Ho'.
  cbn [fs open_handles] in Hfs', Ho'.
  unfold Trace.issued. cbn [snd]. rewrite Hs', Hs. cbn [sent].
  rewrite !length_app, repeat_length. cbn [length].
  repeat split; try assumption; try lia.
  rewrite Ho'. set_solver.
Qed.

Lemma generate_video_saves_witness :
  let w := world_at 5000 1024 1024
             [Responds 400 (accepted (JStr "v1"));
              Responds 300 processing; Responds 300 processing;
              Responds 900 finished] in
  let run := generate_video "key" "in.png" 42 7.5 127
               VIDEO_GENERATION_ENDPOINT w in
  fst run = Ret "video_42_26.mp4"
  /\ fs (snd run) !! "video_42_26.mp4" = Some "ARTIFACT"
  /\ open_handles (snd run) = ∅.
Proof.
  intros w run.
  destruct (generate_video_saves "key" "in.png" 42 7.5%Q 127
              VIDEO_GENERATION_ENDPOINT w "IMAGE" 400
              (accepted (JStr "v1")) (<["id" := JStr "v1"]> ∅) (JStr "v1")
              [(300, processing); (300, processing)] 900 finished []
              eq_refl eq_refl eq_refl eq_refl eq_refl eq_refl
              ltac:(repeat constructor) eq_refl)
    as (Hret & Hfs & _ & _ & _ & Ho).
  split; [exact Hret|]. split.
  - fold run in Hfs. rewrite Hfs. apply lookup_insert_eq.
  - fold run in Ho. rewrite Ho. reflexivity.
Defined.

(* ---------------------------------------------------------------------- *)
(** ** An image that is upscaled *)

(** The run of [send_async_generation_request] as [upscale_image] calls it:
    with the open input file as the file set and parameters that name no
    file. *)
Lemma send_async_with_image_run (host : string)
    (params : gmap string value) (h : nat) (api_key : string)
    (poll_interval timeout : Z) (w : world) (reply : reply)
    (rest : list Sys.reply) :
  params !! "image" = None ->
  params !! "mask" = None ->
  net w = reply :: rest ->
  send_async_generation_request host params
    (Some (<["image" := PFile h]> ∅)) api_key poll_interval timeout w
  = let rq :=
      mkRequest POST host
        (<["Authorization" := "Bearer " +:+ api_key]>
           (<["Accept" := "application/json"]> ∅))
        (<["image" := PFile h]> ∅) params in
    let sending :=
      mkWorld (clock w) (fs w) (pil_size w) (next_handle w) (open_handles w)
        rest (sent w ++ [rq])
        (stdout w
         ++ ["Sending asynchronous request to " +:+ host +:+ "..."]) in
    match reply with
    | Fails lat e => (Raise e, set_clock (clock w + lat) sending)
    | Responds lat r =>
        let closed :=
          set_handles (next_handle w) (open_handles w ∖ {[h]})
            (set_clock (clock w + lat) sending) in
        if ok r then after_submit api_key poll_interval timeout r closed
        else (Exit 1,
              set_stdout
                (stdout closed
                 ++ ["Error: HTTP " +:+ Py.str_of_int (status_code r)
                     +:+ ": " +:+ content r])
                closed)
    end.
Proof.
  intros Himage Hmask Hnet. unfold send_async_generation_request.
  cbv zeta. cbn [default from_option]. unfold id.
  rewrite Himage, (delete_id _ _ Himage), Hmask, (delete_id _ _ Hmask).
  cbn [attach]. rewrite !bind_ret_l.
  rewrite or_placeholder_non_empty by apply insert_non_empty.
  rewrite bind_print_w.
  unfold bind at 1. unfold requests_post, exchange.
  cbn [net sent set_sent set_stdout set_handles stdout]. rewrite Hnet.
  destruct reply as [lat r|lat e]; [|reflexivity].
  unfold bind at 1. rewrite close_files_outcome.
  unfold Handles.handles_of.
  set (l := map_to_list _). vm_compute in l. subst l.
  cbn [Handles.handles_of_list snd]. rewrite union_empty_r_L.
  cbn [next_handle open_handles set_clock set_net set_sent set_stdout
       set_handles clock fs pil_size net sent stdout].
  destruct (ok r); reflexivity.
Qed.

(** What [after_submit] does with a JSON object that has an [id]. *)
Lemma after_submit_polls (api_key : string) (poll_interval timeout : Z)
    (r : response) (d : gmap string json) (job : json) (w : world) :
  body r = JsonDict d ->
  d !! "id" = Some job ->
  job <> JNone ->
  after_submit api_key poll_interval timeout r w
  = poll_results
      ("https://api.stability.ai/v2beta/results/" +:+ format job)
      api_key poll_interval timeout w.
Proof.
  intros Hbody Hid Hne.
  unfold after_submit, response_json, doc_get, bind at 1 2.
  rewrite Hbody. cbn [ret]. rewrite Hid. cbn [default from_option id].
  destruct job; congruence || reflexivity.
Qed.

(** The run of [poll_results] over replies that are 202 and in time,
    followed by an ok reply that is not a 202. *)
Lemma poll_results_returns (poll_url api_key : string)
    (poll_interval timeout : Z) (ps : list (Z * response)) (w : world)
    (lat : Z) (r : response) (rest : list reply) :
  net w = map Trace.reply_of ps ++ Responds lat r :: rest ->
  Forall (fun p => status_code (snd p) = 202) ps ->
  Trace.within_timeout (1000 * poll_interval) (1000 * timeout) 0
    (map fst ps) = true ->
  status_code r <> 202 ->
  ok r = true ->
  exists w',
    poll_results poll_url api_key poll_interval timeout w = (Ret r, w')
    /\ clock w'
       = clock w
         + Trace.elapsed_after (1000 * poll_interval) 0 (map fst ps) + lat
    /\ net w' = rest
    /\ sent w'
       = sent w
         ++ List.repeat (Trace.poll_request poll_url api_key)
              (S (length ps))
    /\ fs w' = fs w
    /\ open_handles w' = open_handles w.
Proof.
  intros Hnet Hall Hin Hst Hok.
  destruct (poll_results_pending poll_url api_key poll_interval timeout ps w
              _ rest Hnet Hall Hin) as (Hrun & Hn & Hc & Hs & Hf & Ho).
  rewrite Hrun.
  rewrite (poll_round_done _ _ _ _ _ _ lat r rest Hn Hst Hok).
  eexists. split; [reflexivity|].
  cbn [Trace.advance clock net sent fs open_handles next_handle].
  rewrite Hn, Hc, Hs, Hf, Ho. cbn [tl].
  repeat split.
  rewrite <- app_assoc. f_equal.
  change [Trace.poll_request poll_url api_key]
    with (List.repeat (Trace.poll_request poll_url api_key) 1).
  rewrite <- repeat_app. f_equal. lia.
Qed.

(** X11.  [upscale_image] from submission to file.  When the input file
    exists and holds an image of at most 1,048,576 pixels, the submission
    gets an ok reply with an [id], and the status requests get any number
    of 202 replies within the 500 s of the timeout and then an ok reply
    with another status that does not carry [finish-reason:
    CONTENT_FILTERED], the run returns [upscaled_<stem>_<seed>.<format>],
    where [<stem>] is the base name of the input file without its
    extension, and the files are those of the start with the body of that
    last reply under this name.  The name has no timestamp.  The run issues
    one request per reply, the POST carrying the input file as the part
    [image], and closes the two file objects it opened. *)
Theorem upscale_image_saves (api_key input_image prompt negative_prompt
    : string) (seed : Z) (creativity : Q) (output_format endpoint : string)
    (w : world) (data : string) (width height : Z) (lat0 : Z)
    (r0 : response) (d : gmap string json) (job : json)
    (ps : list (Z * response)) (lat : Z) (r : response)
    (rest : list reply) :
  fs w !! input_image = Some data ->
  pil_size w data = Some (width, height) ->
  width * height <= max_pixels ->
  net w
  = Responds lat0 r0 :: map Trace.reply_of ps ++ Responds lat r :: rest ->
  ok r0 = true ->
  body r0 = JsonDict d ->
  d !! "id" = Some job ->
  job <> JNone ->
  Forall (fun p => status_code (snd p) = 202) ps ->
  Trace.within_timeout 10000 500000 0 (map fst ps) = true ->
  status_code r <> 202 ->
  ok r = true ->
  headers r !! "finish-reason" <> Some "CONTENT_FILTERED" ->
  let run := upscale_image api_key input_image prompt negative_prompt seed
               creativity output_format endpoint w in
  let name :=
    "upscaled_" +:+ fst (Py.splitext (Py.basename input_image)) +:+ "_"
    +:+ Py.str_of_int seed +:+ "." +:+ output_format in
  fst run = Ret name
  /\ fs (snd run) = <[name := content r]> (fs w)
  /\ net (snd run) = rest
  /\ Trace.issued w run = Z.of_nat (length ps) + 2
  /\ (exists post,
        head (drop (length (sent w)) (sent (snd run))) = Some post
        /\ req_method post = POST
        /\ req_url post = endpoint
        /\ req_files post = <["image" := PFile (S (next_handle w))]> ∅)
  /\ open_handles (snd run)
     = open_handles w ∖ {[next_handle w; S (next_handle w)]}.
Proof.
  intros Hfs Hpil Hsize Hnet Hok0 Hbody Hid Hjob Hall Hin Hst Hok Hhdr
    run name.
  apply content_not_filtered in Hhdr.
  assert (Hrun : run = upscale_image api_key input_image prompt
                         negative_prompt seed creativity output_format
                         endpoint w) by reflexivity.
  clearbody run.
  unfold upscale_image, upscale_request in Hrun.
  set (params := <["prompt" := _]> _) in Hrun.
  assert (Himage : params !! "image" = None) by reflexivity.
  assert (Hmask : params !! "mask" = None) by reflexivity.
  unfold bind at 1 2 in Hrun. unfold path_exists in Hrun.
  rewrite bool_decide_eq_true_2 in Hrun by eauto. cbn [negb] in Hrun.
  unfold bind at 1 in Hrun.
  unfold check_pixels, with_image_open in Hrun. rewrite Hfs, Hpil in Hrun.
  replace (width * height >? max_pixels) with false in Hrun
    by (symmetry; rewrite Z.gtb_ltb; apply Z.ltb_ge; lia).
  unfold bind at 1 in Hrun. unfold open_rb at 1 in Hrun.
  rewrite Hfs in Hrun. cbv zeta in Hrun. unfold ret at 1 in Hrun.
  unfold close at 1 in Hrun.
  cbn [snd next_handle open_handles set_handles clock fs pil_size net sent
       stdout] in Hrun.
  unfold try_except, with_open_rb in Hrun.
  unfold bind at 1 in Hrun. unfold open_rb at 1 in Hrun.
  cbn [snd next_handle open_handles set_handles clock fs pil_size net sent
       stdout] in Hrun.
  rewrite Hfs in Hrun. cbv zeta in Hrun.
  cbn [snd next_handle open_handles set_handles clock fs pil_size net sent
       stdout] in Hrun.
  rewrite bind_print_w in Hrun.
  cbn [snd next_handle open_handles set_handles set_stdout clock fs pil_size
       net sent stdout] in Hrun.
  rewrite (send_async_with_image_run endpoint params _ api_key _ _ _
             (Responds lat0 r0)
             (map Trace.reply_of ps ++ Responds lat r :: rest) Himage Hmask)
    in Hrun by exact Hnet.
  cbv zeta in Hrun. rewrite Hok0 in Hrun.
  rewrite (after_submit_polls _ _ _ _ d job _ Hbody Hid Hjob) in Hrun.
  match type of Hrun with
  | context [poll_results ?url _ _ _ ?w0] =>
      destruct (poll_results_returns url api_key default_poll_interval
                  default_timeout ps w0 lat r rest eq_refl Hall Hin Hst Hok)
        as (w' & Hpoll & Hc & Hn & Hs & Hf & Ho)
  end.
  rewrite Hpoll in Hrun. clear Hpoll.
  rewrite Hok, Hhdr in Hrun. cbn [negb] in Hrun. fold name in Hrun.
  cbn [snd next_handle open_handles set_handles set_stdout set_clock clock
       fs pil_size net sent stdout] in Hc, Hn, Hs, Hf, Ho.
  subst run. unfold Trace.issued.
  cbv [bind write_wb print ret close].
  cbn [fst snd next_handle open_handles set_handles set_stdout set_clock
       set_fs clock fs pil_size net sent stdout].
  rewrite Hf, Hs, Ho, Hn.
  repeat split.
  - rewrite !length_app, repeat_length. cbn [length]. lia.
  - eexists. rewrite <- app_assoc, drop_app_length. cbn [app head].
    split; [reflexivity|]. repeat split.
  - set_solver.
Qed.

Lemma upscale_image_saves_witness :
  let w := world_at 5000 1024 1024
             [Responds 400 (accepted (JStr "u1"));
              Responds 300 processing; Responds 900 finished] in
  let run := upscale_image "key" "in.png" "sharper" "" 42 0.3 "png"
               UPSCALER_ENDPOINT w in
  fst run = Ret "upscaled_in_42.png"
  /\ fs (snd run) !! "upscaled_in_42.png" = Some "ARTIFACT"
  /\ open_handles (snd run) = ∅.
Proof.
  intros w run.
  destruct (upscale_image_saves "key" "in.png" "sharper" "" 42 0.3%Q "png"
              UPSCALER_ENDPOINT w "IMAGE" 1024 1024 400
              (accepted (JStr "u1")) (<["id" := JStr "u1"]> ∅) (JStr "u1")
              [(300, processing)] 900 finished []
              eq_refl eq_refl ltac:(vm_compute; discriminate) eq_refl
              eq_refl eq_refl eq_refl ltac:(discriminate)
              ltac:(repeat constructor) eq_refl ltac:(discriminate) eq_refl
              ltac:(discriminate))
    as (Hret & Hfs & _ & _ & _ & Ho).
  split; [exact Hret|]. split.
  - fold run in Hfs. rewrite Hfs. apply lookup_insert_eq.
  - fold run in Ho. rewrite Ho. reflexivity.
Defined.

(* ---------------------------------------------------------------------- *)
(** ** The sketch mode *)



(* ---------------------------------------------------------------------- *)
(** ** The upscale mode before its submission *)

(** X13.  [upscale_image] checks its input before it sends anything.
    Without the input file the run ends with exit status 1.  With a file
    that PIL does not read as an image the run raises: the image is opened
    outside the [try] block, so this is no clean exit.  In both cases no
    request is issued, no file is written and no file object stays open. *)
Theorem upscale_image_unreadable_input (api_key input_image prompt
    negative_prompt : string) (seed : Z) (creativity : Q)
    (output_format endpoint : string) (w : world) :
  let run := upscale_image api_key input_image prompt negative_prompt seed
               creativity output_format endpoint w in
  (fs w !! input_image = None -> fst run = Exit 1)
  /\ (forall data,
        fs w !! input_image = Some data ->
        pil_size w data = None ->
        exists e, fst run = Raise e)
  /\ ((forall data, fs w !! input_image = Some data ->
                    pil_size w data = None) ->
      sent (snd run) = sent w
      /\ fs (snd run) = fs w
      /\ open_handles (snd run) = open_handles w
      /\ net (snd run) = net w).
Proof.
  intros run.
  assert (Hrun : run = upscale_image api_key input_image prompt
                         negative_prompt seed creativity output_format
                         endpoint w) by reflexivity.
  clearbody run. unfold upscale_image, upscale_request in Hrun.
  unfold bind at 1 2 in Hrun. unfold path_exists in Hrun.
  destruct (fs w !! input_image) as [data|] eqn:Hfs.
  - rewrite bool_decide_eq_true_2 in Hrun by eauto. cbn [negb] in Hrun.
    unfold bind at 1 in Hrun.
    unfold check_pixels, with_image_open in Hrun. rewrite Hfs in Hrun.
    split; [discriminate|]. split.
    + intros data' [= <-] Hpil. rewrite Hpil in Hrun. subst run. eauto.
    + intros Hpil. rewrite (Hpil data eq_refl) in Hrun. subst run.
      repeat split.
  - rewrite bool_decide_eq_false_2 in Hrun by (intros [x Hx]; discriminate).
    subst run. split; [reflexivity|]. split; [discriminate|].
    repeat split.
Qed.

Lemma upscale_image_unreadable_input_witness :
  let w := mkWorld 0 (<["notes.txt" := "plain text"]> ∅) (fun _ => None)
             0 ∅ [Responds 0 finished] [] [] in
  (exists e, fst (upscale_image "key" "notes.txt" "sharper" "" 42 0.3 "png"
                    UPSCALER_ENDPOINT w) = Raise e)
  /\ fst (upscale_image "key" "gone.png" "sharper" "" 42 0.3 "png"
            UPSCALER_ENDPOINT w) = Exit 1.
Proof.
  intros w. split.
  - apply (proj1 (proj2 (upscale_image_unreadable_input "key" "notes.txt"
                           "sharper" "" 42 0.3%Q "png" UPSCALER_ENDPOINT w))
             "plain text"); reflexivity.
  - apply (proj1 (upscale_image_unreadable_input "key" "gone.png"
                    "sharper" "" 42 0.3%Q "png" UPSCALER_ENDPOINT w)).
    reflexivity.
Defined.

(* ---------------------------------------------------------------------- *)
(** ** Stripping *)

Section Stripping.

#[local] Arguments String.append !s1 s2 : simpl nomatch.
#[local] Arguments Ascii.eqb : simpl never.

Lemma rstrip_cons (c : ascii) (s : string) :
Py.rstrip (String c s)
= if Py.is_empty (Py.rstrip s) && Py.isspace c then ""
  else String c (Py.rstrip s).
Proof. reflexivity. Qed.

Lemma rstrip_idem (s : string) : Py.rstrip (Py.rstrip s) = Py.rstrip s.
Proof.
induction s as [|c s IH]; [reflexivity|].
rewrite rstrip_cons.
destruct (Py.is_empty (Py.rstrip s)) eqn:E; cbn [andb].
- destruct (Py.isspace c) eqn:Hc; [reflexivity|].
  rewrite rstrip_cons, IH, E, Hc. reflexivity.
- rewrite rstrip_cons, IH, E. reflexivity.
Qed.

Lemma lstrip_idem (s : string) : Py.lstrip (Py.lstrip s) = Py.lstrip s.
Proof.
induction s as [|c s IH]; [reflexivity|]. simpl.
destruct (Py.isspace c) eqn:Hc; [assumption|]. simpl. now rewrite Hc.
Qed.

(** What [lstrip] returns is empty or starts with a character that is not
    whitespace. *)
Lemma lstrip_head (s : string) :
match Py.lstrip s with
| EmptyString => True
| String c _ => Py.isspace c = false
end.
Proof.
induction s as [|c s IH]; [exact I|]. simpl.
destruct (Py.isspace c) eqn:Hc; [assumption|]. simpl. assumption.
Qed.

Lemma lstrip_fixed (s : string) :
match s with
| EmptyString => True
| String c _ => Py.isspace c = false
end ->
Py.lstrip s = s.
Proof. destruct s as [|c s]; [reflexivity|]. simpl. now intros ->. Qed.

Lemma lstrip_rstrip_lstrip (s : string) :
Py.lstrip (Py.rstrip (Py.lstrip s)) = Py.rstrip (Py.lstrip s).
Proof.
pose proof (lstrip_head s) as H.
destruct (Py.lstrip s) as [|c t]; [reflexivity|].
rewrite rstrip_cons, H, andb_false_r. simpl. now rewrite H.
Qed.

Lemma strip_idem (s : string) : Py.strip (Py.strip s) = Py.strip s.
Proof.
unfold Py.strip. now rewrite lstrip_rstrip_lstrip, rstrip_idem.
Qed.

Lemma strip_fixed_l (s : string) : Py.strip s = s -> Py.lstrip s = s.
Proof.
intros H. rewrite <- H at 1. unfold Py.strip.
rewrite lstrip_rstrip_lstrip. exact H.
Qed.

Lemma strip_fixed_r (s : string) : Py.strip s = s -> Py.rstrip s = s.
Proof.
intros H. rewrite <- H at 1. unfold Py.strip.
rewrite rstrip_idem. exact H.
Qed.

Lemma strip_fixed (s : string) :
Py.lstrip s = s -> Py.rstrip s = s -> Py.strip s = s.
Proof. unfold Py.strip. now intros -> ->. Qed.

Lemma rstrip_app (x y : string) :
Py.rstrip (x +:+ y)
= if Py.is_empty (Py.rstrip y) then Py.rstrip x else x +:+ Py.rstrip y.
Proof.
induction x as [|c x IH].
- simpl. destruct (Py.rstrip y); reflexivity.
- change (String c x +:+ y) with (String c (x +:+ y)).
  rewrite rstrip_cons, IH.
  destruct (Py.is_empty (Py.rstrip y)) eqn:E.
  + reflexivity.
  + destruct x; simpl; destruct (Py.rstrip y); try discriminate;
      reflexivity.
Qed.

Lemma length_rstrip (s : string) :
(String.length (Py.rstrip s) <= String.length s)%nat.
Proof.
induction s as [|c s IH]; [reflexivity|]. rewrite rstrip_cons.
destruct (_ && _); simpl; lia.
Qed.

Lemma length_append (x y : string) :
String.length (x +:+ y) = (String.length x + String.length y)%nat.
Proof. induction x as [|c x IH]; simpl; [reflexivity | now rewrite IH]. Qed.

Lemma append_inv_head (x y z : string) : x +:+ y = x +:+ z -> y = z.
Proof.
induction x as [|c x IH]; simpl; [trivial|]. intros [= H]. now apply IH.
Qed.

(** A text without trailing whitespace has none in any of its suffixes. *)
Lemma rstrip_fixed_suffix (x y : string) :
Py.rstrip (x +:+ y) = x +:+ y -> Py.rstrip y = y.
Proof.
rewrite rstrip_app. destruct (Py.is_empty (Py.rstrip y)) eqn:E.
- intros H. pose proof (length_rstrip x) as Hl.
  rewrite H, length_append in Hl.
  destruct y; [reflexivity | simpl in Hl; lia].
- apply append_inv_head.
Qed.

Lemma rstrip_fixed_app (x y : string) :
y <> "" -> Py.rstrip y = y -> Py.rstrip (x +:+ y) = x +:+ y.
Proof.
intros Hne Hy. rewrite rstrip_app, Hy. destruct y; [congruence|reflexivity].
Qed.

(** [lstrip] and [rstrip] return the empty text for the same texts: those
    made of whitespace. *)
Lemma lstrip_empty_rstrip (s : string) :
Py.lstrip s = "" -> Py.rstrip s = "".
Proof.
induction s as [|c s IH]; [reflexivity|]. simpl.
destruct (Py.isspace c) eqn:Hc; [|discriminate].
intros H. rewrite (IH H). reflexivity.
Qed.

Lemma lstrip_suffix (s : string) : exists ws, s = ws +:+ Py.lstrip s.
Proof.
induction s as [|c s [ws IH]]; [now exists ""|]. simpl.
destruct (Py.isspace c).
- exists (String c ws). simpl. now rewrite <- IH.
- now exists "".
Qed.

Lemma rstrip_prefix (s : string) : exists ws, s = Py.rstrip s +:+ ws.
Proof.
induction s as [|c s [ws IH]]; [now exists ""|]. rewrite rstrip_cons.
destruct (_ && _) eqn:E.
- exists (String c s). reflexivity.
- exists ws. simpl. now rewrite <- IH.
Qed.

Lemma strip_infix (s : string) : exists a b, s = a +:+ Py.strip s +:+ b.
Proof.
destruct (lstrip_suffix s) as [a Ha].
destruct (rstrip_prefix (Py.lstrip s)) as [b Hb].
exists a, b. unfold Py.strip. now rewrite <- Hb.
Qed.

(** The text after a ". " inside a stripped text is not blank, and carries
    no trailing whitespace. *)
Lemma strip_after_dot_space (x after : string) :
Py.rstrip (x +:+ ". " +:+ after) = x +:+ ". " +:+ after ->
Py.strip after <> "" /\ Py.strip after = Py.lstrip after.
Proof.
intros H.
assert (H1 : Py.rstrip (" " +:+ after) = " " +:+ after).
{ apply (rstrip_fixed_suffix (x +:+ ".")).
  rewrite append_assoc. exact H. }
assert (Hr : Py.rstrip after = after)
  by (apply (rstrip_fixed_suffix " "); exact H1).
assert (Hne : Py.lstrip after <> "").
{ intros E. apply lstrip_empty_rstrip in E.
  change (" " +:+ after) with (String " " after) in H1.
  rewrite rstrip_cons, E in H1. discriminate. }
destruct (lstrip_suffix after) as [ws Hws].
assert (Hl : Py.rstrip (Py.lstrip after) = Py.lstrip after).
{ apply (rstrip_fixed_suffix ws). now rewrite <- Hws. }
unfold Py.strip. rewrite Hl. split; [assumption | reflexivity].
Qed.

End Stripping.

(* ---------------------------------------------------------------------- *)
(** ** Occurrences of a separator *)

Section Occurrences.

#[local] Arguments String.append !s1 s2 : simpl nomatch.
#[local] Arguments Ascii.eqb : simpl never.

Lemma strip_prefix_complete (p r : string) :
Py.strip_prefix p (p +:+ r) = Some r.
Proof.
induction p as [|a p IH]; simpl; [now destruct r|].
now rewrite Ascii.eqb_refl.
Qed.

Lemma cut_unfold (sep s : string) :
Py.cut sep s
= match Py.strip_prefix sep s with
  | Some rest => Some ("", rest)
  | None =>
      match s with
      | EmptyString => None
      | String c s' =>
          match Py.cut sep s' with
          | Some (before, after) => Some (String c before, after)
          | None => None
          end
      end
  end.
Proof. destruct s; reflexivity. Qed.

Lemma cut_complete (sep a b : string) :
Py.cut sep (a +:+ sep +:+ b) <> None.
Proof.
induction a as [|c a IH]; rewrite cut_unfold.
- change ("" +:+ sep +:+ b) with (sep +:+ b).
  now rewrite strip_prefix_complete.
- destruct (Py.strip_prefix sep _); [easy|].
  change (String c a +:+ sep +:+ b) with (String c (a +:+ sep +:+ b)).
  cbv beta iota.
  destruct (Py.cut sep (a +:+ sep +:+ b)) as [[x y]|]; [easy|].
  contradiction.
Qed.

Lemma contains_false (sep s : string) :
Py.contains sep s = false <-> (forall x y, s <> x +:+ sep +:+ y).
Proof.
unfold Py.contains. split.
- intros H x y ->. pose proof (cut_complete sep x y) as Hc.
  destruct (Py.cut sep _); [discriminate | contradiction].
- intros H. now rewrite cut_none.
Qed.

Lemma contains_infix (sep a s b : string) :
Py.contains sep (a +:+ s +:+ b) = false -> Py.contains sep s = false.
Proof.
rewrite !contains_false. intros H x y ->.
apply (H (a +:+ x) (y +:+ b)). now rewrite !append_assoc.
Qed.

(** [cut] stops at the first occurrence: there is none in what comes
    before it. *)
Lemma cut_before_free (sep s before after : string) :
sep <> "" ->
Py.cut sep s = Some (before, after) ->
Py.contains sep before = false.
Proof.
intros Hsep. revert before.
induction s as [|c s IH]; intros before; rewrite cut_unfold.
- destruct (Py.strip_prefix sep "") as [rest|] eqn:E; [|discriminate].
  intros [= <- <-]. unfold Py.contains. rewrite cut_unfold.
  now rewrite E in *; destruct sep.
- destruct (Py.strip_prefix sep (String c s)) as [rest|] eqn:E.
  + intros [= <- <-]. unfold Py.contains. rewrite cut_unfold.
    destruct sep; [congruence | reflexivity].
  + destruct (Py.cut sep s) as [[b a]|] eqn:Ec; [|discriminate].
    intros [= <- <-]. specialize (IH b eq_refl).
    apply contains_false. intros x y Hxy.
    destruct x as [|c' x].
    * change ("" +:+ sep +:+ y) with (sep +:+ y) in Hxy.
      apply cut_sound in Ec. rewrite Ec in E.
      change (String c (b +:+ sep +:+ a))
        with (String c b +:+ sep +:+ a) in E.
      rewrite Hxy, append_assoc, strip_prefix_complete in E. discriminate.
    * simpl in Hxy. injection Hxy as _ Hb.
      exact (proj1 (contains_false sep b) IH x y Hb).
Qed.

End Occurrences.

(* ---------------------------------------------------------------------- *)
(** ** The characters of the lines *)

Section Characters.

#[local] Arguments String.append !s1 s2 : simpl nomatch.
#[local] Arguments Ascii.eqb : simpl never.

Lemma in_append (c : ascii) (a b : string) :
In c (list_ascii_of_string (a +:+ b))
<-> In c (list_ascii_of_string a) \/ In c (list_ascii_of_string b).
Proof.
induction a as [|d a IH]; simpl; [tauto|]. rewrite IH. tauto.
Qed.

Lemma is_cr_linebreak (c : ascii) :
Py.is_cr c = true -> Py.islinebreak c = true.
Proof.
unfold Py.is_cr, Py.islinebreak. intros H. apply N.eqb_eq in H.
now rewrite H.
Qed.

(** No line that [splitlines] returns holds a line boundary. *)
Lemma splitlines_from_lines (n : nat) (s cur : string) :
(String.length s <= n)%nat ->
(forall c, In c (list_ascii_of_string cur) -> Py.islinebreak c = false) ->
Forall (fun line =>
          forall c, In c (list_ascii_of_string line) ->
                    Py.islinebreak c = false)
  (Py.splitlines_from cur s).
Proof.
revert s cur. induction n as [|n IH]; intros s cur Hlen Hcur.
- destruct s; [|simpl in Hlen; lia]. simpl.
  destruct (Py.is_empty cur); constructor; [assumption | constructor].
- destruct s as [|c s].
  + simpl. destruct (Py.is_empty cur); constructor; [assumption|constructor].
  + simpl in Hlen. simpl.
    assert (Hnil : forall c0, In c0 (list_ascii_of_string "") ->
                              Py.islinebreak c0 = false)
      by (intros ? []).
    destruct (Py.is_cr c) eqn:Hcr.
    * destruct s as [|c' s'].
      -- constructor; [assumption|]. apply IH; [simpl; lia | assumption].
      -- destruct (Py.is_lf c').
         ++ constructor; [assumption|].
            apply IH; [simpl in Hlen; lia | assumption].
         ++ constructor; [assumption|].
            apply IH; [lia | assumption].
    * destruct (Py.islinebreak c) eqn:Hc.
      -- constructor; [assumption|]. apply IH; [lia | assumption].
      -- apply IH; [lia|]. intros d Hd. apply in_append in Hd.
         destruct Hd as [Hd|[<-|[]]]; [now apply Hcur | assumption].
Qed.

Lemma splitlines_lines (s : string) :
Forall (fun line =>
          forall c, In c (list_ascii_of_string line) ->
                    Py.islinebreak c = false)
  (Py.splitlines s).
Proof.
apply (splitlines_from_lines (String.length s)); [lia | intros ? []].
Qed.

End Characters.

(* ---------------------------------------------------------------------- *)
(** ** The items of [parse_list] *)

Section ParseList.

#[local] Arguments String.append !s1 s2 : simpl nomatch.
#[local] Arguments Ascii.eqb : simpl never.

Local Abbreviation no_linebreak s :=
  (forall c, In c (list_ascii_of_string s) -> Py.islinebreak c = false).

Local Abbreviation well_formed item :=
  (numbered_list.title item <> ""
   /\ Py.strip (numbered_list.title item) = numbered_list.title item
   /\ Py.strip (numbered_list.id item) = numbered_list.id item
   /\ Py.contains ". " (numbered_list.id item) = false
   /\ no_linebreak (numbered_list.id item)
   /\ no_linebreak (numbered_list.title item)).

Lemma in_strip (c : ascii) (s : string) :
In c (list_ascii_of_string (Py.strip s)) -> In c (list_ascii_of_string s).
Proof.
destruct (strip_infix s) as (a & b & H). intros Hc. rewrite H.
apply in_append. right. apply in_append. now left.
Qed.

Lemma parse_line_well_formed (acc : list numbered_list.ListItem)
  (line : string) :
no_linebreak line ->
Forall (fun item => well_formed item) acc ->
Forall (fun item => well_formed item) (numbered_list.parse_line acc line).
Proof.
intros Hline Hacc. unfold numbered_list.parse_line.
destruct (Py.is_empty (Py.strip line)) eqn:Hblank; [assumption|].
unfold Py.contains, Py.split1.
destruct (Py.cut ". " (Py.strip line)) as [[b a]|] eqn:Hcut.
- apply Forall_app. split; [assumption|]. constructor; [|constructor].
  cbn [numbered_list.id numbered_list.title].
  pose proof (cut_sound _ _ _ _ Hcut) as Hs.
  assert (Hr : Py.rstrip (b +:+ ". " +:+ a) = b +:+ ". " +:+ a).
  { rewrite <- Hs. unfold Py.strip. apply rstrip_idem. }
  destruct (strip_after_dot_space b a Hr) as [Hne _].
  assert (Hin : forall s c, (s = a \/ s = b) ->
            In c (list_ascii_of_string (Py.strip s)) ->
            Py.islinebreak c = false).
  { intros s c Hab Hc. apply Hline, in_strip. rewrite Hs.
    apply in_strip in Hc. apply in_append.
    destruct Hab as [-> | ->]; [right | now left].
    apply in_append. now right. }
  repeat split.
  + assumption.
  + apply strip_idem.
  + apply strip_idem.
  + destruct (strip_infix b) as (x & y & Hb).
    apply (contains_infix ". " x _ y). rewrite <- Hb.
    now apply (cut_before_free ". " (Py.strip line) b a).
  + intros c. apply Hin. now right.
  + intros c. apply Hin. now left.
- apply Forall_app. split; [assumption|]. constructor; [|constructor].
  cbn [numbered_list.id numbered_list.title]. repeat split.
  + intros E. rewrite E in Hblank. discriminate.
  + apply strip_idem.
  + intros c [].
  + intros c Hc. now apply Hline, in_strip.
Qed.

Lemma parse_list_well_formed (output : string) :
Forall (fun item => well_formed item) (numbered_list.parse_list output).
Proof.
unfold numbered_list.parse_list.
pose proof (splitlines_lines output) as Hlines.
assert (H : forall lines acc,
          Forall (fun line => no_linebreak line) lines ->
          Forall (fun item => well_formed item) acc ->
          Forall (fun item => well_formed item)
            (foldl numbered_list.parse_line acc lines)).
{ induction lines as [|l lines IH]; intros acc Hl Hacc; [assumption|].
  inversion Hl; subst. simpl. apply IH; [assumption|].
  now apply parse_line_well_formed. }
apply H; [assumption | constructor].
Qed.

(** A text without line boundaries is parsed as one line. *)
Lemma parse_list_one_line (line : string) :
no_linebreak line ->
numbered_list.parse_list line = numbered_list.parse_line [] line.
Proof.
intros Hnb. unfold numbered_list.parse_list, Py.splitlines.
rewrite splitlines_from_one_line by assumption. simpl.
destruct line; reflexivity.
Qed.

(** The heading that the report prints for a well-formed item parses back
    to that item. *)
Lemma parse_heading (id title : string) :
well_formed (numbered_list.mkListItem id title) ->
numbered_list.parse_list (text_canvas.heading id title)
= [numbered_list.mkListItem id title].
Proof.
cbn [numbered_list.id numbered_list.title].
intros (Hne & Htitle & Hid & Hfree & Hnbi & Hnbt).
unfold text_canvas.heading.
rewrite parse_list_one_line.
2: { intros c Hc. apply in_append in Hc. destruct Hc as [Hc|Hc].
     - now apply Hnbi.
     - apply in_append in Hc. destruct Hc as [[<-|[<-|[]]]|Hc];
         [reflexivity | reflexivity | now apply Hnbt]. }
assert (Hs : Py.strip (id +:+ ". " +:+ title) = id +:+ ". " +:+ title).
{ apply strip_fixed.
  - apply lstrip_fixed. apply strip_fixed_l in Hid.
    pose proof (lstrip_head id) as Hh. rewrite Hid in Hh.
    destruct id as [|c r]; [reflexivity | exact Hh].
  - rewrite <- append_assoc. apply rstrip_fixed_app; [assumption|].
    now apply strip_fixed_r. }
unfold numbered_list.parse_line. rewrite Hs.
unfold Py.contains, Py.split1.
rewrite cut_dot_space_first by (now apply contains_false).
rewrite Hid, Htitle. destruct id; reflexivity.
Qed.

(** X14.  Every item that [parse_list] returns has a title that is not
    empty, and an id and a title without whitespace at either end; its id
    holds no ". ", the separator on which the line was split. *)
Theorem parse_list_items (output : string) :
Forall (fun item =>
          numbered_list.title item <> ""
          /\ Py.strip (numbered_list.title item) = numbered_list.title item
          /\ Py.strip (numbered_list.id item) = numbered_list.id item
          /\ Py.contains ". " (numbered_list.id item) = false)
  (numbered_list.parse_list output).
Proof.
eapply Forall_impl; [apply parse_list_well_formed|].
cbv beta. intros item H. tauto.
Qed.

(** X15.  [parse_list] returns one item for each line of the text that is
    not blank, and none for a line that is empty or made of whitespace: the
    number of items is the number of such lines, and a text of blank lines
    gives no item. *)
Theorem parse_list_one_item_per_line (output : string) :
length (numbered_list.parse_list output)
= length (List.filter (fun line => negb (Py.is_empty (Py.strip line)))
            (Py.splitlines output))
/\ (Forall (fun line => Py.strip line = "") (Py.splitlines output) ->
    numbered_list.parse_list output = []).
Proof.
unfold numbered_list.parse_list.
assert (H : forall lines acc,
          length (foldl numbered_list.parse_line acc lines)
          = (length acc
             + length (List.filter
                         (fun line => negb (Py.is_empty (Py.strip line)))
                         lines))%nat).
{ induction lines as [|l lines IH]; intros acc; simpl; [lia|].
  rewrite IH. unfold numbered_list.parse_line, Py.contains, Py.split1.
  destruct (Py.is_empty (Py.strip l)); cbn [negb]; [reflexivity|].
  destruct (Py.cut ". " (Py.strip l)) as [[b a]|];
    rewrite length_app; simpl; lia. }
split.
- now rewrite H.
- intros Hblank. apply length_zero_iff_nil. rewrite H. simpl.
  induction Hblank as [|l lines Hl _ IH]; [reflexivity|].
  simpl. rewrite Hl. exact IH.
Qed.

(** X16.  Round trip between the parser and the report: for every item
    that [parse_list] returns, the heading [<id>. <title>] that
    [text_canvas] prints for it is parsed back by [parse_list] as that one
    item. *)
Theorem parse_list_heading_round_trip (output : string) :
Forall (fun item =>
          numbered_list.parse_list
            (text_canvas.heading (numbered_list.id item)
               (numbered_list.title item))
          = [item])
  (numbered_list.parse_list output).
Proof.
eapply Forall_impl; [apply parse_list_well_formed|].
cbv beta. intros [id title] H. now apply parse_heading.
Qed.

End ParseList.

Lemma parse_list_one_item_per_line_witness :
numbered_list.parse_list
  ("   " +:+ String "010" (String "009" (String "010" "")))
= [].
Proof.
apply (proj2 (parse_list_one_item_per_line _)).
repeat constructor.
Defined.

(* ---------------------------------------------------------------------- *)
(** ** File names *)

Section FileNames.

#[local] Arguments String.append !s1 s2 : simpl nomatch.
#[local] Arguments Ascii.eqb : simpl never.

Lemma rfind_char_lower_bound (c : ascii) (s : string) :
-1 <= Py.rfind_char c s.
Proof.
induction s as [|d s IH]; simpl; [lia|].
destruct (Z.leb_spec 0 (Py.rfind_char c s)); [lia|].
destruct (Ascii.eqb c d); lia.
Qed.

Lemma rfind_char_app (c : ascii) (a b : string) :
Py.rfind_char c (a +:+ b)
= if 0 <=? Py.rfind_char c b
  then Z.of_nat (String.length a) + Py.rfind_char c b
  else Py.rfind_char c a.
Proof.
induction a as [|d a IH].
- simpl. destruct (Z.leb_spec 0 (Py.rfind_char c b)); [reflexivity|].
  pose proof (rfind_char_lower_bound c b). lia.
- change (String d a +:+ b) with (String d (a +:+ b)).
  cbn [Py.rfind_char String.length]. rewrite IH.
  destruct (Z.leb_spec 0 (Py.rfind_char c b)) as [Hb|Hb].
  + replace (0 <=? Z.of_nat (String.length a) + Py.rfind_char c b) with true
      by (symmetry; apply Z.leb_le; lia).
    lia.
  + reflexivity.
Qed.

Lemma substring_app_prefix (a b : string) (n : nat) :
String.substring 0 (String.length a + n) (a +:+ b)
= a +:+ String.substring 0 n b.
Proof.
induction a as [|d a IH]; [reflexivity|]. simpl. now rewrite IH.
Qed.

Lemma in_remove_chars (class : list ascii) (c : ascii) (s : string) :
In c (list_ascii_of_string (Py.remove_chars class s))
<-> In c (list_ascii_of_string s) /\ ~ In c class.
Proof.
induction s as [|d s IH]; simpl; [tauto|].
destruct (existsb (Ascii.eqb d) class) eqn:E.
- rewrite IH. apply existsb_exists in E as (x & Hx & Heq).
  apply Ascii.eqb_eq in Heq. subst x.
  split; [tauto|]. intros [[<-|H] Hn]; [contradiction | tauto].
- simpl. rewrite IH. split.
  + intros [<-|H]; [|tauto]. split; [now left|].
    intros Hin. assert (existsb (Ascii.eqb d) class = true); [|congruence].
    apply existsb_exists. exists d. split; [assumption|].
    apply Ascii.eqb_refl.
  + tauto.
Qed.

Lemma in_replace_char (old : ascii) (new : string) (c : ascii)
  (s : string) :
In c (list_ascii_of_string (Py.replace_char old new s)) ->
In c (list_ascii_of_string new)
\/ (In c (list_ascii_of_string s) /\ c <> old).
Proof.
induction s as [|d s IH]; simpl; [tauto|].
destruct (Ascii.eqb_spec d old) as [->|Hne].
- intros H. apply in_append in H. tauto.
- simpl. intros [<-|H]; [right; split; [now left | assumption] | tauto].
Qed.

Lemma in_lower (c : ascii) (s : string) :
In c (list_ascii_of_string (Py.lower s)) ->
exists d, In d (list_ascii_of_string s) /\ c = Py.lower_char d.
Proof.
induction s as [|d s IH]; simpl; [tauto|].
intros [<-|H]; [exists d; tauto|].
destruct (IH H) as (x & Hx & ->). exists x. tauto.
Qed.

Lemma in_keep_chars (keep : ascii -> bool) (c : ascii) (s : string) :
In c (list_ascii_of_string (Py.keep_chars keep s)) ->
In c (list_ascii_of_string s) /\ keep c = true.
Proof.
induction s as [|d s IH]; simpl; [tauto|].
destruct (keep d) eqn:E; simpl; [|tauto].
intros [<-|H]; tauto.
Qed.

(** Lower-casing takes no character to one that the sanitizer removes or
    replaces, and changes no lower-cased character. *)
Lemma lower_char_clean (d : ascii) :
(existsb (Ascii.eqb (Py.lower_char d)) text_canvas.invalid_chars
 || Ascii.eqb (Py.lower_char d) " " || Ascii.eqb (Py.lower_char d) "&")
= (existsb (Ascii.eqb d) text_canvas.invalid_chars
   || Ascii.eqb d " " || Ascii.eqb d "&")
/\ Py.lower_char (Py.lower_char d) = Py.lower_char d.
Proof.
destruct d as [[] [] [] [] [] [] [] []]; split; vm_compute; reflexivity.
Qed.

Lemma lower_char_alnum (d : ascii) :
Py.isalnum d || Ascii.eqb d "_" = true ->
Py.isalnum (Py.lower_char d) || Ascii.eqb (Py.lower_char d) "_" = true.
Proof.
destruct d as [[] [] [] [] [] [] [] []]; vm_compute; trivial.
Qed.

End FileNames.

Section FileNameTheorems.

#[local] Arguments String.append !s1 s2 : simpl nomatch.
#[local] Arguments Ascii.eqb : simpl never.

(** X17.  The file names of [text_canvas.main].  Whatever the project name,
    the name of the text report is the sanitized project name followed by
    [_processed.txt]: cutting the JSON name at its last dot removes the
    extension and nothing else, also when the project name holds dots.  The
    sanitized project name holds none of the characters that the regular
    expression removes, no space, no ampersand and no capital letter. *)
Theorem text_canvas_file_names (project_name : string) :
text_canvas.txt_file project_name
= text_canvas.sanitized_project_name project_name +:+ "_processed.txt"
/\ Forall (fun c =>
             ~ In c text_canvas.invalid_chars
             /\ c <> " "%char /\ c <> "&"%char /\ Py.lower_char c = c)
     (list_ascii_of_string
        (text_canvas.sanitized_project_name project_name)).
Proof.
split.
- unfold text_canvas.txt_file, text_canvas.output_file, Py.rsplit1_head.
  set (s := text_canvas.sanitized_project_name project_name).
  rewrite rfind_char_app.
  change (Py.rfind_char "." "_processed.json") with 10.
  cbn [Z.leb Z.compare].
  replace (Z.of_nat (String.length s) + 10 <? 0) with false
    by (symmetry; apply Z.ltb_ge; lia).
  unfold Py.slice.
  replace (Z.to_nat (Z.of_nat (String.length s) + 10 - 0))
    with (String.length s + 10)%nat by lia.
  change (Z.to_nat 0) with 0%nat.
  rewrite substring_app_prefix.
  change (String.substring 0 10 "_processed.json") with "_processed".
  now rewrite append_assoc.
- apply List.Forall_forall. intros c Hc.
  unfold text_canvas.sanitized_project_name in Hc.
  apply in_lower in Hc as (d & Hd & ->).
  assert (Hclean : existsb (Ascii.eqb d) text_canvas.invalid_chars
                   || Ascii.eqb d " " || Ascii.eqb d "&" = false).
  { apply in_replace_char in Hd as [Hd|[Hd Hamp]].
    - destruct Hd as [<-|[<-|[<-|[]]]]; reflexivity.
    - apply in_replace_char in Hd as [Hd|[Hd Hsp]].
      + destruct Hd as [<-|[]]. reflexivity.
      + apply in_remove_chars in Hd as [_ Hd].
        rewrite !orb_false_iff. repeat split.
        * destruct (existsb _ _) eqn:E; [|reflexivity].
          apply existsb_exists in E as (x & Hx & Heq).
          apply Ascii.eqb_eq in Heq. now subst x.
        * now apply Ascii.eqb_neq.
        * now apply Ascii.eqb_neq. }
  destruct (lower_char_clean d) as [Hsame Hidem].
  rewrite Hclean in Hsame. rewrite !orb_false_iff in Hsame.
  destruct Hsame as [[Hinv Hsp] Hamp].
  repeat split.
  + intros Hin.
    assert (existsb (Ascii.eqb (Py.lower_char d)) text_canvas.invalid_chars
            = true); [|congruence].
    apply existsb_exists. exists (Py.lower_char d).
    split; [assumption | apply Ascii.eqb_refl].
  + now apply Ascii.eqb_neq.
  + now apply Ascii.eqb_neq.
  + assumption.
Qed.



(** X19.  The name under which [save_to_json] writes a plan is a stem
    followed by [_plan.json], and the stem holds only alphanumeric
    characters and underscores, none of them a capital letter: whatever the
    project name, the file name holds no path separator, no space and no
    dot before its extension. *)
Theorem plan_filename_characters (project_name : string) :
exists stem,
  plan.plan_filename project_name = stem +:+ "_plan.json"
  /\ Forall (fun c =>
               Py.isalnum c || Ascii.eqb c "_" = true
               /\ Py.lower_char c = c
               /\ c <> "/"%char /\ c <> "\"%char /\ c <> " "%char
               /\ c <> "."%char)
       (list_ascii_of_string stem).
Proof.
unfold plan.plan_filename. eexists. split; [reflexivity|].
apply List.Forall_forall. intros c Hc.
apply in_lower in Hc as (d & Hd & ->).
assert (Hd' : Py.isalnum d || Ascii.eqb d "_" = true).
{ apply in_replace_char in Hd as [Hd|[Hd Hsp]].
  - destruct Hd as [<-|[]]. reflexivity.
  - apply in_strip, in_keep_chars in Hd as [_ Hk].
    apply Ascii.eqb_neq in Hsp. rewrite Hsp, orb_false_r in Hk.
    exact Hk. }
pose proof (lower_char_alnum d Hd') as Hl.
destruct (lower_char_clean d) as [_ Hidem].
split; [assumption|]. split; [assumption|].
repeat split; intros E; rewrite E in Hl; discriminate.
Qed.

(** X20.  The project name that [generate_response_and_project_name]
    returns is the first line of the stripped reply: the plan is the
    project name alone or the project name, a line feed and the rest; the
    project name holds no line feed and does not start with whitespace;
    and it is empty only when the reply is blank. *)
Theorem project_name_first_line (content : string) :
let (project_name, plan_text) := plan.project_name_and_plan content in
plan_text = Py.strip content
/\ (plan_text = project_name
    \/ exists rest, plan_text = project_name +:+ String "010" rest)
/\ ~ In "010"%char (list_ascii_of_string project_name)
/\ Py.lstrip project_name = project_name
/\ (project_name = "" <-> Py.strip content = "").
Proof.
unfold plan.project_name_and_plan.
pose proof (lstrip_rstrip_lstrip content) as Hl. fold (Py.strip content) in Hl.
set (p := Py.strip content) in *.
assert (Hsplit : forall s,
          (s = Py.split_head "010" s
           \/ exists rest, s = Py.split_head "010" s +:+ String "010" rest)
          /\ ~ In "010"%char (list_ascii_of_string (Py.split_head "010" s))).
{ induction s as [|d s [IH1 IH2]]; [simpl; tauto|].
  cbn [Py.split_head].
  destruct (Ascii.eqb_spec "010"%char d) as [<-|Hne].
  - split; [right; now exists s | intros []].
  - split.
    + destruct IH1 as [IH1|[rest IH1]].
      * left. simpl. now rewrite <- IH1.
      * right. exists rest. simpl. now rewrite <- IH1.
    + simpl. intros [E|E]; [congruence | contradiction]. }
destruct (Hsplit p) as [H1 H2].
split; [reflexivity|]. split; [exact H1|]. split; [exact H2|].
pose proof (lstrip_head (Py.rstrip (Py.lstrip content))) as Hh.
fold (Py.strip content) in Hh. fold p in Hh. rewrite Hl in Hh.
destruct p as [|d s]; [simpl; tauto|].
cbn [Py.split_head].
destruct (Ascii.eqb_spec "010"%char d) as [<-|Hne]; [discriminate|].
split; [|split; discriminate].
simpl. now rewrite Hh.
Qed.

(** X21.  [generate_explanation] and [generate_image_prompt] fall back on
    their fixed text only for an empty reply.  A reply that is not empty is
    returned stripped, so a reply made of whitespace gives an empty
    explanation or image prompt, not the fallback. *)
Theorem explanation_fallback (content : string) :
(content = "" ->
 data_img_p.explanation_of content = "No explanation generated."
 /\ data_img_p.image_prompt_of content = "No image prompt generated.")
/\ (content <> "" ->
    data_img_p.explanation_of content = Py.strip content
    /\ data_img_p.image_prompt_of content = Py.strip content)
/\ (content <> "" ->
    Forall (fun c => Py.isspace c = true) (list_ascii_of_string content) ->
    data_img_p.explanation_of content = ""
    /\ data_img_p.image_prompt_of content = "").
Proof.
unfold data_img_p.explanation_of, data_img_p.image_prompt_of.
assert (Hblank : forall s,
          Forall (fun c => Py.isspace c = true) (list_ascii_of_string s) ->
          Py.strip s = "").
{ intros s Hs. unfold Py.strip.
  replace (Py.lstrip s) with ""; [reflexivity|].
  induction s as [|d s IH]; [reflexivity|].
  cbn [list_ascii_of_string] in Hs. inversion Hs as [|? ? Hd Hs']; subst.
  simpl. rewrite Hd. now apply IH. }
split; [intros ->; split; reflexivity|]. split.
- intros Hne. destruct content; [congruence | split; reflexivity].
- intros Hne Hs. destruct content; [congruence|]. cbn [Py.is_empty negb].
  rewrite (Hblank _ Hs). split; reflexivity.
Qed.

Lemma explanation_fallback_witness :
data_img_p.explanation_of (String "010" " ") = ""
/\ data_img_p.explanation_of "" = "No explanation generated.".
Proof.
split.
- apply (proj2 (proj2 (explanation_fallback (String "010" " "))));
    [discriminate | repeat constructor].
- apply (proj1 (explanation_fallback "")). reflexivity.
Defined.

End FileNameTheorems.

(* ---------------------------------------------------------------------- *)
(** ** The dialogue *)

Import Console.

Ltac io_unfold :=
  cbv [interactive.fail io_bind io_ret lift input input_or bind ret print
       exit raise fst snd].

Section DialogueRuns.
Variables (api_key : string) (int_of_str : string -> option Z)
  (float_of_str : string -> option pyfloat).

(** The world once the lines [lines] have been written to stdout. *)
Lemma for_each_print (lines : list string) (w : world) :
  for_each lines print w = (Ret tt, set_stdout (stdout w ++ lines) w).
Proof.
  revert w; induction lines as [|l lines IH]; intros w.
  - cbn. rewrite app_nil_r. now destruct w.
  - cbn [for_each]. unfold bind at 1. unfold print at 1. rewrite IH.
    cbn. now rewrite <- app_assoc.
Qed.

(** X22.  The choice of the mode in [interactive_main].  The answer is
    stripped and lower-cased; a blank answer chooses "img".  An answer that
    is none of the seven modes ends the run with exit status 1 before any
    other question: nothing is sent, no file is written and no further line
    is read.  Without a line on standard input the run raises. *)
Theorem interactive_main_mode (video_mode three_d_mode three_d_aware_mode
    : IO unit) (w : world) :
  let main :=
    interactive.interactive_main api_key int_of_str float_of_str video_mode
      three_d_mode three_d_aware_mode in
  let asked :=
    set_stdout (stdout w ++ interactive.banner ++ ["Choose mode [img]: "])
      w in
  (forall answer rest,
     let mode := Py.lower (Py.strip answer) in
     (mode = "" \/ mode = "img" ->
      main (answer :: rest) w
      = interactive.img_mode api_key int_of_str rest asked)
     /\ (mode = "sketch" ->
         main (answer :: rest) w
         = interactive.sketch_mode api_key int_of_str float_of_str rest
             asked)
     /\ (mode = "sd3" ->
         main (answer :: rest) w
         = interactive.sd3_mode api_key int_of_str rest asked)
     /\ (mode = "upscale" ->
         main (answer :: rest) w
         = interactive.upscale_mode api_key int_of_str float_of_str rest
             asked)
     /\ (~ In mode [""; "img"; "video"; "3d"; "sketch"; "sd3"; "upscale";
                    "3d-aware"] ->
         fst (main (answer :: rest) w) = Exit 1
         /\ sent (snd (main (answer :: rest) w)) = sent w
         /\ fs (snd (main (answer :: rest) w)) = fs w
         /\ stdout (snd (main (answer :: rest) w))
            = stdout asked
              ++ ["Error: Invalid mode specified. "
                  +:+ "Please choose one of the supported modes."]))
  /\ (exists e, fst (main [] w) = Raise e).
Proof.
  intros main asked.
  assert (Hmain : forall stdin,
            main stdin w
            = match stdin with
              | [] => (Raise "EOF when reading a line", asked)
              | answer :: rest =>
                  let mode :=
                    let s := Py.lower (Py.strip answer) in
                    if Py.is_empty s then "img" else s in
                  (if String.eqb mode "img"
                   then interactive.img_mode api_key int_of_str
                   else if String.eqb mode "video" then video_mode
                   else if String.eqb mode "3d" then three_d_mode
                   else if String.eqb mode "sketch"
                   then interactive.sketch_mode api_key int_of_str
                          float_of_str
                   else if String.eqb mode "sd3"
                   then interactive.sd3_mode api_key int_of_str
                   else if String.eqb mode "upscale"
                   then interactive.upscale_mode api_key int_of_str
                          float_of_str
                   else if String.eqb mode "3d-aware"
                   then three_d_aware_mode
                   else interactive.fail
                          ("Error: Invalid mode specified. "
                           +:+ "Please choose one of the supported modes."))
                    rest asked
              end).
  { intros stdin. subst main asked. unfold interactive.interactive_main.
    unfold io_bind at 1. unfold lift at 1. unfold bind at 1 2.
    rewrite for_each_print. unfold ret at 1. cbn [fst snd].
    unfold io_bind at 1. unfold input at 1. unfold bind at 1 2.
    unfold print at 1.
    replace (set_stdout
               (stdout (set_stdout (stdout w ++ interactive.banner) w)
                ++ ["Choose mode [img]: "])
               (set_stdout (stdout w ++ interactive.banner) w))
      with (set_stdout
              (stdout w ++ interactive.banner ++ ["Choose mode [img]: "]) w)
      by (unfold set_stdout; cbn; now rewrite <- app_assoc).
    destruct stdin as [|answer rest]; reflexivity. }
  split; [|rewrite Hmain; eauto].
  intros answer rest mode. rewrite Hmain. cbv zeta. fold mode.
  split; [|split; [|split; [|split]]].
  - intros [-> | ->]; reflexivity.
  - intros ->. reflexivity.
  - intros ->. reflexivity.
  - intros ->. reflexivity.
  - intros Hnot.
    assert (Hne : forall m, In m [""; "img"; "video"; "3d"; "sketch"; "sd3";
                                  "upscale"; "3d-aware"] ->
                            String.eqb mode m = false).
    { intros m Hm. apply String.eqb_neq. intros ->. contradiction. }
    destruct mode as [|c mode'] eqn:E; [exfalso; apply Hnot; now left|].
    cbn [Py.is_empty]. rewrite <- E in *.
    rewrite !Hne by (cbn; tauto).
    subst asked. repeat split.
Qed.

End DialogueRuns.

Lemma interactive_main_mode_witness :
  let main :=
    interactive.interactive_main "key" (fun _ => None) (fun _ => None)
      (io_ret tt) (io_ret tt) (io_ret tt) in
  let w := world_of [Responds 0 finished] in
  fst (main [" Magic "; "a fox"] w) = Exit 1
  /\ sent (snd (main [" Magic "; "a fox"] w)) = sent w
  /\ main ["  IMG "; ""] w
     = (Exit 1,
        set_stdout
          (interactive.banner
           ++ ["Choose mode [img]: ";
               "Enter the prompt for image generation (required): ";
               "Error: A text prompt is required for image generation."])
          w).
Proof.
  intros main w. subst main.
  destruct (proj1 (interactive_main_mode "key" (fun _ => None)
                     (fun _ => None) (io_ret tt) (io_ret tt) (io_ret tt) w)
              " Magic " ["a fox"]) as (_ & _ & _ & _ & Hbad).
  destruct Hbad as (Hexit & Hsent & _).
  { vm_compute. intuition discriminate. }
  split; [exact Hexit|]. split; [exact Hsent|].
  rewrite (proj1 (proj1 (interactive_main_mode "key" (fun _ => None)
                           (fun _ => None) (io_ret tt) (io_ret tt)
                           (io_ret tt) w) "  IMG " [""]));
    [reflexivity | right; reflexivity].
Defined.

Ltac io_run := io_unfold; sys_unfold; rewrite <- ?app_assoc; cbn [app].

Section TextDialogue.
Variables (api_key : string) (int_of_str : string -> option Z).

Local Abbreviation or_default answer default :=
  (if Py.is_empty (Py.strip answer) then default else Py.strip answer).

(** The questions of mode "img" once the prompt is given. *)
Lemma img_mode_run (a1 a2 a3 a4 : string) (rest : list string)
    (w : world) :
  Py.strip a1 <> "" ->
  interactive.img_mode api_key int_of_str (a1 :: a2 :: a3 :: a4 :: rest) w
  = let asked :=
      set_stdout
        (stdout w
         ++ ["Enter the prompt for image generation (required): ";
             "Enter a negative prompt [default: '']: ";
             "Enter aspect ratio [default: 3:2]: ";
             "Enter seed [default: 42]: "])
        w in
    match int_of_str (or_default a4 "42") with
    | None =>
        (Exit 1,
         set_stdout (stdout asked ++ ["Error: Seed must be an integer."])
           asked)
    | Some seed =>
        let asked' :=
          set_stdout
            (stdout asked ++ ["Enter output format [default: jpeg]: "])
            asked in
        match rest with
        | [] => (Raise "EOF when reading a line", asked')
        | a5 :: rest' =>
            match
              generate_image api_key (Py.strip a1) (or_default a2 "")
                (or_default a3 "3:2") seed (or_default a5 "jpeg")
                IMAGE_GENERATION_ENDPOINT asked'
            with
            | (Ret _, w') => (Ret (tt, rest'), w')
            | (Exit code, w') => (Exit code, w')
            | (Raise e, w') => (Raise e, w')
            | (Blocked, w') => (Blocked, w')
            end
        end
    end.
Proof.
  intros Hprompt. unfold interactive.img_mode.
  assert (Hne : Py.is_empty (Py.strip a1) = false)
    by (destruct (Py.strip a1); [congruence | reflexivity]).
  open_world w. io_run. rewrite Hne. io_run.
  destruct (int_of_str _) as [seed|]; io_run; [|reflexivity].
  destruct rest as [|a5 rest']; io_run; [reflexivity|].
  destruct (generate_image _ _ _ _ _ _ _ _) as [[name|code|e|] w'];
    reflexivity.
Qed.

End TextDialogue.

Section TextDialogueSd3.
Variables (api_key : string) (int_of_str : string -> option Z).

Local Abbreviation or_default answer default :=
  (if Py.is_empty (Py.strip answer) then default else Py.strip answer).

(** The questions of mode "sd3" once the prompt is given. *)
Lemma sd3_mode_run (a1 a2 a3 a4 : string) (rest : list string)
    (w : world) :
  Py.strip a1 <> "" ->
  interactive.sd3_mode api_key int_of_str (a1 :: a2 :: a3 :: a4 :: rest) w
  = let asked :=
      set_stdout
        (stdout w
         ++ ["Enter the prompt for SD3 image generation (required): ";
             "Enter a negative prompt [default: '']: ";
             "Enter aspect ratio [default: 3:2]: ";
             "Enter seed [default: 42]: "])
        w in
    match int_of_str (or_default a4 "42") with
    | None =>
        (Exit 1,
         set_stdout (stdout asked ++ ["Error: Seed must be an integer."])
           asked)
    | Some seed =>
        let asked' :=
          set_stdout
            (stdout asked ++ ["Enter output format [default: jpeg]: "])
            asked in
        match rest with
        | [] => (Raise "EOF when reading a line", asked')
        | a5 :: rest' =>
            let menu :=
              set_stdout
                (stdout asked'
                 ++ ["Choose a model:"; "  1 -> sd3.5-large";
                     "  2 -> sd3-large-turbo"; "  3 -> sd3-medium";
                     "Enter your choice [1]: "])
                asked' in
            match rest' with
            | [] => (Raise "EOF when reading a line", menu)
            | a6 :: rest'' =>
                match
                  generate_sd3 api_key (Py.strip a1) (or_default a2 "")
                    (or_default a3 "3:2") seed (or_default a5 "jpeg")
                    (menu_model a6) SD3_ENDPOINT menu
                with
                | (Ret _, w') => (Ret (tt, rest''), w')
                | (Exit code, w') => (Exit code, w')
                | (Raise e, w') => (Raise e, w')
                | (Blocked, w') => (Blocked, w')
                end
            end
        end
    end.
Proof.
  intros Hprompt. unfold interactive.sd3_mode.
  assert (Hne : Py.is_empty (Py.strip a1) = false)
    by (destruct (Py.strip a1); [congruence | reflexivity]).
  open_world w. io_run. rewrite Hne. io_run.
  destruct (int_of_str _) as [seed|]; io_run; [|reflexivity].
  destruct rest as [|a5 rest']; io_run; [reflexivity|].
  destruct rest' as [|a6 rest'']; io_run; [reflexivity|].
  destruct (generate_sd3 _ _ _ _ _ _ _ _ _) as [[name|code|e|] w'];
    reflexivity.
Qed.

(** The request of [generate_image] and of [generate_sd3]. *)
Lemma text_modes_sent (prompt negative_prompt aspect_ratio : string)
    (seed : Z) (output_format model endpoint : string) (w : world)
    (reply : reply) (rest : list Sys.reply) :
  net w = reply :: rest ->
  sent (snd (generate_image api_key prompt negative_prompt aspect_ratio seed
               output_format endpoint w))
  = sent w
    ++ [mkRequest POST endpoint
          (<["Authorization" := "Bearer " +:+ api_key]>
             (<["Accept" := "image/*"]> ∅))
          (<["none" := PTuple "" ""]> ∅)
          (<["prompt" := VStr prompt]>
             (<["negative_prompt" := VStr negative_prompt]>
                (<["aspect_ratio" := VStr aspect_ratio]>
                   (<["seed" := VInt seed]>
                      (<["output_format" := VStr output_format]> ∅)))))]
  /\ sent (snd (generate_sd3 api_key prompt negative_prompt aspect_ratio
                  seed output_format model endpoint w))
     = sent w
       ++ [mkRequest POST endpoint
             (<["Authorization" := "Bearer " +:+ api_key]>
                (<["Accept" := "image/*"]> ∅))
             (<["none" := PTuple "" ""]> ∅)
             (sd3_params prompt negative_prompt aspect_ratio seed
                output_format model)].
Proof.
  intros Hnet. split.
  - remember (generate_image _ _ _ _ _ _ _ _) as run eqn:Hrun.
    unfold generate_image, image_request in Hrun.
    set (params := <["prompt" := _]> _) in *.
    assert (Himage : params !! "image" = None) by reflexivity.
    assert (Hmask : params !! "mask" = None) by reflexivity.
    unfold bind at 1 in Hrun. unfold try_except in Hrun.
    rewrite (send_generation_request_unattached endpoint params api_key w
               reply rest) in Hrun;
      [| rewrite Himage; reflexivity
       | rewrite (delete_id _ _ Himage); exact Hmask
       | exact Hnet].
    rewrite (delete_id _ _ Himage) in Hrun. cbv zeta in Hrun.
    destruct reply as [lat r|lat e]; [destruct (ok r)|];
      [destruct (content_filtered r)| |]; subst run; reflexivity.
  - remember (generate_sd3 _ _ _ _ _ _ _ _ _) as run eqn:Hrun.
    unfold generate_sd3, sd3_request in Hrun.
    set (params := sd3_params _ _ _ _ _ _) in *.
    assert (Himage : params !! "image" = None) by reflexivity.
    assert (Hmask : params !! "mask" = None) by reflexivity.
    unfold bind at 1 in Hrun. unfold try_except in Hrun.
    rewrite (send_generation_request_unattached endpoint params api_key w
               reply rest) in Hrun;
      [| rewrite Himage; reflexivity
       | rewrite (delete_id _ _ Himage); exact Hmask
       | exact Hnet].
    rewrite (delete_id _ _ Himage) in Hrun. cbv zeta in Hrun.
    destruct reply as [lat r|lat e]; [destruct (ok r)|];
      [destruct (content_filtered r)| |]; subst run; reflexivity.
Qed.

(** X23.  The modes "img" and "sd3" refuse to go on without a prompt or
    with a seed that [int] rejects: a blank prompt ends the run with exit
    status 1 after the first question, a bad seed after the fourth.  In
    both cases nothing is sent, no file is written and no reply is
    taken. *)
Theorem text_dialogue_rejects (w : world) :
  let rejected (run : outcome (unit * list string) * world) : Prop :=
    fst run = Exit 1
    /\ sent (snd run) = sent w
    /\ fs (snd run) = fs w
    /\ net (snd run) = net w in
  (forall a1 rest,
     Py.strip a1 = "" ->
     rejected (interactive.img_mode api_key int_of_str (a1 :: rest) w)
     /\ rejected (interactive.sd3_mode api_key int_of_str (a1 :: rest) w))
  /\ (forall a1 a2 a3 a4 rest,
        Py.strip a1 <> "" ->
        int_of_str (or_default a4 "42") = None ->
        rejected (interactive.img_mode api_key int_of_str
                    (a1 :: a2 :: a3 :: a4 :: rest) w)
        /\ rejected (interactive.sd3_mode api_key int_of_str
                       (a1 :: a2 :: a3 :: a4 :: rest) w)).
Proof.
  intros rejected. subst rejected. cbv beta. split.
  - intros a1 rest Hblank.
    unfold interactive.img_mode, interactive.sd3_mode.
    io_run. rewrite Hblank. cbn [Py.is_empty]. io_run. repeat split.
  - intros a1 a2 a3 a4 rest Hprompt Hseed.
    rewrite img_mode_run, sd3_mode_run by assumption. cbv zeta.
    rewrite Hseed. repeat split.
Qed.

(** X24.  Pressing Enter at every optional question of the modes "img" and
    "sd3" sends the defaults that the questions show: no negative prompt,
    aspect ratio 3:2, seed 42, format jpeg and, for "sd3", the model
    sd3.5-large; the prompt is sent stripped. *)
Theorem text_dialogue_defaults (w : world) (a1 a2 a3 a4 a5 a6 : string)
    (rest : list string) (reply : reply) (more : list Sys.reply) :
  Py.strip a1 <> "" ->
  Py.strip a2 = "" -> Py.strip a3 = "" -> Py.strip a4 = "" ->
  Py.strip a5 = "" -> Py.strip a6 = "" ->
  int_of_str "42" = Some 42 ->
  net w = reply :: more ->
  let request endpoint params :=
    mkRequest POST endpoint
      (<["Authorization" := "Bearer " +:+ api_key]>
         (<["Accept" := "image/*"]> ∅))
      (<["none" := PTuple "" ""]> ∅) params in
  sent (snd (interactive.img_mode api_key int_of_str
               (a1 :: a2 :: a3 :: a4 :: a5 :: rest) w))
  = sent w
    ++ [request IMAGE_GENERATION_ENDPOINT
          (<["prompt" := VStr (Py.strip a1)]>
             (<["negative_prompt" := VStr ""]>
                (<["aspect_ratio" := VStr "3:2"]>
                   (<["seed" := VInt 42]>
                      (<["output_format" := VStr "jpeg"]> ∅)))))]
  /\ sent (snd (interactive.sd3_mode api_key int_of_str
                  (a1 :: a2 :: a3 :: a4 :: a5 :: a6 :: rest) w))
     = sent w
       ++ [request SD3_ENDPOINT
             (<["prompt" := VStr (Py.strip a1)]>
                (<["negative_prompt" := VStr ""]>
                   (<["aspect_ratio" := VStr "3:2"]>
                      (<["seed" := VInt 42]>
                         (<["output_format" := VStr "jpeg"]>
                            (<["model" := VStr "sd3.5-large"]>
                               (<["mode" := VStr "text-to-image"]>
                                  ∅)))))))].
Proof.
  intros Hprompt H2 H3 H4 H5 H6 Hint Hnet request. subst request.
  cbv beta.
  rewrite img_mode_run, sd3_mode_run by assumption. cbv zeta.
  rewrite H2, H3, H4, H5. cbn [Py.is_empty]. rewrite Hint.
  assert (Hmodel : menu_model a6 = "sd3.5-large").
  { unfold menu_model. rewrite H6. reflexivity. }
  rewrite Hmodel.
  split.
  - match goal with
    | |- context [generate_image ?k ?p ?n ?a ?s ?f ?e ?w0] =>
        pose proof (proj1 (text_modes_sent p n a s f "" e w0 reply more
                             Hnet)) as Hsent;
        destruct (generate_image k p n a s f e w0) as [[name|code|e'|] w']
    end; exact Hsent.
  - match goal with
    | |- context [generate_sd3 ?k ?p ?n ?a ?s ?f ?m ?e ?w0] =>
        pose proof (proj2 (text_modes_sent p n a s f m e w0 reply more
                             Hnet)) as Hsent;
        destruct (generate_sd3 k p n a s f m e w0) as [[name|code|e'|] w']
    end; exact Hsent.
Qed.

End TextDialogueSd3.

Lemma text_dialogue_rejects_witness :
  let int_of_str s := if String.eqb s "42" then Some 42 else None in
  let w := world_of [Responds 0 finished] in
  let run := interactive.sd3_mode "key" int_of_str
               ["a fox"; ""; ""; "4 2"; "png"; "2"] w in
  fst run = Exit 1 /\ sent (snd run) = sent w /\ net (snd run) = net w.
Proof.
  intros int_of_str w run.
  destruct (proj2 (proj2 (text_dialogue_rejects "key" int_of_str w)
                     "a fox" "" "" "4 2" ["png"; "2"]
                     ltac:(discriminate) eq_refl))
    as (Hexit & Hsent & _ & Hnet).
  split; [exact Hexit|]. split; [exact Hsent | exact Hnet].
Defined.

Lemma text_dialogue_defaults_witness :
  let int_of_str s := if String.eqb s "42" then Some 42 else None in
  let w := world_of [Responds 0 finished] in
  map req_data
    (sent (snd (interactive.img_mode "key" int_of_str
                  [" a fox "; ""; " "; ""; ""] w)))
  = [<["prompt" := VStr "a fox"]>
       (<["negative_prompt" := VStr ""]>
          (<["aspect_ratio" := VStr "3:2"]>
             (<["seed" := VInt 42]>
                (<["output_format" := VStr "jpeg"]> ∅))))].
Proof.
  intros int_of_str w.
  rewrite (proj1 (text_dialogue_defaults "key" int_of_str w " a fox " ""
                    " " "" "" "" [] (Responds 0 finished) []
                    ltac:(discriminate) eq_refl eq_refl eq_refl eq_refl
                    eq_refl eq_refl eq_refl)).
  reflexivity.
Defined.

Section FileDialogue.
Variables (api_key : string) (int_of_str : string -> option Z)
  (float_of_str : string -> option pyfloat).

Local Abbreviation or_default answer default :=
  (if Py.is_empty (Py.strip answer) then default else Py.strip answer).

(** X25.  The modes "sketch" and "upscale" check every answer before they
    send anything.  An input path that is blank or names no file ends the
    run with exit status 1 after the first question; a blank prompt ends it
    after the second; a strength or creativity that [float] rejects, or
    that is not a number between 0 and 1 (an infinity and a NaN included),
    and a seed that [int] rejects, end it as well.  In each case nothing is
    sent, no file is written or opened and no reply is taken. *)
Theorem file_dialogue_rejects (w : world) :
  let rejected (run : outcome (unit * list string) * world) : Prop :=
    fst run = Exit 1
    /\ sent (snd run) = sent w
    /\ fs (snd run) = fs w
    /\ net (snd run) = net w
    /\ open_handles (snd run) = open_handles w in
  let sketch := interactive.sketch_mode api_key int_of_str float_of_str in
  let upscale := interactive.upscale_mode api_key int_of_str float_of_str in
  let unit_float answer default :=
    match float_of_str (or_default answer default) with
    | Some x => in_unit_interval x
    | None => false
    end in
  (forall a1 rest,
     Py.strip a1 = "" \/ fs w !! Py.strip a1 = None ->
     rejected (sketch (a1 :: rest) w) /\ rejected (upscale (a1 :: rest) w))
  /\ (forall a1 a2 rest,
        Py.strip a2 = "" ->
        rejected (sketch (a1 :: a2 :: rest) w)
        /\ rejected (upscale (a1 :: a2 :: rest) w))
  /\ (forall a1 a2 a3 a4 a5 rest,
        unit_float a4 "0.7" = false
        \/ int_of_str (or_default a5 "42") = None ->
        rejected (sketch (a1 :: a2 :: a3 :: a4 :: a5 :: rest) w))
  /\ (forall a1 a2 a3 a4 a5 rest,
        int_of_str (or_default a4 "42") = None
        \/ unit_float a5 "0.3" = false ->
        rejected (upscale (a1 :: a2 :: a3 :: a4 :: a5 :: rest) w)).
Proof.
  intros rejected sketch upscale unit_float.
  subst rejected sketch upscale unit_float. cbv beta.
  open_world w.
  assert (Hfound : forall p,
            bool_decide (is_Some (files0 !! p)) = false
            <-> files0 !! p = None).
  { intros p. destruct (files0 !! p) as [x|] eqn:E.
    - rewrite bool_decide_eq_true_2 by eauto. split; discriminate.
    - rewrite bool_decide_eq_false_2 by (intros [x Hx]; discriminate).
      tauto. }
  split; [|split; [|split]].
  - intros a1 rest Hpath.
    assert (Hbad : Py.is_empty (Py.strip a1)
                   || negb (bool_decide (is_Some (files0 !! Py.strip a1)))
                   = true).
    { destruct Hpath as [-> | Hpath]; [reflexivity|].
      apply Hfound in Hpath. rewrite Hpath. apply orb_true_r. }
    unfold interactive.sketch_mode, interactive.upscale_mode.
    io_run. rewrite Hbad. io_run. repeat split.
  - intros a1 a2 rest Hprompt.
    unfold interactive.sketch_mode, interactive.upscale_mode.
    io_run.
    destruct (Py.is_empty (Py.strip a1) || negb _); io_run;
      [repeat split|].
    rewrite Hprompt. cbn [Py.is_empty]. io_run. repeat split.
  - intros a1 a2 a3 a4 a5 rest Hbad.
    unfold interactive.sketch_mode. io_run.
    destruct (Py.is_empty (Py.strip a1) || negb _); io_run;
      [repeat split|].
    destruct (Py.is_empty (Py.strip a2)); io_run; [repeat split|].
    destruct (float_of_str _) as [[q|neg|]|]; io_run;
      try solve [repeat split].
    destruct (in_unit_interval (Finite q)) eqn:Hq; cbn [negb]; io_run;
      [|repeat split].
    destruct Hbad as [Hbad | ->]; [congruence|].
    io_run. repeat split.
  - intros a1 a2 a3 a4 a5 rest Hbad.
    unfold interactive.upscale_mode. io_run.
    destruct (Py.is_empty (Py.strip a1) || negb _); io_run;
      [repeat split|].
    destruct (Py.is_empty (Py.strip a2)); io_run; [repeat split|].
    destruct (int_of_str _) as [seed|] eqn:Hseed; io_run; [|repeat split].
    destruct (float_of_str _) as [[q|neg|]|]; io_run;
      try solve [repeat split].
    destruct (in_unit_interval (Finite q)) eqn:Hq; cbn [negb]; io_run;
      [|repeat split].
    destruct Hbad as [Hbad | Hbad]; congruence.
Qed.

End FileDialogue.

Lemma file_dialogue_rejects_witness :
  let int_of_str s := if String.eqb s "42" then Some 42 else None in
  let float_of_str s :=
    if String.eqb s "nan" then Some NaN
    else if String.eqb s "0.7" then Some (Finite 0.7) else None in
  let w := world_of [Responds 0 finished] in
  let run := interactive.sketch_mode "key" int_of_str float_of_str
               ["in.png"; "a house"; ""; "nan"; ""; ""] w in
  fst run = Exit 1 /\ sent (snd run) = sent w.
Proof.
  intros int_of_str float_of_str w run.
  destruct (proj1 (proj2 (proj2 (file_dialogue_rejects "key" int_of_str
                                   float_of_str w)))
              "in.png" "a house" "" "nan" "" [""] (or_introl eq_refl))
    as (Hexit & Hsent & _).
  split; [exact Hexit | exact Hsent].
Defined.

(* ---------------------------------------------------------------------- *)
(** ** Names derived from an input path *)

Section DerivedNames.

#[local] Arguments String.append !s1 s2 : simpl nomatch.
#[local] Arguments Ascii.eqb : simpl never.

Lemma rfind_char_spec (c : ascii) (s : string) :
(Py.rfind_char c s < 0 -> ~ In c (list_ascii_of_string s))
/\ (0 <= Py.rfind_char c s ->
    exists a b,
      s = a +:+ String c b
      /\ Z.of_nat (String.length a) = Py.rfind_char c s
      /\ ~ In c (list_ascii_of_string b)).
Proof.
induction s as [|d s [IHn IHp]]; cbn [Py.rfind_char].
- split; [intros _ [] | lia].
- destruct (Z.leb_spec 0 (Py.rfind_char c s)) as [Hr|Hr].
  + split; [lia|]. intros _.
    destruct (IHp Hr) as (a & b & -> & Hl & Hb).
    exists (String d a), b. cbn [String.length]. repeat split;
      [lia | assumption].
  + destruct (Ascii.eqb_spec c d) as [<-|Hne].
    * split; [lia|]. intros _. exists "", s. repeat split. now apply IHn.
    * split; [|lia]. intros _ [E|Hin]; [congruence | now apply IHn].
Qed.

Lemma substring_all (s : string) :
String.substring 0 (String.length s) s = s.
Proof. induction s as [|c s IH]; simpl; [reflexivity | now rewrite IH]. Qed.

Lemma substring_skip (a b : string) (m : nat) :
String.substring (String.length a) m (a +:+ b) = String.substring 0 m b.
Proof. induction a as [|c a IH]; [reflexivity | exact IH]. Qed.

Lemma substring_prefix (a b : string) :
String.substring 0 (String.length a) (a +:+ b) = a.
Proof.
induction a as [|c a IH]; simpl; [now destruct b | now rewrite IH].
Qed.

Lemma slice_from_app (a b : string) :
Py.slice_from (a +:+ b) (Z.of_nat (String.length a)) = b.
Proof.
unfold Py.slice_from. rewrite Nat2Z.id, substring_skip, length_append.
replace (String.length a + String.length b - String.length a)%nat
  with (String.length b) by lia.
apply substring_all.
Qed.

Lemma slice_prefix (a b : string) :
Py.slice (a +:+ b) 0 (Z.of_nat (String.length a)) = a.
Proof.
unfold Py.slice. rewrite Z.sub_0_r, Nat2Z.id. apply substring_prefix.
Qed.

(** [basename] returns what follows the directory part, and it holds no
    slash. *)
Lemma basename_spec (p : string) :
(exists dir, p = dir +:+ Py.basename p)
/\ ~ In "/"%char (list_ascii_of_string (Py.basename p)).
Proof.
unfold Py.basename.
destruct (rfind_char_spec "/" p) as [Hn Hp].
destruct (Z.leb_spec 0 (Py.rfind_char "/" p)) as [Hr|Hr].
- destruct (Hp Hr) as (a & b & Hs & Hl & Hb).
  assert (Hbase : Py.slice_from p (Py.rfind_char "/" p + 1) = b).
  { rewrite <- Hl, Hs.
    replace (a +:+ String "/" b) with ((a +:+ "/") +:+ b)
      by (now rewrite append_assoc).
    replace (Z.of_nat (String.length a) + 1)
      with (Z.of_nat (String.length (a +:+ "/")))
      by (rewrite length_append; simpl; lia).
    apply slice_from_app. }
  rewrite Hbase. split; [|assumption].
  exists (a +:+ "/"). now rewrite append_assoc.
- pose proof (rfind_char_lower_bound "/" p).
  replace (Py.rfind_char "/" p + 1) with 0 by lia.
  replace (Py.slice_from p 0) with p
    by (symmetry; apply (slice_from_app "" p)).
  split; [now exists "" | now apply Hn].
Qed.

(** [splitext] splits a name without slash in two parts that give the
    name back. *)
Lemma splitext_spec (s : string) :
~ In "/"%char (list_ascii_of_string s) ->
s = fst (Py.splitext s) +:+ snd (Py.splitext s).
Proof.
intros Hs. unfold Py.splitext.
destruct (rfind_char_spec "/" s) as [_ Hsep].
destruct (rfind_char_spec "." s) as [_ Hdot].
destruct (Py.rfind_char "/" s <? Py.rfind_char "." s) eqn:Hlt;
  [|cbn; now rewrite append_nil_r].
destruct (Py.all_dots _); [cbn; now rewrite append_nil_r|].
cbn [fst snd].
assert (Hr : 0 <= Py.rfind_char "." s).
{ apply Z.ltb_lt in Hlt. pose proof (rfind_char_lower_bound "/" s). lia. }
destruct (Hdot Hr) as (a & b & Heq & Hl & _).
rewrite <- Hl. rewrite Heq at 2 3.
now rewrite slice_prefix, slice_from_app.
Qed.

Lemma stem_spec (p : string) :
~ In "/"%char (list_ascii_of_string (fst (Py.splitext (Py.basename p))))
/\ Py.basename p
   = fst (Py.splitext (Py.basename p))
     +:+ snd (Py.splitext (Py.basename p)).
Proof.
destruct (basename_spec p) as [_ Hbase].
pose proof (splitext_spec _ Hbase) as Hsplit.
split; [|exact Hsplit].
intros Hin. apply Hbase. rewrite Hsplit. apply in_append. now left.
Qed.

Lemma in_string_of_uint (c : ascii) (d : Decimal.uint) :
In c (list_ascii_of_string (NilEmpty.string_of_uint d)) ->
c <> "/"%char.
Proof.
induction d; simpl; intros H; try tauto;
  (destruct H as [<-|H]; [discriminate | now apply IHd]).
Qed.

Lemma in_str_of_int (c : ascii) (n : Z) :
In c (list_ascii_of_string (Py.str_of_int n)) -> c <> "/"%char.
Proof.
unfold Py.str_of_int, NilZero.string_of_int.
destruct (Z.to_int n) as [d|d].
- unfold NilZero.string_of_uint.
  destruct d; try apply in_string_of_uint.
  simpl. intros [<-|[]]. discriminate.
- simpl. intros [<-|H]; [discriminate|]. revert H.
  unfold NilZero.string_of_uint.
  destruct d; try apply in_string_of_uint.
  simpl. intros [<-|[]]. discriminate.
Qed.

(** X26.  The files that the scripts name after an input path are created
    in the working directory, whatever the directory of the input: the
    names [<stem>_numbered_list.json] of [numbered_list.py] and
    [processed_<base name>] of [data_img_p.py] hold no slash, and neither
    do the names [edited_<stem>_<seed>.<format>] and
    [upscaled_<stem>_<seed>.<format>] of [sketch_to_image] and
    [upscale_image] when the format holds none.  The stem is the base name
    without the extension that [splitext] splits off: stem and extension
    together are the base name, and the path ends with the base name. *)
Theorem derived_names_have_no_directory (path : string) :
let stem := fst (Py.splitext (Py.basename path)) in
let no_slash s := ~ In "/"%char (list_ascii_of_string s) in
no_slash (numbered_list.output_filename path)
/\ no_slash (data_img_p.output_file path)
/\ (forall seed output_format,
      no_slash output_format ->
      no_slash ("edited_" +:+ stem +:+ "_" +:+ Py.str_of_int seed +:+ "."
                +:+ output_format)
      /\ no_slash ("upscaled_" +:+ stem +:+ "_" +:+ Py.str_of_int seed
                   +:+ "." +:+ output_format))
/\ Py.basename path = stem +:+ snd (Py.splitext (Py.basename path))
/\ (exists dir, path = dir +:+ Py.basename path).
Proof.
intros stem no_slash. subst no_slash. cbv beta.
destruct (stem_spec path) as [Hstem Hsplit]. fold stem in Hstem, Hsplit.
destruct (basename_spec path) as [Hdir Hbase].
assert (Hlit : forall s c,
          In c (list_ascii_of_string s) ->
          forallb (fun d => negb (Ascii.eqb d "/")) (list_ascii_of_string s)
          = true ->
          c <> "/"%char).
{ intros s c Hc Hall. rewrite forallb_forall in Hall.
  specialize (Hall c Hc). apply negb_true_iff in Hall.
  now apply Ascii.eqb_neq. }
split; [|split; [|split; [|split; [exact Hsplit | exact Hdir]]]].
- unfold numbered_list.output_filename. fold stem. intros Hin.
  apply in_append in Hin as [Hin|Hin]; [now apply Hstem|].
  now apply (Hlit _ _ Hin).
- unfold data_img_p.output_file. intros Hin.
  apply in_append in Hin as [Hin|Hin]; [now apply (Hlit _ _ Hin)|].
  now apply Hbase.
- intros seed output_format Hfmt. split; intros Hin.
  + apply in_append in Hin as [Hin|Hin]; [now apply (Hlit _ _ Hin)|].
    apply in_append in Hin as [Hin|Hin]; [now apply Hstem|].
    apply in_append in Hin as [Hin|Hin]; [now apply (Hlit _ _ Hin)|].
    apply in_append in Hin as [Hin|Hin]; [now apply (in_str_of_int _ _ Hin)|].
    apply in_append in Hin as [Hin|Hin]; [now apply (Hlit _ _ Hin)|].
    now apply Hfmt.
  + apply in_append in Hin as [Hin|Hin]; [now apply (Hlit _ _ Hin)|].
    apply in_append in Hin as [Hin|Hin]; [now apply Hstem|].
    apply in_append in Hin as [Hin|Hin]; [now apply (Hlit _ _ Hin)|].
    apply in_append in Hin as [Hin|Hin]; [now apply (in_str_of_int _ _ Hin)|].
    apply in_append in Hin as [Hin|Hin]; [now apply (Hlit _ _ Hin)|].
    now apply Hfmt.
Qed.

Lemma derived_names_have_no_directory_witness :
~ In "/"%char
    (list_ascii_of_string
       ("edited_" +:+ fst (Py.splitext (Py.basename "art/in.v2.png"))
        +:+ "_" +:+ Py.str_of_int 42 +:+ "." +:+ "webp")).
Proof.
apply (proj1 (proj2 (proj2 (derived_names_have_no_directory
                              "art/in.v2.png")))).
vm_compute. intuition discriminate.
Defined.

End DerivedNames.

(* ---------------------------------------------------------------------- *)
(** ** One file, written last *)

Section Saves.

Lemma saves_bind {A} (c : M A) (k : A -> M string) (w : world) :
  steady same_fs c ->
  (forall a w1, saves w1 (k a w1)) ->
  saves w (bind c k w).
Proof.
  intros Hc Hk. unfold bind. specialize (Hc w). unfold same_fs in Hc.
  destruct (c w) as [[a|code|e|] w1]; cbn [snd] in Hc;
    try (unfold saves; cbn [fst snd]; exact Hc).
  specialize (Hk a w1). unfold saves in *. rewrite <- Hc. exact Hk.
Qed.

Lemma saves_exit (code : Z) (w : world) : saves w (exit code w).
Proof. reflexivity. Qed.

Lemma saves_fail (line : string) (w : world) :
  saves w (bind (print line) (fun _ => exit 1) w).
Proof. reflexivity. Qed.

(** The last steps of a mode: the file is written and its name returned. *)
Lemma saves_write (filename data line : string) (w : world) :
  saves w
    (bind (write_wb filename data)
       (fun _ => bind (print line) (fun _ => ret filename)) w).
Proof. unfold saves. cbn. eauto. Qed.

Lemma saves_unique_write (prefix ext : string) (seed : option Z)
    (data : string) (line : string -> string) (w : world) :
  saves w
    (bind (unique_filename prefix ext seed)
       (fun filename =>
          bind (write_wb filename data)
            (fun _ => bind (print (line filename))
                        (fun _ => ret filename))) w).
Proof. unfold saves. destruct seed; cbn; eauto. Qed.

Lemma saves_while_true (body : M (option string)) :
  (forall w,
     match body w with
     | (Ret (Some name), w') => exists data, fs w' = <[name := data]> (fs w)
     | (_, w') => fs w' = fs w
     end) ->
  forall fuel w, saves w (while_true fuel body w).
Proof.
  intros Hbody. induction fuel as [|fuel IH]; intros w; [reflexivity|].
  rewrite while_true_S. specialize (Hbody w).
  destruct (body w) as [[[name|]|code|e|] w']; try exact Hbody.
  specialize (IH w'). unfold saves in *. rewrite <- Hbody. exact IH.
Qed.

Lemma saves_poll_video (result_url api_key : string) (seed : Z)
    (w : world) :
  saves w (poll_video result_url api_key seed w).
Proof.
  unfold poll_video, loop. apply saves_while_true. clear w. intros w.
  open_world w. unfold video_round. sys_unfold.
  destruct script0 as [|[lat r|lat e] rest]; try reflexivity.
  destruct (status_code r =? 202); [reflexivity|].
  destruct (status_code r =? 200); [|reflexivity].
  unfold unique_filename. sys_unfold. eauto.
Qed.

(** X27.  Every generation mode writes at most one file, and writes it
    last: whatever the files, the clock and the replies of the service, a
    run that returns has written the file whose name it returns and no
    other, and a run that ends in another way, by an exit, by an exception
    or waiting for a reply, has written none. *)
Theorem modes_write_one_file_last (w : world) (api_key : string) :
  (forall prompt negative_prompt aspect_ratio seed output_format endpoint,
     saves w (generate_image api_key prompt negative_prompt aspect_ratio
                seed output_format endpoint w))
  /\ (forall image_path seed cfg_scale motion_bucket_id endpoint,
        saves w (generate_video api_key image_path seed cfg_scale
                   motion_bucket_id endpoint w))
  /\ (forall image_path texture_resolution foreground_ratio remesh
             vertex_count additional_params endpoint,
        saves w (generate_3d api_key image_path texture_resolution
                   foreground_ratio remesh vertex_count additional_params
                   endpoint w)
        /\ saves w (generate_3d_aware api_key image_path texture_resolution
                      foreground_ratio remesh vertex_count additional_params
                      endpoint w))
  /\ (forall input_image prompt negative_prompt control_strength seed
             output_format endpoint,
        saves w (sketch_to_image api_key input_image prompt negative_prompt
                   control_strength seed output_format endpoint w))
  /\ (forall prompt negative_prompt aspect_ratio seed output_format model
             endpoint,
        saves w (generate_sd3 api_key prompt negative_prompt aspect_ratio
                   seed output_format model endpoint w))
  /\ (forall input_image prompt negative_prompt seed creativity
             output_format endpoint,
        saves w (upscale_image api_key input_image prompt negative_prompt
                   seed creativity output_format endpoint w)).
Proof.
  split; [|split; [|split; [|split; [|split]]]]; intros *.
  - unfold generate_image. apply saves_bind.
    + apply (steady_image_request same_fs).
    + intros r w1. destruct (content_filtered r);
        [apply saves_fail | apply saves_unique_write].
  - unfold generate_video. apply saves_bind; [steady|]. intros _ w1.
    apply saves_bind; [steady|]. intros r w2.
    destruct (ok r); cbn [negb]; [|apply saves_fail].
    apply saves_bind; [steady|]. intros doc w3.
    apply saves_bind; [steady|]. intros job w4.
    destruct (truthy job); cbn [negb]; [|apply saves_fail].
    apply saves_poll_video.
  - split.
    + unfold generate_3d. apply saves_bind; [steady|]. intros r w1.
      apply (saves_unique_write "model" "glb" None (content r)
               (fun filename =>
                  "3D model successfully generated and saved as '"
                  +:+ filename +:+ "'.")).
    + unfold generate_3d_aware. apply saves_bind; [steady|]. intros r w1.
      apply (saves_unique_write "model_3d_aware" "glb" None (content r)
               (fun filename =>
                  "3D aware model generated and saved as '" +:+ filename
                  +:+ "'.")).
  - unfold sketch_to_image. apply saves_bind.
    + apply (steady_sketch_request same_fs).
    + intros r w1. destruct (ok r); cbn [negb]; [|apply saves_fail].
      destruct (content_filtered r); [apply saves_fail|].
      cbv zeta. apply saves_write.
  - unfold generate_sd3. apply saves_bind.
    + apply (steady_sd3_request same_fs).
    + intros r w1. destruct (content_filtered r);
        [apply saves_fail | apply saves_unique_write].
  - unfold upscale_image. apply saves_bind.
    + apply (steady_upscale_request same_fs).
    + intros r w1. destruct (ok r); cbn [negb]; [|apply saves_fail].
      destruct (content_filtered r); [apply saves_fail|].
      cbv zeta. apply saves_write.
Qed.

End Saves.
